(** * Job Alert System: a shallow embedding of [job_alert.py]

    The development follows the structure of the Python class [JobAlert]:
    the identifier store ([load_seen_jobs], [save_seen_jobs]), the two
    Firecrawl fetchers, the HTML parser, the identifier function
    [get_job_id], the notifier [send_email] and the pipeline
    [check_for_new_jobs].

    Conventions.
    - A Python [str] is a [string]; one character of the string stands for
      one Python character.
    - A decoded JSON document is a [json].  Objects keep their insertion
      order, like a Python [dict].  Numbers are integers (the program never
      computes with a number it receives).
    - A Python exception is a value of [exn]; code that may raise returns a
      [result].
    - Printing, HTTP requests and file writes are recorded in a trace of
      [event]s, oldest first. *)

From Stdlib Require Import ZArith List Ascii String Bool Lia.
From stdpp Require Import base decidable countable gmap strings list pretty.

Set Warnings "-register-all,-clear-no-such-hyp".
Local Open Scope string_scope.
Local Open Scope list_scope.
Local Open Scope Z_scope.

(** ** Python values *)

Inductive json : Type :=
  | JNull
  | JBool (b : bool)
  | JInt (z : Z)
  | JStr (s : string)
  | JArr (items : list json)
  | JObj (fields : list (string * json)).

(** The exceptions the program can meet ([json.load] raises a
    [ValueError] on a document that is not JSON).  The last four are raised by
    [requests]; all of them are subclasses of
    [requests.exceptions.RequestException] (since requests 2.27
    [Response.json] raises [requests.exceptions.JSONDecodeError]).  Of
    these only [HTTPError] carries a response. *)
Inductive exn : Type :=
  | ValueError (msg : string)
  | TypeError
  | AttributeError
  | KeyError
  | OSError
  | ConnectionError
  | Timeout
  | HTTPError (response_text : string)
  | JSONDecodeError.

Definition is_RequestException (e : exn) : bool :=
  match e with
  | ConnectionError | Timeout | HTTPError _ | JSONDecodeError => true
  | ValueError _ | TypeError | AttributeError | KeyError | OSError => false
  end.

Inductive result (A : Type) : Type :=
  | Ok (a : A)
  | Raise (e : exn).
Arguments Ok {A} a.
Arguments Raise {A} e.

Definition bind {A B} (m : result A) (k : A -> result B) : result B :=
  match m with
  | Ok a => k a
  | Raise e => Raise e
  end.

Notation "'let*' x := m 'in' k" := (bind m (fun x => k))
  (at level 10, x name, m at level 100, k at level 200).

(** Python's truth value of a decoded JSON value. *)
Definition truthy (v : json) : bool :=
  match v with
  | JNull => false
  | JBool b => b
  | JInt z => negb (z =? 0)
  | JStr s => negb (String.eqb s "")
  | JArr l => match l with [] => false | _ => true end
  | JObj l => match l with [] => false | _ => true end
  end.

(** [not X] for an environment variable read with [os.getenv]. *)
Definition unset (v : option string) : bool :=
  match v with
  | None => true
  | Some s => String.eqb s ""
  end.

Definition is_dict (v : json) : bool :=
  match v with JObj _ => true | _ => false end.

(** [s.startswith(p)] *)
Fixpoint startswith (p s : string) : bool :=
  match p, s with
  | EmptyString, _ => true
  | String a p', String b s' => Ascii.eqb a b && startswith p' s'
  | String _ _, EmptyString => false
  end.

(** [p in s] for two strings. *)
Fixpoint substring_of (p s : string) : bool :=
  startswith p s ||
  match s with
  | EmptyString => false
  | String _ s' => substring_of p s'
  end.

(** Equality of decoded JSON values as Python's [==] sees it on the values
    the program compares: a string is equal to a string with the same
    characters and to nothing else. *)
Definition eq_str (k : string) (v : json) : bool :=
  match v with
  | JStr s => String.eqb k s
  | _ => false
  end.

(** *** Dictionaries *)

Fixpoint dict_lookup (k : string) (d : list (string * json)) : option json :=
  match d with
  | [] => None
  | (k', v) :: d' => if String.eqb k k' then Some v else dict_lookup k d'
  end.

(** [d[k] = v]: the value of an existing key is replaced in place, a new
    key is appended. *)
Fixpoint dict_set (k : string) (v : json) (d : list (string * json))
  : list (string * json) :=
  match d with
  | [] => [(k, v)]
  | (k', v') :: d' =>
      if String.eqb k k' then (k', v) :: d' else (k', v') :: dict_set k v d'
  end.

(** [k in x] *)
Definition py_contains (k : string) (x : json) : result bool :=
  match x with
  | JObj d => Ok (match dict_lookup k d with Some _ => true | None => false end)
  | JArr l => Ok (existsb (eq_str k) l)
  | JStr s => Ok (substring_of k s)
  | JNull | JBool _ | JInt _ => Raise TypeError
  end.

(** [x[k]] for a string [k] *)
Definition py_getitem (x : json) (k : string) : result json :=
  match x with
  | JObj d => match dict_lookup k d with Some v => Ok v | None => Raise KeyError end
  | _ => Raise TypeError
  end.

(** [x.get(k, default)] *)
Definition py_get (x : json) (k : string) (default : json) : result json :=
  match x with
  | JObj d => Ok (match dict_lookup k d with Some v => v | None => default end)
  | _ => Raise AttributeError
  end.

(** [x[k] = v] for a string [k]: the updated object. *)
Definition py_setitem (x : json) (k : string) (v : json) : result json :=
  match x with
  | JObj d => Ok (JObj (dict_set k v d))
  | _ => Raise TypeError
  end.

(** [for item in x]: the items the loop visits. *)
Definition py_iter (x : json) : result (list json) :=
  match x with
  | JArr l => Ok l
  | JObj d => Ok (map (fun kv => JStr (fst kv)) d)
  | JStr s => Ok (map (fun c => JStr (String c EmptyString)) (list_ascii_of_string s))
  | JNull | JBool _ | JInt _ => Raise TypeError
  end.

(** *** Set elements

    What a decoded JSON scalar is as a member of a Python [set]: [True] and
    [1] are the same member, a list or a dict is unhashable. *)
Inductive pykey : Type :=
  | KStr (s : string)
  | KInt (z : Z)
  | KNone.

#[global] Instance pykey_eq_dec : EqDecision pykey.
Proof. solve_decision. Defined.

#[global] Instance pykey_countable : Countable pykey.
Proof.
  refine (inj_countable'
    (fun k => match k with
              | KStr s => inl s
              | KInt z => inr (inl z)
              | KNone => inr (inr tt)
              end)
    (fun x => match x with
              | inl s => KStr s
              | inr (inl z) => KInt z
              | inr (inr _) => KNone
              end) _).
  intros []; reflexivity.
Defined.

Definition hashable (v : json) : result pykey :=
  match v with
  | JStr s => Ok (KStr s)
  | JInt z => Ok (KInt z)
  | JBool b => Ok (KInt (if b then 1 else 0))
  | JNull => Ok KNone
  | JArr _ | JObj _ => Raise TypeError
  end.

(** [hash(n)] for an integer on a 64-bit CPython. *)
Definition hash_int (z : Z) : Z :=
  let m := Z.sgn z * (Z.abs z mod (2 ^ 61 - 1)) in
  if m =? -1 then -2 else m.

(** What one interpreter process fixes: the salted string hash (it depends
    on the process's hash seed) and the text [str] gives for a list or a
    dict. *)
Record process : Type := {
  hash_str : string -> Z;
  hash_none : Z;
  repr_container : json -> string
}.

Section Interpreter.
Variable py : process.

(** [hash(v)] *)
Definition py_hash (v : json) : result Z :=
  match v with
  | JStr s => Ok (hash_str py s)
  | JInt z => Ok (hash_int z)
  | JBool b => Ok (if b then 1 else 0)
  | JNull => Ok (hash_none py)
  | JArr _ | JObj _ => Raise TypeError
  end.

(** [str(v)], the text an f-string inserts for [v]. *)
Definition py_str (v : json) : string :=
  match v with
  | JStr s => s
  | JInt z => pretty z
  | JBool true => "True"
  | JBool false => "False"
  | JNull => "None"
  | JArr _ | JObj _ => repr_container py v
  end.

(** ** Deduplicator *)

(** [get_job_id], lines 326-331. *)
Definition get_job_id (job : json) : result string :=
  let* has_link := py_contains "link" job in
  let* link_ok := (if has_link : bool
                   then (let* l := py_getitem job "link" in Ok (truthy l))
                   else Ok false) in
  if link_ok : bool then
    let* l := py_getitem job "link" in
    let* h := py_hash l in
    Ok (pretty (h mod 10 ^ 10))
  else
    let* t := py_get job "title" (JStr "") in
    let* c := py_get job "company" (JStr "") in
    Ok (pretty (hash_str py (py_str t +:+ "_" +:+ py_str c) mod 10 ^ 10)).

(** The identifiers of a batch, when each can be computed. *)
Fixpoint job_ids (jobs : list json) : result (list string) :=
  match jobs with
  | [] => Ok []
  | job :: rest =>
      let* job_id := get_job_id job in
      let* ids := job_ids rest in
      Ok (job_id :: ids)
  end.

(** The filter loop of [check_for_new_jobs], lines 434-439.  [seen] is
    [self.seen_job_ids]: it is updated in place, so an exception leaves
    the identifiers added so far in it. *)
Fixpoint filter_new (jobs : list json) (seen : gset pykey) (new_jobs : list json)
  : result (list json) * gset pykey :=
  match jobs with
  | [] => (Ok new_jobs, seen)
  | job :: rest =>
      match get_job_id job with
      | Raise e => (Raise e, seen)
      | Ok job_id =>
          if decide (KStr job_id ∈ seen)
          then filter_new rest seen new_jobs
          else filter_new rest ({[KStr job_id]} ∪ seen) (new_jobs ++ [job])
      end
  end.

End Interpreter.

(** The seen-set after the identifiers [ids] have been added to [seen]. *)
Definition seen_with (seen : gset pykey) (ids : list string) : gset pykey :=
  seen ∪ list_to_set (KStr <$> ids).

(** ** Effects *)

(** The places where the program prints, with what the message shows. *)
Inductive message : Type :=
  | MsgLoadError (e : exn)
  | MsgSaveError (e : exn)
  | MsgScraping
  | MsgExtracting
  | MsgApiStatus (status : Z) (detail : string)
  | MsgExtractApiStatus (status : Z) (detail : string)
  | MsgApiError (error_msg : string)
  | MsgFound (n : nat)
  | MsgRequestError (endpoint : string) (e : exn)
  | MsgParseError (e : exn)
  | MsgEmailSent (id : string)
  | MsgEmailError (e : exn)
  | MsgEmailResponse (text : string)
  | MsgNoJobs
  | MsgNewJobs (n : nat)
  | MsgNoNewJobs
  | MsgCheckError (e : exn).

Inductive event : Type :=
  | Print (msg : message)
  | Post (url : string) (payload : json) (headers : list (string * string)) (timeout : Z)
  | WriteFile (content : json)
  | TruncateFile.

(** A computation that records events and may raise. *)
Definition io (A : Type) : Type := (list event * result A)%type.

Definition io_ret {A} (a : A) : io A := ([], Ok a).

Definition io_bind {A B} (m : io A) (k : A -> io B) : io B :=
  match m with
  | (ev, Ok a) => let (ev', r) := k a in (ev ++ ev', r)
  | (ev, Raise e) => (ev, Raise e)
  end.

Notation "'let!' x := m 'in' k" := (io_bind m (fun x => k))
  (at level 10, x name, m at level 100, k at level 200).
Notation "m ;;; k" := (io_bind m (fun _ => k))
  (at level 100, k at level 200, right associativity).

Definition emit (e : event) : io unit := ([e], Ok tt).
Definition print (msg : message) : io unit := emit (Print msg).
Definition raise {A} (e : exn) : io A := ([], Raise e).
Definition lift {A} (r : result A) : io A := ([], r).

(** [try: body / except requests.exceptions.RequestException as e: handler] *)
Definition try_except_RequestException {A} (body : io A) (handler : exn -> io A) : io A :=
  match body with
  | (ev, Ok a) => (ev, Ok a)
  | (ev, Raise e) =>
      if is_RequestException e
      then let (ev', r) := handler e in (ev ++ ev', r)
      else (ev, Raise e)
  end.

(** [try: body / except Exception as e: handler] *)
Definition try_except_Exception {A} (body : io A) (handler : exn -> io A) : io A :=
  match body with
  | (ev, Ok a) => (ev, Ok a)
  | (ev, Raise e) => let (ev', r) := handler e in (ev ++ ev', r)
  end.

(** A loop whose body either goes on to the next item ([None]: the body
    ended or ran [continue]) or leaves the function with [return v]
    ([Some v]). *)
Fixpoint for_each {A V} (xs : list A) (body : A -> io (option V)) : io (option V) :=
  match xs with
  | [] => io_ret None
  | x :: xs' =>
      let! r := body x in
      match r with
      | Some v => io_ret (Some v)
      | None => for_each xs' body
      end
  end.

(** The documents the events of a trace wrote to the state file.  A
    [TruncateFile] is no document: it is [open(JOBS_DB_FILE, 'w')] emptying
    the file in a write that did not complete. *)
Definition writes (trace : list event) : list json :=
  omap (fun e => match e with WriteFile content => Some content | _ => None end) trace.

(** The requests the events of a trace made. *)
Definition posts (trace : list event) : list (string * json) :=
  omap (fun e => match e with Post url payload _ _ => Some (url, payload) | _ => None end)
       trace.

(** *** The world outside *)

Record response : Type := {
  status_code : Z;
  text : string;
  (** [None]: the body is not JSON and [response.json()] raises. *)
  json_body : option json
}.

Inductive post_outcome : Type :=
  | Responds (r : response)
  | ConnectionFails
  | TimesOut.

(** What BeautifulSoup shows of an [<a>] element: its [href] attribute,
    the text nodes below it in document order, and, when it has a parent,
    the text nodes of the first element below the parent whose class
    matches the company pattern, and of the first one whose class matches
    the location pattern. *)
Record parent_tag : Type := {
  company_elem : option (list string);
  location_elem : option (list string)
}.

Record a_tag : Type := {
  href : option string;
  strings : list string;
  find_parent : option parent_tag
}.

(** What BeautifulSoup makes of a document: parsing raises [e], or there is no
    element with id [offers-list], or there is one and these are the [<a>]
    elements below it in document order. *)
Inductive soup : Type :=
  | SoupRaises (e : exn)
  | NoOffersList
  | OffersList (anchors : list a_tag).

(** The file [jobs_db.json]: absent; present but [open] raises; readable
    but not JSON; or holding a JSON document. *)
Inductive db_file : Type :=
  | FileAbsent
  | FileUnreadable
  | FileInvalid
  | FileJson (data : json).

(** What happens when [save_seen_jobs] writes the file, lines 57-62: the
    write completes; or [open(JOBS_DB_FILE, 'w')] raises, and the file stays
    as it was; or [open] succeeds, which empties the file, and [json.dump]
    or closing the file raises (a full disk), which leaves the file empty
    or with the beginning of a document. *)
Inductive write_outcome : Type :=
  | WriteCompletes
  | OpenRaises
  | DumpRaises.

Record environment : Type := {
  FIRECRAWL_API_KEY : option string;
  RESEND_API_KEY : option string;
  EMAIL_TO : option string;
  JOB_BOARD_URL : option string;
  (** [requests.post(url, json=payload, headers=headers)] *)
  requests_post : string -> json -> list (string * string) -> post_outcome;
  (** [BeautifulSoup(html_content, 'html.parser')] and the element with id
      [offers-list] *)
  BeautifulSoup : json -> soup;
  (** [datetime.now()], formatted *)
  now : string;
  (** what happens when the state file is written *)
  db_write : write_outcome
}.

(** Whether the write of the state file completes. *)
Definition db_writable (env : environment) : bool :=
  match db_write env with
  | WriteCompletes => true
  | OpenRaises | DumpRaises => false
  end.

(** An environment variable inside a JSON payload or an f-string. *)
Definition getenv_json (v : option string) : json :=
  match v with
  | Some s => JStr s
  | None => JNull
  end.

(** ** Parser *)

(** [c.isspace()] for a character below 256. *)
Definition isspace (c : ascii) : bool :=
  let n := nat_of_ascii c in
  ((9 <=? n) && (n <=? 13) || (28 <=? n) && (n <=? 32) || (n =? 133) || (n =? 160))%nat.

Fixpoint lstrip_chars (cs : list ascii) : list ascii :=
  match cs with
  | [] => []
  | c :: cs' => if isspace c then lstrip_chars cs' else cs
  end.

(** [s.strip()] *)
Definition strip (s : string) : string :=
  string_of_list_ascii
    (rev (lstrip_chars (rev (lstrip_chars (list_ascii_of_string s))))).

(** [tag.get_text(strip=True)] for a tag with the text nodes [nodes]: every
    text node is stripped, the empty ones are dropped and the rest are
    joined with nothing between them. *)
Fixpoint get_text_strip (nodes : list string) : string :=
  match nodes with
  | [] => ""
  | s :: rest =>
      let s' := strip s in
      if String.eqb s' "" then get_text_strip rest else s' +:+ get_text_strip rest
  end.

(** [re.compile(r'/praca/|/oferta/|/job/').search(h)] *)
Definition href_matches (h : string) : bool :=
  substring_of "/praca/" h || substring_of "/oferta/" h || substring_of "/job/" h.

(** [offers_list.find_all('a', href=re.compile(...))] *)
Definition find_all_job_links (anchors : list a_tag) : list a_tag :=
  List.filter (fun a => match href a with
                        | Some h => href_matches h
                        | None => false
                        end) anchors.

Definition site_origin : string := "https://it.pracuj.pl".

(** The link of an accepted anchor, lines 185-189: [None] when the anchor
    is skipped. *)
Definition resolve_href (h : string) : option string :=
  if startswith "/" h then Some (site_origin +:+ h)
  else if negb (startswith "http" h) then None
  else Some h.

(** The text of the company or location element, or the default. *)
Definition nearby_text (default : string) (parent : option parent_tag)
    (elem : parent_tag -> option (list string)) : string :=
  match parent with
  | Some p =>
      match elem p with
      | Some nodes => get_text_strip nodes
      | None => default
      end
  | None => default
  end.

(** The record of lines 206-211. *)
Definition job_record (title company location link : string) : json :=
  JObj [("title", JStr title);
        ("company", JStr company);
        ("location", JStr location);
        ("link", JStr link)].

(** The body of the loop over [job_links], lines 176-214. *)
Fixpoint parse_job_links (job_links : list a_tag) (seen_titles : gset string)
    (jobs : list json) : list json :=
  match job_links with
  | [] => jobs
  | link :: rest =>
      let title := get_text_strip (strings link) in
      let h := default "" (href link) in
      if String.eqb title "" || (String.length title <? 5)%nat
         || bool_decide (title ∈ seen_titles)
      then parse_job_links rest seen_titles jobs
      else
        match resolve_href h with
        | None => parse_job_links rest seen_titles jobs
        | Some h' =>
            let parent := find_parent link in
            let company := nearby_text "Unknown" parent company_elem in
            let location := nearby_text "Location not specified" parent location_elem in
            let job := job_record title company location h' in
            parse_job_links rest ({[title]} ∪ seen_titles) (jobs ++ [job])
        end
  end.

Section Parser.
Variable env : environment.

(** [parse_jobs_from_html], lines 150-219.  Every exception inside the
    [try] is caught: BeautifulSoup raising, and the [AttributeError] of
    [offers_list.find_all] when there is no [offers-list] element. *)
Definition parse_jobs_from_html (html_content : json) : io (list json) :=
  if negb (truthy html_content) then io_ret []
  else
    try_except_Exception
      (match BeautifulSoup env html_content with
       | SoupRaises e => raise e
       | NoOffersList => raise AttributeError
       | OffersList anchors =>
           io_ret (parse_job_links (find_all_job_links anchors) ∅ [])
       end)
      (fun e => print (MsgParseError e) ;;; io_ret []).

End Parser.

(** ** Fetcher *)

(** [a or b] *)
Definition py_or (a b : json) : json := if truthy a then a else b.

(** [len(x)] *)
Definition py_len (x : json) : result nat :=
  match x with
  | JArr l => Ok (length l)
  | JObj d => Ok (length d)
  | JStr s => Ok (String.length s)
  | JNull | JBool _ | JInt _ => Raise TypeError
  end.

Definition nonempty {A} (l : list A) : bool :=
  match l with [] => false | _ :: _ => true end.

(** [requests.post(url, json=payload, headers=headers, timeout=timeout)] *)
Definition post (env : environment) (url : string) (payload : json)
    (headers : list (string * string)) (timeout : Z) : io response :=
  emit (Post url payload headers timeout) ;;;
  match requests_post env url payload headers with
  | Responds r => io_ret r
  | ConnectionFails => raise ConnectionError
  | TimesOut => raise Timeout
  end.

(** [response.raise_for_status()] *)
Definition raise_for_status (r : response) : io unit :=
  if (400 <=? status_code r) && (status_code r <? 600)
  then raise (HTTPError (text r))
  else io_ret tt.

(** [response.json()] *)
Definition response_json (r : response) : io json :=
  match json_body r with
  | Some data => io_ret data
  | None => raise JSONDecodeError
  end.

Section Fetcher.
Variable py : process.
Variable env : environment.

Definition firecrawl_headers : list (string * string) :=
  [("Authorization", "Bearer " +:+ py_str py (getenv_json (FIRECRAWL_API_KEY env)));
   ("Content-Type", "application/json")].

(** What the message for a status other than 200 shows: the decoded body
    when there is one, the raw text otherwise (lines 110-115). *)
Definition error_detail (r : response) : string :=
  match json_body r with
  | Some error_json => py_str py error_json
  | None => text r
  end.

Definition scrape_endpoints : list string :=
  ["https://api.firecrawl.dev/v2/scrape";
   "https://api.firecrawl.dev/v1/scrape"].

Definition scrape_payloads : list json :=
  [JObj [("url", getenv_json (JOB_BOARD_URL env));
         ("formats", JArr [JStr "html"; JStr "markdown"]);
         ("selectors", JArr [JStr "#offers-list"])];
   JObj [("url", getenv_json (JOB_BOARD_URL env));
         ("formats", JArr [JStr "html"; JStr "markdown"])];
   JObj [("url", getenv_json (JOB_BOARD_URL env));
         ("pageOptions", JObj [("onlyMainContent", JBool false)])]].

(** One turn of the inner loop of [scrape_jobs_with_firecrawl], lines
    104-146: [Some jobs] when it returns [jobs], [None] when the loop
    goes on. *)
Definition scrape_attempt (endpoint : string) (payload : json) : io (option json) :=
  try_except_RequestException
    (print MsgScraping ;;;
     let! response := post env endpoint payload firecrawl_headers 30 in
     if negb (status_code response =? 200) then
       print (MsgApiStatus (status_code response) (error_detail response)) ;;;
       io_ret None
     else
       raise_for_status response ;;;
       let! data := response_json response in
       let! content :=
         (if is_dict data then
            let! success := lift (py_get data "success" (JBool true)) in
            if negb (truthy success) then
              let! error_msg := lift (py_get data "error" (JStr "Unknown error")) in
              print (MsgApiError (py_str py error_msg)) ;;;
              io_ret None
            else
              let! content_data := lift (py_get data "data" data) in
              let! html := lift (py_get content_data "html" (JStr "")) in
              let! markdown := lift (py_get content_data "markdown" (JStr "")) in
              let! content := lift (py_get content_data "content" (JStr "")) in
              io_ret (Some (py_or (py_or html markdown) content))
          else io_ret (Some (JStr (py_str py data)))) in
       match content with
       | None => io_ret None
       | Some html_content =>
           if truthy html_content then
             let! jobs := parse_jobs_from_html env html_content in
             if nonempty jobs then
               print (MsgFound (length jobs)) ;;;
               io_ret (Some (JArr jobs))
             else io_ret None
           else io_ret None
       end)
    (fun e => print (MsgRequestError endpoint e) ;;; io_ret None).

(** [scrape_jobs_with_firecrawl], lines 66-148. *)
Definition scrape_jobs_with_firecrawl : io json :=
  if unset (FIRECRAWL_API_KEY env)
  then raise (ValueError "FIRECRAWL_API_KEY not set in environment variables")
  else
    let! found :=
      for_each scrape_endpoints (fun endpoint =>
        for_each scrape_payloads (fun payload =>
          scrape_attempt endpoint payload)) in
    io_ret (match found with Some jobs => jobs | None => JArr [] end).

Definition extract_endpoints : list string :=
  ["https://api.firecrawl.dev/v2/extract";
   "https://api.firecrawl.dev/v1/extract"].

Definition schema : json :=
  JObj [("type", JStr "object");
        ("properties",
         JObj [("jobs",
                JObj [("type", JStr "array");
                      ("items",
                       JObj [("type", JStr "object");
                             ("properties",
                              JObj [("title", JObj [("type", JStr "string")]);
                                    ("company", JObj [("type", JStr "string")]);
                                    ("location", JObj [("type", JStr "string")]);
                                    ("link", JObj [("type", JStr "string")]);
                                    ("description", JObj [("type", JStr "string")])])])])])].

Definition extract_payloads : list json :=
  [JObj [("url", getenv_json (JOB_BOARD_URL env));
         ("extractorOptions", JObj [("mode", JStr "llm-extract"); ("schema", schema)])];
   JObj [("urls", JArr [getenv_json (JOB_BOARD_URL env)]);
         ("extractorOptions", JObj [("mode", JStr "llm-extract"); ("schema", schema)])]].

(** Lines 312-314 for one [job]: the job after the body of the loop. *)
Definition add_id (job : json) : result json :=
  let* has_id := py_contains "id" job in
  if has_id : bool then Ok job
  else
    let* t := py_get job "title" (JStr "") in
    let* c := py_get job "company" (JStr "") in
    let* l := py_get job "link" (JStr "") in
    let job_id := py_str py t +:+ "_" +:+ py_str py c +:+ "_" +:+ py_str py l in
    py_setitem job "id" (JInt (hash_str py job_id mod 10 ^ 10)).

Fixpoint add_ids (jobs : list json) : result (list json) :=
  match jobs with
  | [] => Ok []
  | job :: rest =>
      let* job' := add_id job in
      let* rest' := add_ids rest in
      Ok (job' :: rest')
  end.

(** Lines 311-314: [jobs] after the loop.  Only the items of a list can
    be updated; the keys of a dict and the characters of a string are
    strings, which the body either leaves alone or fails on. *)
Definition generate_ids (jobs : json) : result json :=
  let* items := py_iter jobs in
  let* items' := add_ids items in
  Ok (match jobs with JArr _ => JArr items' | _ => jobs end).

(** One turn of the inner loop of [scrape_jobs_with_firecrawl_extract],
    lines 277-322. *)
Definition extract_attempt (endpoint : string) (payload : json) : io (option json) :=
  try_except_RequestException
    (print MsgExtracting ;;;
     let! response := post env endpoint payload firecrawl_headers 60 in
     if negb (status_code response =? 200) then
       print (MsgExtractApiStatus (status_code response) (error_detail response)) ;;;
       io_ret None
     else
       raise_for_status response ;;;
       let! data := response_json response in
       if is_dict data then
         let! success := lift (py_get data "success" (JBool true)) in
         if negb (truthy success) then
           let! error_msg := lift (py_get data "error" (JStr "Unknown error")) in
           print (MsgApiError (py_str py error_msg)) ;;;
           io_ret None
         else
           let! extracted_data := lift (py_get data "data" data) in
           let extracted_data :=
             match extracted_data with
             | JArr [] => JObj []
             | JArr (first :: _) => first
             | _ => extracted_data
             end in
           let! jobs := lift (py_get extracted_data "jobs" (JArr [])) in
           let! jobs := lift (generate_ids jobs) in
           if truthy jobs then
             let! n := lift (py_len jobs) in
             print (MsgFound n) ;;;
             io_ret (Some jobs)
           else io_ret None
       else io_ret None)
    (fun e => print (MsgRequestError endpoint e) ;;; io_ret None).

(** [scrape_jobs_with_firecrawl_extract], lines 221-324. *)
Definition scrape_jobs_with_firecrawl_extract : io json :=
  if unset (FIRECRAWL_API_KEY env)
  then raise (ValueError "FIRECRAWL_API_KEY not set in environment variables")
  else
    let! found :=
      for_each extract_endpoints (fun endpoint =>
        for_each extract_payloads (fun payload =>
          extract_attempt endpoint payload)) in
    io_ret (match found with Some jobs => jobs | None => JArr [] end).

(** The fetcher as [check_for_new_jobs] runs it, lines 423-427: extract
    mode, then scrape mode when extract mode gave nothing. *)
Definition fetch_jobs : io json :=
  let! jobs := scrape_jobs_with_firecrawl_extract in
  if negb (truthy jobs) then scrape_jobs_with_firecrawl else io_ret jobs.

End Fetcher.

(** ** Notifier *)

(** The double quote and the line feed, as strings. *)
Definition dq : string := String (ascii_of_nat 34) EmptyString.
Definition nl : string := String (ascii_of_nat 10) EmptyString.

Section Notifier.
Variable py : process.
Variable env : environment.

Definition resend_headers : list (string * string) :=
  [("Authorization", "Bearer " +:+ py_str py (getenv_json (RESEND_API_KEY env)));
   ("Content-Type", "application/json")].

(** The three parts of [html_body], lines 350-390. *)
Definition html_head (jobs : list json) : string :=
  "
        <html>
        <head>
            <style>
                body { font-family: Arial, sans-serif; }
                .job { margin: 20px 0; padding: 15px; border-left: 4px solid #007bff; background-color: #f8f9fa; }
                .job-title { font-size: 18px; font-weight: bold; color: #007bff; }
                .job-company { font-size: 14px; color: #666; margin: 5px 0; }
                .job-location { font-size: 14px; color: #666; }
                .job-link { margin-top: 10px; }
                .job-link a { color: #007bff; text-decoration: none; }
            </style>
        </head>
        <body>
            <h2>New React Job Postings Found</h2>
            <p>Found " +:+ pretty (length jobs) +:+ " new job posting(s) on " +:+ py_str py (getenv_json (JOB_BOARD_URL env)) +:+ "</p>
        ".

Definition html_job (title company location link : json) : string :=
  "
            <div class=" +:+ dq +:+ "job" +:+ dq +:+ ">
                <div class=" +:+ dq +:+ "job-title" +:+ dq +:+ ">" +:+ py_str py title +:+ "</div>
                <div class=" +:+ dq +:+ "job-company" +:+ dq +:+ ">" +:+ py_str py company +:+ "</div>
                <div class=" +:+ dq +:+ "job-location" +:+ dq +:+ ">" +:+ py_str py location +:+ "</div>
                <div class=" +:+ dq +:+ "job-link" +:+ dq +:+ "><a href=" +:+ dq +:+ py_str py link +:+ dq +:+ ">View Job →</a></div>
            </div>
            ".

Definition html_tail : string :=
  "
            <hr>
            <p style=" +:+ dq +:+ "color: #666; font-size: 12px;" +:+ dq +:+ ">
                This is an automated job alert. Checked at: " +:+ now env +:+ "
            </p>
        </body>
        </html>
        ".

(** The loop of lines 368-381: what it appends to [html_body]. *)
Fixpoint html_jobs (jobs : list json) : result string :=
  match jobs with
  | [] => Ok ""
  | job :: rest =>
      let* title := py_get job "title" (JStr "No title") in
      let* company := py_get job "company" (JStr "Unknown company") in
      let* location := py_get job "location" (JStr "Location not specified") in
      let* link := py_get job "link" (getenv_json (JOB_BOARD_URL env)) in
      let* more := html_jobs rest in
      Ok (html_job title company location link +:+ more)
  end.

(** The loop of lines 393-397: what it appends to [text_body]. *)
Fixpoint text_jobs (jobs : list json) : result string :=
  match jobs with
  | [] => Ok ""
  | job :: rest =>
      let* title := py_get job "title" (JStr "No title") in
      let* company := py_get job "company" (JStr "Unknown") in
      let* link := py_get job "link" JNull in
      let* more := text_jobs rest in
      Ok ("- " +:+ py_str py title +:+ " at " +:+ py_str py company +:+ nl
          +:+ (if truthy link then "  Link: " +:+ py_str py link +:+ nl else "")
          +:+ nl +:+ more)
  end.

(** [send_email], lines 333-417. *)
Definition send_email (jobs : list json) : io unit :=
  if unset (RESEND_API_KEY env)
  then raise (ValueError "RESEND_API_KEY not set in environment variables")
  else if negb (nonempty jobs) then io_ret tt
  else
    let url := "https://api.resend.com/emails" in
    let subject :=
      "New React Job Postings Found (" +:+ pretty (length jobs) +:+ " new)" in
    let! rows := lift (html_jobs jobs) in
    let html_body := html_head jobs +:+ rows +:+ html_tail in
    let! items := lift (text_jobs jobs) in
    let text_body :=
      "New React Job Postings Found" +:+ nl +:+ nl +:+ "Found "
      +:+ pretty (length jobs) +:+ " new job posting(s):" +:+ nl +:+ nl +:+ items in
    let payload :=
      JObj [("from", JStr "Job Alert <onboarding@resend.dev>");
            ("to", JArr [getenv_json (EMAIL_TO env)]);
            ("subject", JStr subject);
            ("html", JStr html_body);
            ("text", JStr text_body)] in
    try_except_RequestException
      (let! response := post env url payload resend_headers 30 in
       raise_for_status response ;;;
       let! result := response_json response in
       let! id := lift (py_get result "id" JNull) in
       print (MsgEmailSent (py_str py id)))
      (fun e =>
         print (MsgEmailError e) ;;;
         match e with
         | HTTPError response_text => print (MsgEmailResponse response_text)
         | _ => io_ret tt
         end).

End Notifier.

(** ** Identifier store *)

Definition key_json (k : pykey) : json :=
  match k with
  | KStr s => JStr s
  | KInt z => JInt z
  | KNone => JNull
  end.

Fixpoint hashables (items : list json) : result (list pykey) :=
  match items with
  | [] => Ok []
  | v :: rest =>
      let* k := hashable v in
      let* ks := hashables rest in
      Ok (k :: ks)
  end.

(** [set(data.get('seen_job_ids', []))], line 51. *)
Definition seen_job_ids_of (data : json) : result (gset pykey) :=
  let* ids := py_get data "seen_job_ids" (JArr []) in
  let* items := py_iter ids in
  let* keys := hashables items in
  Ok (list_to_set keys).

(** [JOBS_DB_FILE.exists()] *)
Definition file_exists (file : db_file) : bool :=
  match file with
  | FileAbsent => false
  | FileUnreadable | FileInvalid | FileJson _ => true
  end.

(** [open(JOBS_DB_FILE, 'r')] followed by [json.load(f)], lines 49-50. *)
Definition read_json (file : db_file) : result json :=
  match file with
  | FileAbsent | FileUnreadable => Raise OSError
  | FileInvalid => Raise (ValueError "Expecting value")
  | FileJson data => Ok data
  end.

(** [load_seen_jobs], lines 45-53: the events and [self.seen_job_ids]
    afterwards.  [seen] is [self.seen_job_ids] before the call. *)
Definition load_seen_jobs (file : db_file) (seen : gset pykey) : io (gset pykey) :=
  if file_exists file then
    try_except_Exception
      (let! data := lift (read_json file) in
       let! ids := lift (seen_job_ids_of data) in
       io_ret ids)
      (fun e => print (MsgLoadError e) ;;; io_ret seen)
  else io_ret seen.

(** [JobAlert.__init__], lines 41-43: [self.seen_job_ids] of the new
    object. *)
Definition JobAlert_init (file : db_file) : io (gset pykey) :=
  load_seen_jobs file ∅.

(** The document [save_seen_jobs] writes, lines 59-62. *)
Definition db_content (env : environment) (seen : gset pykey) : json :=
  JObj [("seen_job_ids", JArr (key_json <$> elements seen));
        ("last_updated", JStr (now env))].

(** The file after a write that did not complete: as it was when [open]
    raised; no JSON document when [open] had emptied it before [json.dump]
    raised. *)
Definition file_after_failed_write (env : environment) (file : db_file) : db_file :=
  match db_write env with
  | DumpRaises => FileInvalid
  | WriteCompletes | OpenRaises => file
  end.

(** [save_seen_jobs], lines 55-64: the events and the file afterwards.
    [open] with mode ['w'] is inside the [try], before [json.dump]: an
    exception of either is caught and printed, but only the first leaves
    the file as it was. *)
Definition save_seen_jobs (env : environment) (seen : gset pykey) (file : db_file)
  : io db_file :=
  try_except_Exception
    (match db_write env with
     | WriteCompletes =>
         emit (WriteFile (db_content env seen)) ;;;
         io_ret (FileJson (db_content env seen))
     | OpenRaises => raise OSError
     | DumpRaises => emit TruncateFile ;;; raise OSError
     end)
    (fun e => print (MsgSaveError e) ;;; io_ret (file_after_failed_write env file)).

(** ** Pipeline *)

Section Pipeline.
Variable py : process.
Variable env : environment.

(** [check_for_new_jobs], lines 419-451: the events, and
    [self.seen_job_ids] and the file afterwards. *)
Definition check_for_new_jobs (seen : gset pykey) (file : db_file)
  : list event * (gset pykey * db_file) :=
  match fetch_jobs py env with
  | (ev, Raise e) => (ev ++ [Print (MsgCheckError e)], (seen, file))
  | (ev, Ok jobs) =>
      if negb (truthy jobs) then (ev ++ [Print MsgNoJobs], (seen, file))
      else
        match py_iter jobs with
        | Raise e => (ev ++ [Print (MsgCheckError e)], (seen, file))
        | Ok items =>
            match filter_new py items seen [] with
            | (Raise e, seen') => (ev ++ [Print (MsgCheckError e)], (seen', file))
            | (Ok new_jobs, seen') =>
                if nonempty new_jobs then
                  let ev1 := ev ++ [Print (MsgNewJobs (length new_jobs))] in
                  match send_email py env new_jobs with
                  | (ev2, Raise e) =>
                      (ev1 ++ ev2 ++ [Print (MsgCheckError e)], (seen', file))
                  | (ev2, Ok _) =>
                      match save_seen_jobs env seen' file with
                      | (ev3, Ok file') => (ev1 ++ ev2 ++ ev3, (seen', file'))
                      | (ev3, Raise e) =>
                          (ev1 ++ ev2 ++ ev3 ++ [Print (MsgCheckError e)], (seen', file))
                      end
                  end
                else (ev ++ [Print MsgNoNewJobs], (seen', file))
            end
        end
  end.

End Pipeline.

(** ** Example inputs *)

(** A process whose salted hash sends one link to 111 and every other
    string to 222, and a second process with another salt. *)
Definition process_a : process :=
  {| hash_str := fun s => if String.eqb s "https://it.pracuj.pl/praca/1" then 111 else 222;
     hash_none := 0;
     repr_container := fun _ => "" |}.

Definition process_b : process :=
  {| hash_str := fun s => if String.eqb s "https://it.pracuj.pl/praca/1" then 98765 else 4321;
     hash_none := 0;
     repr_container := fun _ => "" |}.

Definition job_1 : json :=
  JObj [("title", JStr "React Developer"); ("company", JStr "Acme");
        ("location", JStr "Warszawa"); ("link", JStr "https://it.pracuj.pl/praca/1")].

Definition job_2 : json :=
  JObj [("title", JStr "Frontend Engineer"); ("company", JStr "Initech");
        ("location", JStr "Gdansk"); ("link", JStr "https://it.pracuj.pl/praca/2")].

(** [job_2] as extract mode hands it on, with a synthesized ['id']. *)
Definition job_2_with_id : json :=
  JObj [("title", JStr "Frontend Engineer"); ("company", JStr "Initech");
        ("location", JStr "Gdansk"); ("link", JStr "https://it.pracuj.pl/praca/2");
        ("id", JInt 222)].

(** An environment with every variable set, around a given server and a
    given reading of documents. *)
Definition env_with (server : string -> json -> list (string * string) -> post_outcome)
    (bs : json -> soup) : environment :=
  {| FIRECRAWL_API_KEY := Some "fc-test";
     RESEND_API_KEY := Some "re-test";
     EMAIL_TO := Some "me@example.com";
     JOB_BOARD_URL := Some "https://it.pracuj.pl/praca/react;kw";
     requests_post := server;
     BeautifulSoup := bs;
     now := "2025-01-01 12:00:00";
     db_write := WriteCompletes |}.

Definition ok_response (data : json) : response :=
  {| status_code := 200; text := ""; json_body := Some data |}.

Definition error_response (status : Z) : response :=
  {| status_code := status; text := "Internal Server Error"; json_body := None |}.

(** An anchor of the listing with a relative link. *)
Definition anchor_123 : a_tag :=
  {| href := Some "/praca/123";
     strings := ["  React Developer "];
     find_parent := Some {| company_elem := Some ["Acme"]; location_elem := None |} |}.

(** An anchor whose link is neither relative nor absolute. *)
Definition anchor_ftp : a_tag :=
  {| href := Some "ftp://it.pracuj.pl/praca/7";
     strings := ["Backend Developer"];
     find_parent := None |}.

(** A server whose extract endpoints answer 500 and whose scrape endpoints
    deliver a page with these two anchors in its listing. *)
Definition env_listing : environment :=
  env_with (fun url _ _ =>
              if startswith "https://api.firecrawl.dev/v2/scrape" url
              then Responds (ok_response
                     (JObj [("success", JBool true);
                            ("data", JObj [("html", JStr "<html>")])]))
              else Responds (error_response 500))
           (fun _ => OffersList [anchor_ftp; anchor_123]).

(** A record with a title of three characters, and a server whose extract
    endpoints deliver it. *)
Definition job_dev : json :=
  JObj [("title", JStr "Dev"); ("company", JStr "Acme");
        ("location", JStr "Warszawa"); ("link", JStr "https://it.pracuj.pl/praca/9")].

Definition env_short_title : environment :=
  env_with (fun _ _ _ =>
              Responds (ok_response
                (JObj [("success", JBool true);
                       ("data", JObj [("jobs", JArr [job_dev])])])))
           (fun _ => NoOffersList).

(** A server on which the v2 extract endpoint answers 500 and the v1
    extract endpoint delivers one record. *)
Definition env_fallback : environment :=
  env_with (fun url _ _ =>
              if String.eqb url "https://api.firecrawl.dev/v1/extract"
              then Responds (ok_response
                     (JObj [("success", JBool true);
                            ("data", JObj [("jobs", JArr [job_1])])]))
              else Responds (error_response 500))
           (fun _ => NoOffersList).

(** A server that is down. *)
Definition env_down : environment :=
  env_with (fun _ _ _ => ConnectionFails) (fun _ => NoOffersList).

(** A configuration without the key of the email API, around a server
    that delivers one record in extract mode. *)
Definition env_no_resend_key : environment :=
  {| FIRECRAWL_API_KEY := Some "fc-test";
     RESEND_API_KEY := None;
     EMAIL_TO := Some "me@example.com";
     JOB_BOARD_URL := Some "https://it.pracuj.pl/praca/react;kw";
     requests_post := fun _ _ _ =>
       Responds (ok_response
         (JObj [("success", JBool true); ("data", JObj [("jobs", JArr [job_1])])]));
     BeautifulSoup := fun _ => NoOffersList;
     now := "2025-01-01 12:00:00";
     db_write := WriteCompletes |}.

(** A server that delivers one record in extract mode while the email API
    answers 500. *)
Definition env_email_down : environment :=
  env_with (fun url _ _ =>
              if String.eqb url "https://api.resend.com/emails"
              then Responds (error_response 500)
              else Responds (ok_response
                     (JObj [("success", JBool true);
                            ("data", JObj [("jobs", JArr [job_1])])])))
           (fun _ => NoOffersList).

(** ** Notions used in the statements *)

Definition resend_url : string := "https://api.resend.com/emails".

(** The outcomes of the request to the email API after which [send_email]
    returns: the request fails or times out, the status is 4xx or 5xx,
    the body cannot be decoded as JSON, or the body is a JSON object. *)
Definition email_settles (o : post_outcome) : bool :=
  match o with
  | ConnectionFails | TimesOut => true
  | Responds r =>
      (400 <=? status_code r) && (status_code r <? 600)
      || match json_body r with
         | None | Some (JObj _) => true
         | Some _ => false
         end
  end.

(** The combinations the two nested loops of a fetcher go through, in the
    order of the loops: endpoints outside, payloads inside. *)
Definition combos {A B} (xs : list A) (ys : list B) : list (A * B) :=
  flat_map (fun x => map (fun y => (x, y)) ys) xs.

(** The three failures of one attempt: the request fails or times out, the
    status is not 200, or the body cannot be decoded as JSON. *)
Definition attempt_fails (o : post_outcome) : bool :=
  match o with
  | ConnectionFails | TimesOut => true
  | Responds r =>
      negb (status_code r =? 200)
      || match json_body r with None => true | Some _ => false end
  end.

(** A response with status 200 whose body is an object that does not
    report failure and carries [payload] under ['data']. *)
Definition delivers (o : post_outcome) (payload : list (string * json)) : Prop :=
  exists r d,
    o = Responds r /\ status_code r = 200 /\ json_body r = Some (JObj d) /\
    match dict_lookup "success" d with
    | Some success => truthy success = true
    | None => True
    end /\
    dict_lookup "data" d = Some (JObj payload).

(** Two records that differ at most in their ['id'] field. *)
Definition same_but_id (job job' : json) : Prop :=
  exists d d', job = JObj d /\ job' = JObj d' /\
    forall k, k <> "id" -> dict_lookup k d = dict_lookup k d'.

(** The title of a record, as a string ([""] when it has none). *)
Definition record_title (job : json) : string :=
  match py_getitem job "title" with
  | Ok (JStr title) => title
  | _ => ""
  end.

(** [job] is the record the parser builds from the anchor [a]: the text
    of [a] is its title, which is not empty and has at least 5 characters,
    and its link is the resolved [href] of [a]. *)
Definition from_anchor (a : a_tag) (job : json) : Prop :=
  let title := get_text_strip (strings a) in
  exists link,
    resolve_href (default "" (href a)) = Some link /\
    title <> "" /\
    (5 <= String.length title)%nat /\
    job = job_record title
            (nearby_text "Unknown" (find_parent a) company_elem)
            (nearby_text "Location not specified" (find_parent a) location_elem)
            link.

(** An [href] the parser keeps: relative with a leading slash, or
    absolute. *)
Definition link_kept (a : a_tag) : bool :=
  let h := default "" (href a) in
  startswith "/" h || startswith "http" h.

(** Two runs of the filter loop that took the same decisions: the same
    set afterwards, and either the same exception or new records that
    agree pairwise up to their ['id'] field. *)
Definition same_decisions (r r' : result (list json) * gset pykey) : Prop :=
  snd r = snd r' /\
  match fst r, fst r' with
  | Ok new_jobs, Ok new_jobs' =>
      Forall2 (fun job job' => job' = job \/ same_but_id job job') new_jobs new_jobs'
  | Raise e, Raise e' => e = e'
  | _, _ => False
  end.

(** A list of characters that does not begin with white space. *)
Definition no_lead (cs : list ascii) : Prop :=
  match cs with
  | [] => True
  | c :: _ => isspace c = false
  end.

(** A string with no white space at either end. *)
Definition trimmed (s : string) : Prop :=
  no_lead (list_ascii_of_string s) /\ no_lead (rev (list_ascii_of_string s)).

(** A title as the parser guarantees it: a string that is not empty, has
    no white space at either end and has at least 5 characters once
    stripped. *)
Definition valid_title (job : json) : Prop :=
  exists title,
    py_getitem job "title" = Ok (JStr title) /\
    title <> "" /\
    strip title = title /\
    (5 <= String.length (strip title))%nat.

(** Case analysis on the scrutinee of the innermost [match] of the goal. *)
Ltac break_match :=
  match goal with
  | |- context [match ?x with _ => _ end] =>
      lazymatch x with
      | context [match _ with _ => _ end] => fail
      | _ => destruct x eqn:?
      end
  end.

(** ** Notions and inputs of the further properties *)

(** A record without a usable link: the key is absent, or its value is
    falsy. *)
Definition link_missing (d : list (string * json)) : Prop :=
  match dict_lookup "link" d with
  | Some l => truthy l = false
  | None => True
  end.

(** An anchor with a usable title and a usable link: its text is not
    empty and has at least 5 characters, and its [href] begins with [/] or
    with [http]. *)
Definition acceptable (a : a_tag) : Prop :=
  get_text_strip (strings a) <> "" /\
  (5 <= String.length (get_text_strip (strings a)))%nat /\
  (startswith "/" (default "" (href a)) = true \/
   startswith "http" (default "" (href a)) = true).

(** A response with status 200 whose body is the object [d], which does
    not report failure. *)
Definition answers (o : post_outcome) (d : list (string * json)) : Prop :=
  exists r,
    o = Responds r /\ status_code r = 200 /\ json_body r = Some (JObj d) /\
    match dict_lookup "success" d with
    | Some success => truthy success = true
    | None => True
    end.

(** A response with status 200 whose body is an object with a falsy
    ['success']. *)
Definition reports_failure (o : post_outcome) : Prop :=
  exists r d success,
    o = Responds r /\ status_code r = 200 /\ json_body r = Some (JObj d) /\
    dict_lookup "success" d = Some success /\ truthy success = false.

(** [data.get('data', data)] for a body that is the object [body], lines
    129 and 302. *)
Definition data_of (body : list (string * json)) : json :=
  match dict_lookup "data" body with
  | Some v => v
  | None => JObj body
  end.

(** [d.get(k, '')] *)
Definition field (d : list (string * json)) (k : string) : json :=
  match dict_lookup k d with
  | Some v => v
  | None => JStr ""
  end.

(** The content scrape mode takes from the data [d] of a response, lines
    130-134: the first truthy one of ['html'], ['markdown'] and
    ['content']. *)
Definition content_of (d : list (string * json)) : json :=
  py_or (py_or (field d "html") (field d "markdown")) (field d "content").

(** Usable data in extract mode: a response with status 200 and an object
    as body that does not report failure, whose data is an object with
    the non-empty list of objects [jobs] under ['jobs']. *)
Definition usable_extract (o : post_outcome) (jobs : list json) : Prop :=
  exists body d,
    answers o body /\ data_of body = JObj d /\
    dict_lookup "jobs" d = Some (JArr jobs) /\
    jobs <> [] /\
    Forall (fun job => is_dict job = true) jobs.

(** A server whose v2 extract endpoint answers 200 with [null] as data,
    while its v1 extract endpoint delivers one record. *)
Definition env_null_then_records : environment :=
  env_with (fun url _ _ =>
              if String.eqb url "https://api.firecrawl.dev/v1/extract"
              then Responds (ok_response
                     (JObj [("success", JBool true);
                            ("data", JObj [("jobs", JArr [job_1])])]))
              else Responds (ok_response
                     (JObj [("success", JBool true); ("data", JNull)])))
           (fun _ => NoOffersList).

(** A server whose v2 scrape endpoint answers 500 and whose v1 scrape
    endpoint delivers, as markdown, a page with one anchor in its
    listing. *)
Definition env_scrape_fallback : environment :=
  env_with (fun url _ _ =>
              if String.eqb url "https://api.firecrawl.dev/v1/scrape"
              then Responds (ok_response
                     (JObj [("success", JBool true);
                            ("data", JObj [("html", JStr "");
                                           ("markdown", JStr "[React Developer](/praca/123)")])]))
              else Responds (error_response 500))
           (fun _ => OffersList [anchor_123]).

(** A server that always answers with the body [data]. *)
Definition env_answering (data : json) : environment :=
  env_with (fun _ _ _ => Responds (ok_response data)) (fun _ => NoOffersList).

(** A record whose link is a list: it has no hash. *)
Definition job_bad : json :=
  JObj [("title", JStr "Backend Developer"); ("company", JStr "Initech");
        ("link", JArr [JStr "https://it.pracuj.pl/praca/3"])].

Definition job_bad_with_id : json :=
  JObj [("title", JStr "Backend Developer"); ("company", JStr "Initech");
        ("link", JArr [JStr "https://it.pracuj.pl/praca/3"]); ("id", JInt 222)].

Definition job_1_with_id : json :=
  JObj [("title", JStr "React Developer"); ("company", JStr "Acme");
        ("location", JStr "Warszawa"); ("link", JStr "https://it.pracuj.pl/praca/1");
        ("id", JInt 222)].

(** A configuration without the key of the scraping API. *)
Definition env_no_firecrawl_key : environment :=
  {| FIRECRAWL_API_KEY := None;
     RESEND_API_KEY := Some "re-test";
     EMAIL_TO := Some "me@example.com";
     JOB_BOARD_URL := Some "https://it.pracuj.pl/praca/react;kw";
     requests_post := fun _ _ _ => ConnectionFails;
     BeautifulSoup := fun _ => NoOffersList;
     now := "2025-01-01 12:00:00";
     db_write := WriteCompletes |}.

(** A server that delivers one record in extract mode, on a machine whose
    disk is full: the state file can be opened but not written. *)
Definition env_disk_full : environment :=
  {| FIRECRAWL_API_KEY := Some "fc-test";
     RESEND_API_KEY := Some "re-test";
     EMAIL_TO := Some "me@example.com";
     JOB_BOARD_URL := Some "https://it.pracuj.pl/praca/react;kw";
     requests_post := fun _ _ _ =>
       Responds (ok_response
         (JObj [("success", JBool true); ("data", JObj [("jobs", JArr [job_1])])]));
     BeautifulSoup := fun _ => NoOffersList;
     now := "2025-01-01 12:00:00";
     db_write := DumpRaises |}.

(** A server whose scrape endpoints deliver a page without the listing. *)
Definition env_no_container : environment :=
  env_with (fun _ _ _ =>
              Responds (ok_response
                (JObj [("success", JBool true);
                       ("data", JObj [("html", JStr "<html>")])])))
           (fun _ => NoOffersList).

(** * Properties *)

(** ** Deduplicator *)

Lemma dict_lookup_set_ne k k' v d :
  k <> k' -> dict_lookup k (dict_set k' v d) = dict_lookup k d.
Proof.
  intros Hne. induction d as [|[k0 v0] d IH]; simpl.
  - destruct (String.eqb_spec k k'); congruence.
  - destruct (String.eqb_spec k' k0) as [->|Hk0]; simpl.
    + destruct (String.eqb_spec k k0); congruence.
    + destruct (String.eqb_spec k k0); [reflexivity | exact IH].
Qed.

Lemma same_but_id_set d v : same_but_id (JObj d) (JObj (dict_set "id" v d)).
Proof.
  exists d, (dict_set "id" v d). repeat split.
  intros k Hk. symmetry. now apply dict_lookup_set_ne.
Qed.

Section DeduplicatorFacts.
Variable py : process.

Lemma get_job_id_same_but_id job job' :
  same_but_id job job' -> get_job_id py job = get_job_id py job'.
Proof.
  intros (d & d' & -> & -> & Hd).
  unfold get_job_id; simpl.
  rewrite !(Hd "link"), !(Hd "title"), !(Hd "company") by discriminate.
  reflexivity.
Qed.

(** The accumulator only collects: it never changes a decision. *)
Lemma filter_new_acc jobs : forall seen acc,
  filter_new py jobs seen acc =
  match filter_new py jobs seen [] with
  | (Ok new_jobs, seen') => (Ok (acc ++ new_jobs), seen')
  | (Raise e, seen') => (Raise e, seen')
  end.
Proof.
  induction jobs as [|job rest IH]; intros seen acc; simpl.
  - now rewrite app_nil_r.
  - destruct (get_job_id py job) as [job_id|e]; [|reflexivity].
    destruct (decide (KStr job_id ∈ seen)).
    + apply IH.
    + rewrite (IH _ (acc ++ [job])), (IH _ ([] ++ [job])).
      destruct (filter_new py rest _ []) as [[new_jobs|e] seen']; [|reflexivity].
      now rewrite <- app_assoc.
Qed.

Lemma job_ids_app pre post ids_pre ids_post :
  job_ids py pre = Ok ids_pre -> job_ids py post = Ok ids_post ->
  job_ids py (pre ++ post) = Ok (ids_pre ++ ids_post).
Proof.
  revert ids_pre. induction pre as [|job rest IH]; intros ids_pre; simpl.
  - intros [= <-] ->. reflexivity.
  - destruct (get_job_id py job) as [job_id|e]; simpl; [|discriminate].
    destruct (job_ids py rest) as [ids|e]; simpl; [|discriminate].
    intros [= <-] Hpost. now rewrite (IH ids eq_refl Hpost).
Qed.

(** The loop never raises on a batch whose identifiers can all be
    computed, and it leaves every identifier of the batch in the set. *)
Lemma filter_new_total jobs : forall ids seen,
  job_ids py jobs = Ok ids ->
  exists new_jobs, filter_new py jobs seen [] = (Ok new_jobs, seen_with seen ids).
Proof.
  unfold seen_with.
  induction jobs as [|job rest IH]; intros ids seen; simpl.
  - intros [= <-]. exists []. f_equal. set_solver.
  - destruct (get_job_id py job) as [job_id|e]; simpl; [|discriminate].
    destruct (job_ids py rest) as [ids'|e] eqn:Hrest; simpl; [|discriminate].
    intros [= <-].
    destruct (decide (KStr job_id ∈ seen)) as [Hin|Hnin].
    + destruct (IH ids' seen eq_refl) as [new_jobs ->].
      exists new_jobs. f_equal. set_solver.
    + rewrite filter_new_acc.
      destruct (IH ids' ({[KStr job_id]} ∪ seen) eq_refl) as [new_jobs ->].
      exists ([job] ++ new_jobs). f_equal. set_solver.
Qed.

Lemma filter_new_app pre post seen ids_pre new_pre :
  job_ids py pre = Ok ids_pre ->
  filter_new py pre seen [] = (Ok new_pre, seen_with seen ids_pre) ->
  filter_new py (pre ++ post) seen [] =
  match filter_new py post (seen_with seen ids_pre) [] with
  | (Ok new_post, seen') => (Ok (new_pre ++ new_post), seen')
  | (Raise e, seen') => (Raise e, seen')
  end.
Proof.
  revert seen ids_pre new_pre.
  induction pre as [|job rest IH]; intros seen ids_pre new_pre; simpl.
  - intros [= <-] [= <- _]. unfold seen_with; simpl.
    replace (seen ∪ ∅) with seen by set_solver.
    now destruct (filter_new py post seen []) as [[?|?] ?].
  - destruct (get_job_id py job) as [job_id|e]; simpl; [|discriminate].
    destruct (job_ids py rest) as [ids'|e] eqn:Hrest; simpl; [|discriminate].
    intros [= <-].
    assert (Hseen : forall s : gset pykey,
               KStr job_id ∈ s -> seen_with s (job_id :: ids') = seen_with s ids')
      by (unfold seen_with; intros; set_solver).
    assert (Hseen' : seen_with seen (job_id :: ids')
                     = seen_with ({[KStr job_id]} ∪ seen) ids')
      by (unfold seen_with; set_solver).
    destruct (decide (KStr job_id ∈ seen)) as [Hin|Hnin].
    + rewrite (Hseen _ Hin). intros Hpre. now apply IH.
    + rewrite (filter_new_acc rest), (filter_new_acc (rest ++ post)).
      destruct (filter_new_total rest ids' ({[KStr job_id]} ∪ seen) Hrest)
        as [new_rest Hnew].
      rewrite Hnew, Hseen'. intros [= <-].
      rewrite (IH _ ids' new_rest eq_refl Hnew).
      destruct (filter_new py post _ []) as [[new_post|e] seen']; [|reflexivity].
      now rewrite app_assoc.
Qed.

Lemma filter_new_fresh jobs : forall ids seen,
  job_ids py jobs = Ok ids ->
  exists new_jobs ids_new,
    filter_new py jobs seen [] = (Ok new_jobs, seen_with seen ids) /\
    job_ids py new_jobs = Ok ids_new /\
    NoDup ids_new /\
    (forall i, i ∈ ids_new -> KStr i ∉ seen /\ i ∈ ids).
Proof.
  induction jobs as [|job rest IH]; intros ids seen Hids.
  - simpl in Hids. injection Hids as <-. exists [], []. simpl.
    split; [f_equal; unfold seen_with; set_solver|].
    split; [reflexivity|]. split; [constructor|].
    intros i Hi. inversion Hi.
  - simpl in Hids |- *.
    destruct (get_job_id py job) as [job_id|e] eqn:Hid; simpl in Hids; [|discriminate].
    destruct (job_ids py rest) as [ids'|e] eqn:Hrest; simpl in Hids; [|discriminate].
    injection Hids as <-.
    destruct (decide (KStr job_id ∈ seen)) as [Hin|Hnin].
    + destruct (IH ids' seen eq_refl) as (new' & ids_new & Hf & Hj & Hnd & Hfresh).
      exists new', ids_new. rewrite Hf.
      split; [f_equal; unfold seen_with; set_solver|].
      split; [exact Hj|]. split; [exact Hnd|].
      intros i Hi. split; [now apply Hfresh|]. right. now apply Hfresh.
    + destruct (IH ids' ({[KStr job_id]} ∪ seen) eq_refl)
        as (new' & ids_new & Hf & Hj & Hnd & Hfresh).
      exists ([job] ++ new'), (job_id :: ids_new).
      rewrite filter_new_acc, Hf. simpl. rewrite Hid, Hj. simpl.
      split; [f_equal; unfold seen_with; set_solver|].
      split; [reflexivity|]. split.
      * constructor; [|exact Hnd].
        intros Hin. apply Hfresh in Hin as [Hin _]. set_solver.
      * intros i Hi. apply elem_of_cons in Hi as [->|Hin].
        -- split; [exact Hnin | left].
        -- apply Hfresh in Hin as [Hin Hin']. split; [set_solver | now right].
Qed.

Lemma filter_new_same_ids jobs jobs' :
  Forall2 (fun job job' =>
             get_job_id py job = get_job_id py job' /\
             (job' = job \/ same_but_id job job')) jobs jobs' ->
  forall seen, same_decisions (filter_new py jobs seen []) (filter_new py jobs' seen []).
Proof.
  induction 1 as [|job job' rest rest' [Hid Hrel] _ IH]; intros seen; simpl.
  - split; [reflexivity | constructor].
  - rewrite <- Hid. destruct (get_job_id py job) as [job_id|e]; [|now split].
    destruct (decide (KStr job_id ∈ seen)); [apply IH|].
    rewrite (filter_new_acc rest), (filter_new_acc rest').
    destruct (IH ({[KStr job_id]} ∪ seen)) as [Hs Hnew].
    unfold same_decisions.
    destruct (filter_new py rest _ []) as [[new_jobs|e] s],
             (filter_new py rest' _ []) as [[new_jobs'|e'] s'];
      unfold same_decisions in *; simpl in *; try contradiction; split; auto.
Qed.

Lemma add_id_same_id job job' :
  add_id py job = Ok job' ->
  get_job_id py job = get_job_id py job' /\ (job' = job \/ same_but_id job job').
Proof.
  unfold add_id. destruct (py_contains "id" job) as [[|]|e]; simpl; try discriminate.
  - intros [= <-]. split; [reflexivity | now left].
  - destruct job; simpl; try discriminate.
    intros [= <-]. split; [|right; apply same_but_id_set].
    apply get_job_id_same_but_id, same_but_id_set.
Qed.

Lemma add_ids_same_ids jobs : forall jobs',
  add_ids py jobs = Ok jobs' ->
  Forall2 (fun job job' =>
             get_job_id py job = get_job_id py job' /\
             (job' = job \/ same_but_id job job')) jobs jobs'.
Proof.
  induction jobs as [|job rest IH]; intros jobs'; simpl.
  - intros [= <-]. constructor.
  - destruct (add_id py job) as [job1|e] eqn:Hadd; simpl; [|discriminate].
    destruct (add_ids py rest) as [rest1|e]; simpl; [|discriminate].
    intros [= <-]. constructor; [now apply add_id_same_id | now apply IH].
Qed.

End DeduplicatorFacts.

(** C1.  The filter loop reports a record exactly when its identifier is
    not in the seen-set at the moment the record is processed, and adds the
    identifier at once.  For a batch [pre ++ job :: post] whose identifiers
    can all be computed: [job] is reported iff its identifier is in neither
    the initial set nor among the identifiers of [pre], and [post] is
    filtered against a set that already holds it.  The identifiers of the
    reported records are pairwise distinct and none was in the initial set.
    With the set {"111"} and two records with identifiers "111" and "222",
    the loop returns the second record only and the set {"111", "222"}. *)
Theorem filter_new_reports_unseen_once (py : process) :
  (forall pre job post seen ids_pre job_id ids_post,
      job_ids py pre = Ok ids_pre ->
      get_job_id py job = Ok job_id ->
      job_ids py post = Ok ids_post ->
      exists new_pre new_post,
        filter_new py pre seen [] = (Ok new_pre, seen_with seen ids_pre) /\
        filter_new py post ({[KStr job_id]} ∪ seen_with seen ids_pre) [] =
          (Ok new_post, seen_with seen (ids_pre ++ job_id :: ids_post)) /\
        filter_new py (pre ++ job :: post) seen [] =
          (Ok (new_pre
               ++ (if decide (KStr job_id ∈ seen_with seen ids_pre) then [] else [job])
               ++ new_post),
           seen_with seen (ids_pre ++ job_id :: ids_post))) /\
  (forall jobs seen ids,
      job_ids py jobs = Ok ids ->
      exists new_jobs ids_new,
        filter_new py jobs seen [] = (Ok new_jobs, seen_with seen ids) /\
        job_ids py new_jobs = Ok ids_new /\
        NoDup ids_new /\
        (forall i, i ∈ ids_new -> KStr i ∉ seen /\ i ∈ ids)) /\
  (forall job job',
      get_job_id py job = Ok "111" ->
      get_job_id py job' = Ok "222" ->
      filter_new py [job; job'] {[KStr "111"]} [] =
        (Ok [job'], {[KStr "111"; KStr "222"]})).
Proof.
  split; [|split].
  - intros pre job post seen ids_pre job_id ids_post Hpre Hid Hpost.
    destruct (filter_new_total py pre ids_pre seen Hpre) as [new_pre Hnew_pre].
    set (seen_pre := seen_with seen ids_pre) in *.
    assert (Hafter : seen_with ({[KStr job_id]} ∪ seen_pre) ids_post
                     = seen_with seen (ids_pre ++ job_id :: ids_post)).
    { unfold seen_pre, seen_with. rewrite fmap_app, fmap_cons. set_solver. }
    destruct (filter_new_total py post ids_post ({[KStr job_id]} ∪ seen_pre) Hpost)
      as [new_post Hnew_post].
    exists new_pre, new_post. split; [exact Hnew_pre|]. split.
    + now rewrite Hnew_post, Hafter.
    + rewrite (filter_new_app py pre (job :: post) seen ids_pre new_pre Hpre Hnew_pre).
      fold seen_pre. simpl. rewrite Hid.
      destruct (decide (KStr job_id ∈ seen_pre)) as [Hin|Hnin].
      * replace ({[KStr job_id]} ∪ seen_pre) with seen_pre in Hnew_post, Hafter
          by set_solver.
        now rewrite Hnew_post, Hafter.
      * rewrite filter_new_acc, Hnew_post, Hafter. reflexivity.
  - intros jobs seen ids Hids. now apply filter_new_fresh.
  - intros job job' Hid Hid'. simpl. rewrite Hid, Hid'.
    rewrite decide_True by set_solver.
    rewrite decide_False by set_solver.
    f_equal; try set_solver.
Qed.

Lemma filter_new_reports_unseen_once_witness :
  filter_new process_a [job_1; job_2] {[KStr "111"]} [] =
    (Ok [job_2], {[KStr "111"; KStr "222"]}).
Proof.
  apply (proj2 (proj2 (filter_new_reports_unseen_once process_a))); reflexivity.
Defined.

(** C10.  The identifier used by the filter loop does not read the ['id']
    field: setting ['id'] to any value leaves [get_job_id] unchanged, so the
    record that extract mode hands on after synthesizing an ['id'] has the
    identifier of the record the API delivered, and two batches that differ
    only in ['id'] fields make the loop take the same decisions. *)
Theorem get_job_id_ignores_id_field (py : process) :
  (forall d v, get_job_id py (JObj (dict_set "id" v d)) = get_job_id py (JObj d)) /\
  (forall job job', add_id py job = Ok job' -> get_job_id py job' = get_job_id py job) /\
  (forall jobs jobs' seen,
      add_ids py jobs = Ok jobs' ->
      same_decisions (filter_new py jobs seen []) (filter_new py jobs' seen [])) /\
  (forall jobs jobs' seen,
      Forall2 same_but_id jobs jobs' ->
      same_decisions (filter_new py jobs seen []) (filter_new py jobs' seen [])).
Proof.
  split; [|split; [|split]].
  - intros d v. symmetry. apply get_job_id_same_but_id, same_but_id_set.
  - intros job job' Hadd. symmetry. now apply add_id_same_id.
  - intros jobs jobs' seen Hadd.
    apply filter_new_same_ids. now apply add_ids_same_ids.
  - intros jobs jobs' seen Hrel.
    apply filter_new_same_ids.
    eapply Forall2_impl; [exact Hrel|]. intros job job' Hsame.
    split; [now apply get_job_id_same_but_id | now right].
Qed.

Lemma get_job_id_ignores_id_field_witness :
  same_decisions (filter_new process_a [job_2] ∅ [])
                 (filter_new process_a [job_2_with_id] ∅ []).
Proof.
  apply (proj2 (proj2 (proj2 (get_job_id_ignores_id_field process_a)))).
  constructor; [|constructor].
  eexists _, _. split; [reflexivity|]. split; [reflexivity|].
  intros k Hk. simpl.
  repeat (match goal with |- context [String.eqb k ?x] =>
            destruct (String.eqb_spec k x) end; try reflexivity; try congruence).
Defined.

(** C6 (what the code does).  For a record whose ['link'] is a non-empty
    string the identifier is the decimal text of the process's string hash
    of the link, folded into 0 .. 10^10 - 1: within one process it is a
    function of the link alone, and two processes whose salted hashes of
    the link differ modulo 10^10 give the record different identifiers. *)
Theorem get_job_id_follows_process_hash (py py' : process)
    (d : list (string * json)) (link : string) :
  dict_lookup "link" d = Some (JStr link) ->
  link <> "" ->
  get_job_id py (JObj d) = Ok (pretty (hash_str py link mod 10 ^ 10)) /\
  (hash_str py link mod 10 ^ 10 <> hash_str py' link mod 10 ^ 10 ->
   get_job_id py (JObj d) <> get_job_id py' (JObj d)).
Proof.
  intros Hlink Hne.
  assert (Hid : forall p, get_job_id p (JObj d) = Ok (pretty (hash_str p link mod 10 ^ 10))).
  { intros p. unfold get_job_id; simpl. rewrite Hlink; simpl.
    destruct (String.eqb_spec link ""); [contradiction|]. reflexivity. }
  split; [apply Hid|].
  intros Hdiff. rewrite !Hid. intros [= Heq].
  apply Hdiff. now apply (inj pretty).
Qed.

Lemma get_job_id_follows_process_hash_witness :
  get_job_id process_a job_1 = Ok "111" /\
  get_job_id process_a job_1 <> get_job_id process_b job_1.
Proof.
  destruct (get_job_id_follows_process_hash process_a process_b
              [("title", JStr "React Developer"); ("company", JStr "Acme");
               ("location", JStr "Warszawa");
               ("link", JStr "https://it.pracuj.pl/praca/1")]
              "https://it.pracuj.pl/praca/1" eq_refl ltac:(discriminate))
    as [Hid Hdiff].
  split; [exact Hid|]. apply Hdiff. vm_compute. discriminate.
Defined.

(** ** Parser *)

Lemma lstrip_chars_no_lead cs : no_lead (lstrip_chars cs).
Proof.
  induction cs as [|c cs IH]; simpl; [exact I|].
  destruct (isspace c) eqn:Hc; [exact IH | exact Hc].
Qed.

Lemma lstrip_chars_id cs : no_lead cs -> lstrip_chars cs = cs.
Proof. destruct cs as [|c cs]; simpl; [reflexivity | now intros ->]. Qed.

Lemma lstrip_chars_suffix cs : exists sp, cs = sp ++ lstrip_chars cs.
Proof.
  induction cs as [|c cs [sp IH]]; simpl; [now exists []|].
  destruct (isspace c); [|now exists []].
  exists (c :: sp). simpl. now f_equal.
Qed.

Lemma no_lead_app a b : no_lead a -> no_lead b -> no_lead (a ++ b).
Proof. destruct a; simpl; auto. Qed.

Lemma rstrip_no_lead cs : no_lead cs -> no_lead (rev (lstrip_chars (rev cs))).
Proof.
  intros Hcs. destruct (lstrip_chars_suffix (rev cs)) as [sp Hsp].
  apply (f_equal (@rev ascii)) in Hsp. rewrite rev_involutive, rev_app_distr in Hsp.
  destruct (rev (lstrip_chars (rev cs))) as [|c t]; [exact I|].
  rewrite Hsp in Hcs. exact Hcs.
Qed.

Lemma strip_trimmed s : trimmed (strip s).
Proof.
  unfold trimmed, strip. rewrite list_ascii_of_string_of_list_ascii, rev_involutive.
  split; [|apply lstrip_chars_no_lead].
  apply rstrip_no_lead, lstrip_chars_no_lead.
Qed.

Lemma strip_of_trimmed s : trimmed s -> strip s = s.
Proof.
  intros [Hl Hr]. unfold strip.
  rewrite (lstrip_chars_id _ Hl), (lstrip_chars_id _ Hr), rev_involutive.
  apply string_of_list_ascii_of_string.
Qed.

Lemma list_ascii_of_string_app a b :
  list_ascii_of_string (a +:+ b) = list_ascii_of_string a ++ list_ascii_of_string b.
Proof. induction a as [|c a IH]; simpl; [reflexivity | now rewrite IH]. Qed.

Lemma trimmed_app a b : trimmed a -> trimmed b -> trimmed (a +:+ b).
Proof.
  intros [Hal Har] [Hbl Hbr]. unfold trimmed.
  rewrite list_ascii_of_string_app, rev_app_distr.
  split; now apply no_lead_app.
Qed.

Lemma get_text_strip_trimmed nodes : trimmed (get_text_strip nodes).
Proof.
  induction nodes as [|s rest IH]; simpl; [now split|].
  destruct (String.eqb (strip s) ""); [exact IH|].
  apply trimmed_app; [apply strip_trimmed | exact IH].
Qed.

Lemma record_title_job_record title company location link :
  record_title (job_record title company location link) = title.
Proof. reflexivity. Qed.

(** The loop appends to [jobs]; every record it appends comes from an
    anchor of [job_links] whose title was not in [seen_titles], and the
    titles of the appended records are pairwise distinct. *)
Lemma parse_job_links_spec job_links : forall seen_titles jobs,
  exists new_jobs,
    parse_job_links job_links seen_titles jobs = jobs ++ new_jobs /\
    Forall (fun job => record_title job ∉ seen_titles /\
                       exists a, In a job_links /\ from_anchor a job) new_jobs /\
    NoDup (map record_title new_jobs).
Proof.
  induction job_links as [|link rest IH]; intros seen_titles jobs; simpl.
  - exists []. rewrite app_nil_r. repeat constructor.
  - set (title := get_text_strip (strings link)).
    assert (Hskip : exists new_jobs,
               parse_job_links rest seen_titles jobs = jobs ++ new_jobs /\
               Forall (fun job => record_title job ∉ seen_titles /\
                         exists a, (link = a \/ In a rest) /\ from_anchor a job) new_jobs /\
               NoDup (map record_title new_jobs)).
    { destruct (IH seen_titles jobs) as (new_jobs & Heq & Hall & Hnd).
      exists new_jobs. repeat split; auto.
      eapply Forall_impl; [exact Hall|]. intros job (Hs & a & Ha & Hfrom). eauto. }
    destruct (String.eqb_spec title "") as [Hempty|Hnonempty]; [exact Hskip|].
    destruct (String.length title <? 5)%nat eqn:Hlen; [exact Hskip|].
    destruct (bool_decide (title ∈ seen_titles)) eqn:Hseen; [exact Hskip|].
    simpl.
    destruct (resolve_href (default "" (href link))) as [h'|] eqn:Hres; [|exact Hskip].
    apply bool_decide_eq_false in Hseen. apply Nat.ltb_ge in Hlen.
    set (job := job_record title _ _ h').
    destruct (IH ({[title]} ∪ seen_titles) (jobs ++ [job])) as (new_jobs & Heq & Hall & Hnd).
    exists (job :: new_jobs). rewrite Heq, <- app_assoc. split; [reflexivity|].
    split; [constructor|].
    + split; [exact Hseen|]. exists link. split; [now left|].
      exists h'. repeat split; auto.
    + eapply Forall_impl; [exact Hall|]. intros job' (Hs & a & Ha & Hfrom).
      split; [set_solver|]. eauto.
    + simpl. constructor; [|exact Hnd].
      rewrite List.Forall_forall in Hall. intros Hin.
      apply list_elem_of_In, in_map_iff in Hin as (job' & Ht & Hin).
      apply Hall in Hin as [Hs _]. rewrite Ht in Hs. unfold job in Hs.
      rewrite record_title_job_record in Hs. set_solver.
Qed.

(** An anchor whose [href] is neither relative nor absolute leaves no
    trace: not even its title is remembered. *)
Lemma parse_job_links_drops job_links : forall seen_titles jobs,
  parse_job_links (List.filter link_kept job_links) seen_titles jobs =
  parse_job_links job_links seen_titles jobs.
Proof.
  induction job_links as [|link rest IH]; intros seen_titles jobs; [reflexivity|].
  cbn [List.filter]. destruct (link_kept link) eqn:Hkept; cbn [parse_job_links].
  - destruct (_ || _ || _); [apply IH|].
    destruct (resolve_href _); apply IH.
  - assert (Hres : resolve_href (default "" (href link)) = None).
    { unfold link_kept in Hkept. apply orb_false_elim in Hkept as [Hslash Hhttp].
      unfold resolve_href. now rewrite Hslash, Hhttp. }
    rewrite Hres, IH. now destruct (_ || _ || _).
Qed.

Lemma find_all_job_links_In a anchors :
  In a (find_all_job_links anchors) ->
  In a anchors /\ exists h, href a = Some h /\ href_matches h = true.
Proof.
  unfold find_all_job_links. rewrite filter_In. intros [Hin Hm].
  split; [exact Hin|]. destruct (href a) as [h|]; [eauto | discriminate].
Qed.

Lemma parse_jobs_from_html_spec env html_content :
  exists ev jobs,
    parse_jobs_from_html env html_content = (ev, Ok jobs) /\
    NoDup (map record_title jobs) /\
    forall job, In job jobs ->
      exists anchors a h,
        BeautifulSoup env html_content = OffersList anchors /\
        In a anchors /\ href a = Some h /\ href_matches h = true /\
        from_anchor a job.
Proof.
  unfold parse_jobs_from_html.
  destruct (truthy html_content); simpl.
  2: { exists [], []. repeat split; [constructor | contradiction]. }
  destruct (BeautifulSoup env html_content) as [e| |anchors]; simpl.
  1, 2: eexists _, []; repeat split; [constructor | contradiction].
  destruct (parse_job_links_spec (find_all_job_links anchors) ∅ [])
    as (new_jobs & -> & Hall & Hnd). simpl.
  exists [], new_jobs. repeat split; [exact Hnd|].
  intros job Hin. rewrite List.Forall_forall in Hall.
  destruct (Hall job Hin) as (_ & a & Ha & Hfrom).
  apply find_all_job_links_In in Ha as (Ha & h & Hh & Hm).
  exists anchors, a, h. auto.
Qed.

(** C9.  The parser never raises.  Every record it returns comes from an
    anchor below the [offers-list] element whose [href] matches the
    posting patterns: its link is the site origin followed by the [href]
    when the [href] begins with a slash, and the [href] itself when it
    begins with [http] instead.  Anchors whose [href] begins with neither
    are discarded: removing them from the document changes nothing.  An
    anchor with [href] "/praca/123" and an acceptable title gives a record
    with the link "https://it.pracuj.pl/praca/123". *)
Theorem parser_resolves_links (env : environment) (html_content : json) :
  (exists ev jobs,
      parse_jobs_from_html env html_content = (ev, Ok jobs) /\
      forall job, In job jobs ->
        exists anchors a h,
          BeautifulSoup env html_content = OffersList anchors /\
          In a anchors /\ href a = Some h /\ href_matches h = true /\
          record_title job = get_text_strip (strings a) /\
          if startswith "/" h
          then py_getitem job "link" = Ok (JStr ("https://it.pracuj.pl" +:+ h))
          else startswith "http" h = true /\ py_getitem job "link" = Ok (JStr h)) /\
  (forall job_links,
      parse_job_links (List.filter link_kept job_links) ∅ [] =
      parse_job_links job_links ∅ []) /\
  (forall a,
      truthy html_content = true ->
      BeautifulSoup env html_content = OffersList [a] ->
      href a = Some "/praca/123" ->
      get_text_strip (strings a) <> "" ->
      (5 <= String.length (get_text_strip (strings a)))%nat ->
      exists company location,
        parse_jobs_from_html env html_content =
          ([], Ok [job_record (get_text_strip (strings a)) company location
                              "https://it.pracuj.pl/praca/123"])).
Proof.
  split; [|split].
  - destruct (parse_jobs_from_html_spec env html_content) as (ev & jobs & Heq & _ & Hjobs).
    exists ev, jobs. split; [exact Heq|].
    intros job Hin.
    destruct (Hjobs job Hin) as (anchors & a & h & Hbs & Ha & Hh & Hm & link & Hres & _ & _ & ->).
    exists anchors, a, h. repeat (split; [assumption || reflexivity|]).
    rewrite Hh in Hres. simpl in Hres. unfold resolve_href in Hres.
    destruct (startswith "/" h).
    + injection Hres as <-. reflexivity.
    + destruct (startswith "http" h); [|discriminate].
      injection Hres as <-. split; reflexivity.
  - intros job_links. apply parse_job_links_drops.
  - intros a Htruthy Hbs Hhref Hne Hlen.
    unfold parse_jobs_from_html. rewrite Htruthy, Hbs. cbn [negb].
    unfold find_all_job_links. cbn [List.filter]. rewrite Hhref.
    change (href_matches "/praca/123") with true. cbn [parse_job_links].
    rewrite Hhref. cbn [default resolve_href].
    destruct (String.eqb_spec (get_text_strip (strings a)) ""); [contradiction|].
    apply Nat.ltb_ge in Hlen. rewrite Hlen.
    rewrite bool_decide_eq_false_2 by set_solver.
    eexists _, _. reflexivity.
Qed.

Lemma parser_resolves_links_witness :
  exists company location,
    parse_jobs_from_html env_listing (JStr "<html>") =
      ([], Ok [job_record "React Developer" company location
                          "https://it.pracuj.pl/praca/123"]).
Proof.
  destruct (parser_resolves_links env_listing (JStr "<html>")) as (_ & Hdrop & _).
  unfold parse_jobs_from_html, env_listing. cbn [negb truthy String.eqb].
  cbn -[parse_job_links find_all_job_links].
  rewrite <- (Hdrop (find_all_job_links [anchor_ftp; anchor_123])).
  eexists _, _. vm_compute. reflexivity.
Defined.

(** ** Identifier store *)

(** C8.  A new [JobAlert] starts with an empty seen-set and nothing
    printed when the state file is absent.  When the file cannot be opened
    or does not hold JSON, or holds JSON from which no set of identifiers
    can be built, the error is printed and the seen-set is empty.  Loading
    never raises. *)
Theorem load_seen_jobs_falls_back_to_empty :
  JobAlert_init FileAbsent = ([], Ok ∅) /\
  (exists e, JobAlert_init FileInvalid = ([Print (MsgLoadError e)], Ok ∅)) /\
  (exists e, JobAlert_init FileUnreadable = ([Print (MsgLoadError e)], Ok ∅)) /\
  (forall data e,
      seen_job_ids_of data = Raise e ->
      JobAlert_init (FileJson data) = ([Print (MsgLoadError e)], Ok ∅)) /\
  (forall file seen, exists ev seen', load_seen_jobs file seen = (ev, Ok seen')).
Proof.
  split; [reflexivity|]. split; [eexists; reflexivity|]. split; [eexists; reflexivity|].
  split.
  - intros data e Hraise. unfold JobAlert_init, load_seen_jobs. simpl.
    now rewrite Hraise.
  - intros file seen. unfold load_seen_jobs.
    destruct file as [| | |data]; simpl; try (eexists _, _; reflexivity).
    destruct (seen_job_ids_of data); simpl; eexists _, _; reflexivity.
Qed.

Lemma load_seen_jobs_falls_back_to_empty_witness :
  JobAlert_init (FileJson (JArr [JStr "111"])) =
    ([Print (MsgLoadError AttributeError)], Ok ∅).
Proof.
  apply (proj1 (proj2 (proj2 (proj2 load_seen_jobs_falls_back_to_empty)))).
  reflexivity.
Defined.

(** ** Fetcher *)

Lemma posts_app a b : posts (a ++ b) = posts a ++ posts b.
Proof. unfold posts. apply omap_app. Qed.

Lemma for_each_app {A V} (xs ys : list A) (body : A -> io (option V)) :
  for_each (xs ++ ys) body =
  io_bind (for_each xs body) (fun r =>
    match r with Some v => io_ret (Some v) | None => for_each ys body end).
Proof.
  induction xs as [|x xs IH]; cbn [for_each app].
  - cbn. destruct (for_each ys body); reflexivity.
  - rewrite IH. destruct (body x) as [ev [[v|]|e]]; cbn; try reflexivity.
    + now rewrite !app_nil_r.
    + destruct (for_each xs body) as [ev' [[v|]|e]]; cbn; try reflexivity.
      * now rewrite !app_nil_r.
      * destruct (for_each ys body) as [ev'' r]. now rewrite app_assoc.
Qed.

(** The nested loops visit the combinations endpoint by endpoint, and for
    one endpoint payload by payload. *)
Lemma for_each_nested {A B V} (xs : list A) (ys : list B)
    (body : A -> B -> io (option V)) :
  for_each xs (fun x => for_each ys (fun y => body x y)) =
  for_each (combos xs ys) (fun c => body (fst c) (snd c)).
Proof.
  induction xs as [|x xs IH]; cbn [for_each combos flat_map]; [reflexivity|].
  rewrite for_each_app. fold (combos xs ys). rewrite <- IH.
  assert (Hmap : for_each (map (fun y => (x, y)) ys) (fun c => body (fst c) (snd c))
                 = for_each ys (fun y => body x y)).
  { clear. induction ys as [|y ys IH]; cbn [for_each map]; [reflexivity|].
    cbn [fst snd]. now rewrite IH. }
  rewrite Hmap. reflexivity.
Qed.

(** A scan in which the items of [pre] all go on and [c] returns [v]. *)
Lemma for_each_first {A V} (pre post : list A) (c : A) (v : V)
    (body : A -> io (option V)) :
  Forall (fun x => snd (body x) = Ok None) pre ->
  snd (body c) = Ok (Some v) ->
  for_each (pre ++ c :: post) body =
    (concat (map (fun x => fst (body x)) (pre ++ [c])), Ok (Some v)).
Proof.
  intros Hpre Hc. induction Hpre as [|x pre Hx _ IH]; cbn [for_each app map concat].
  - destruct (body c) as [ev r]; cbn in *. subst r. cbn. now rewrite !app_nil_r.
  - rewrite IH. destruct (body x) as [ev r]; cbn in *. subst r. reflexivity.
Qed.

(** A scan in which the items of [pre] all go on and [c] raises [e]. *)
Lemma for_each_raises {A V} (pre post : list A) (c : A) (e : exn)
    (body : A -> io (option V)) :
  Forall (fun x => snd (body x) = Ok None) pre ->
  snd (body c) = Raise e ->
  for_each (pre ++ c :: post) body =
    (concat (map (fun x => fst (body x)) (pre ++ [c])), Raise e).
Proof.
  intros Hpre Hc. induction Hpre as [|x pre Hx _ IH]; cbn [for_each app map concat].
  - destruct (body c) as [ev r]; cbn in *. subst r. cbn. now rewrite !app_nil_r.
  - rewrite IH. destruct (body x) as [ev r]; cbn in *. subst r. reflexivity.
Qed.

Lemma for_each_none {A V} (xs : list A) (body : A -> io (option V)) :
  Forall (fun x => snd (body x) = Ok None) xs ->
  for_each xs body = (concat (map (fun x => fst (body x)) xs), Ok None).
Proof.
  induction 1 as [|x xs Hx _ IH]; cbn [for_each map concat]; [reflexivity|].
  rewrite IH. destruct (body x) as [ev r]; cbn in *. subst r. reflexivity.
Qed.

Lemma for_each_returns {A V} (xs : list A) (body : A -> io (option V)) v :
  snd (for_each xs body) = Ok (Some v) ->
  exists x, In x xs /\ snd (body x) = Ok (Some v).
Proof.
  induction xs as [|x xs IH]; cbn [for_each]; [discriminate|].
  destruct (body x) as [ev [[v'|]|e]] eqn:Hx; cbn.
  - intros [= <-]. exists x. rewrite Hx. split; [now left | reflexivity].
  - destruct (for_each xs body) as [ev' r]; cbn in *. intros Hr.
    destruct (IH Hr) as (x' & Hin & Hb). exists x'. split; [now right | exact Hb].
  - discriminate.
Qed.

(** When every turn makes exactly one request, the requests of a scan are
    those of the items it reached, in order. *)
Lemma for_each_posts_prefix {A V} (xs : list A) (body : A -> io (option V))
    (request : A -> string * json) :
  (forall x, posts (fst (body x)) = [request x]) ->
  exists rest, map request xs = posts (fst (for_each xs body)) ++ rest.
Proof.
  intros Hone. induction xs as [|x xs [rest IH]]; cbn [for_each map].
  - now exists [].
  - specialize (Hone x).
    destruct (body x) as [ev [[v|]|e]]; cbn -[posts] in *.
    + exists (map request xs). now rewrite app_nil_r, Hone.
    + destruct (for_each xs body) as [ev' r]; cbn -[posts] in *.
      exists rest. now rewrite posts_app, Hone, IH.
    + exists (map request xs). now rewrite Hone.
Qed.

Lemma concat_posts {A V} (xs : list A) (body : A -> io (option V))
    (request : A -> string * json) :
  (forall x, posts (fst (body x)) = [request x]) ->
  posts (concat (map (fun x => fst (body x)) xs)) = map request xs.
Proof.
  intros Hone. induction xs as [|x xs IH]; cbn [map concat]; [reflexivity|].
  now rewrite posts_app, Hone, IH.
Qed.

Lemma parse_jobs_from_html_posts env html :
  posts (fst (parse_jobs_from_html env html)) = [].
Proof.
  unfold parse_jobs_from_html. destruct (truthy html); [|reflexivity].
  cbn. destruct (BeautifulSoup env html); reflexivity.
Qed.

Lemma post_unfold env url payload headers t :
  post env url payload headers t =
  ([Post url payload headers t],
   match requests_post env url payload headers with
   | Responds r => Ok r
   | ConnectionFails => Raise ConnectionError
   | TimesOut => Raise Timeout
   end).
Proof. unfold post. cbn. now destruct (requests_post env url payload headers). Qed.

Section FetcherFacts.
Variable py : process.
Variable env : environment.

(** Every turn of either loop makes exactly one request. *)
Lemma extract_attempt_posts endpoint payload :
  posts (fst (extract_attempt py env endpoint payload)) = [(endpoint, payload)].
Proof.
  unfold extract_attempt. rewrite post_unfold.
  destruct (requests_post env endpoint payload _) as [r| |]; try reflexivity.
  cbn -[generate_ids]. unfold raise_for_status, response_json.
  repeat (break_match; cbn -[generate_ids]); try reflexivity.
Qed.

Lemma scrape_attempt_posts endpoint payload :
  posts (fst (scrape_attempt py env endpoint payload)) = [(endpoint, payload)].
Proof.
  unfold scrape_attempt. rewrite post_unfold.
  destruct (requests_post env endpoint payload _) as [r| |]; try reflexivity.
  cbn -[parse_jobs_from_html]. unfold raise_for_status, response_json.
  repeat (break_match; cbn -[parse_jobs_from_html]); try reflexivity.
  all: match goal with
       | |- context [parse_jobs_from_html ?e ?h] =>
           pose proof (parse_jobs_from_html_posts e h) as Hq;
           destruct (parse_jobs_from_html e h) as [ev [jobs|e']]
       end; cbn [fst] in Hq; cbn.
  all: repeat (break_match; cbn); cbn; try fold (posts ev);
    rewrite ?posts_app, ?Hq; reflexivity.
Qed.

(** The three failures make a turn go on to the next combination. *)
Lemma extract_attempt_fails endpoint payload :
  attempt_fails (requests_post env endpoint payload (firecrawl_headers py env)) = true ->
  snd (extract_attempt py env endpoint payload) = Ok None.
Proof.
  unfold extract_attempt, attempt_fails. rewrite post_unfold.
  destruct (requests_post env endpoint payload _) as [r| |]; try reflexivity.
  intros Hfail. cbn -[generate_ids]. unfold raise_for_status, response_json.
  destruct (negb (status_code r =? 200)) eqn:Hstatus; [reflexivity|].
  destruct (json_body r); [discriminate|].
  destruct ((400 <=? status_code r) && (status_code r <? 600)) eqn:Hrange; [|reflexivity].
  apply negb_false_iff, Z.eqb_eq in Hstatus. rewrite Hstatus in Hrange. discriminate.
Qed.

Lemma scrape_attempt_fails endpoint payload :
  attempt_fails (requests_post env endpoint payload (firecrawl_headers py env)) = true ->
  snd (scrape_attempt py env endpoint payload) = Ok None.
Proof.
  unfold scrape_attempt, attempt_fails. rewrite post_unfold.
  destruct (requests_post env endpoint payload _) as [r| |]; try reflexivity.
  intros Hfail. cbn -[parse_jobs_from_html]. unfold raise_for_status, response_json.
  destruct (negb (status_code r =? 200)) eqn:Hstatus; [reflexivity|].
  destruct (json_body r); [discriminate|].
  destruct ((400 <=? status_code r) && (status_code r <? 600)) eqn:Hrange; [|reflexivity].
  apply negb_false_iff, Z.eqb_eq in Hstatus. rewrite Hstatus in Hrange. discriminate.
Qed.

Lemma add_ids_dicts jobs :
  Forall (fun job => is_dict job = true) jobs ->
  exists jobs', add_ids py jobs = Ok jobs'.
Proof.
  induction 1 as [|job rest Hjob _ [rest' IH]]; cbn [add_ids]; [now exists []|].
  destruct job; try discriminate. rewrite IH.
  unfold add_id. cbn. destruct (dict_lookup "id" fields); cbn; eexists; reflexivity.
Qed.

Lemma extract_attempt_delivers endpoint payload d jobs jobs' :
  delivers (requests_post env endpoint payload (firecrawl_headers py env)) d ->
  dict_lookup "jobs" d = Some (JArr jobs) ->
  jobs <> [] ->
  add_ids py jobs = Ok jobs' ->
  snd (extract_attempt py env endpoint payload) = Ok (Some (JArr jobs')).
Proof.
  intros (r & body & Hpost & Hstatus & Hbody & Hsuccess & Hdata) Hjobs Hne Hadd.
  unfold extract_attempt. rewrite post_unfold, Hpost.
  cbn -[generate_ids]. unfold raise_for_status, response_json.
  rewrite Hstatus, Hbody. cbn -[generate_ids].
  assert (Hs : truthy (match dict_lookup "success" body with
                       | Some v => v | None => JBool true end) = true)
    by (destruct (dict_lookup "success" body); auto).
  rewrite Hs, Hdata. cbn -[generate_ids]. rewrite Hjobs.
  unfold generate_ids. cbn. rewrite Hadd. cbn.
  assert (Hne' : jobs' <> []).
  { intros ->. destruct jobs as [|job rest]; [contradiction|].
    cbn in Hadd. destruct (add_id py job); cbn in Hadd; [|discriminate].
    destruct (add_ids py rest); discriminate. }
  destruct jobs'; [contradiction|]. reflexivity.
Qed.

Lemma scrape_attempt_delivers endpoint payload d html ev jobs :
  delivers (requests_post env endpoint payload (firecrawl_headers py env)) d ->
  dict_lookup "html" d = Some html ->
  truthy html = true ->
  parse_jobs_from_html env html = (ev, Ok jobs) ->
  jobs <> [] ->
  snd (scrape_attempt py env endpoint payload) = Ok (Some (JArr jobs)).
Proof.
  intros (r & body & Hpost & Hstatus & Hbody & Hsuccess & Hdata) Hhtml Htruthy Hparse Hne.
  unfold scrape_attempt. rewrite post_unfold, Hpost.
  cbn -[parse_jobs_from_html]. unfold raise_for_status, response_json.
  rewrite Hstatus, Hbody. cbn -[parse_jobs_from_html].
  assert (Hs : truthy (match dict_lookup "success" body with
                       | Some v => v | None => JBool true end) = true)
    by (destruct (dict_lookup "success" body); auto).
  rewrite Hs, Hdata. cbn -[parse_jobs_from_html]. rewrite Hhtml.
  unfold py_or at 2. rewrite Htruthy. unfold py_or. rewrite Htruthy.
  cbn -[parse_jobs_from_html]. rewrite Htruthy, Hparse.
  destruct jobs; [contradiction|]. reflexivity.
Qed.

Lemma answers_success o body :
  answers o body ->
  exists r, o = Responds r /\ status_code r = 200 /\ json_body r = Some (JObj body) /\
    truthy (match dict_lookup "success" body with
            | Some v => v | None => JBool true end) = true.
Proof.
  intros (r & Hpost & Hstatus & Hbody & Hsuccess). exists r.
  repeat split; try assumption. destruct (dict_lookup "success" body); auto.
Qed.

Lemma extract_attempt_usable endpoint payload body d jobs jobs' :
  answers (requests_post env endpoint payload (firecrawl_headers py env)) body ->
  data_of body = JObj d ->
  dict_lookup "jobs" d = Some (JArr jobs) ->
  jobs <> [] ->
  add_ids py jobs = Ok jobs' ->
  snd (extract_attempt py env endpoint payload) = Ok (Some (JArr jobs')).
Proof.
  intros Hans Hdata Hjobs Hne Hadd.
  destruct (answers_success _ _ Hans) as (r & Hpost & Hstatus & Hbody & Hs).
  unfold extract_attempt. rewrite post_unfold, Hpost.
  cbn -[generate_ids]. unfold raise_for_status, response_json.
  rewrite Hstatus, Hbody. cbn -[generate_ids]. rewrite Hs.
  fold (data_of body). rewrite Hdata.
  cbn -[generate_ids]. rewrite Hjobs.
  unfold generate_ids. cbn. rewrite Hadd. cbn.
  assert (Hne' : jobs' <> []).
  { intros ->. destruct jobs as [|job rest]; [contradiction|].
    cbn in Hadd. destruct (add_id py job); cbn in Hadd; [|discriminate].
    destruct (add_ids py rest); discriminate. }
  destruct jobs'; [contradiction|]. reflexivity.
Qed.

Lemma scrape_attempt_usable endpoint payload body d ev jobs :
  answers (requests_post env endpoint payload (firecrawl_headers py env)) body ->
  data_of body = JObj d ->
  truthy (content_of d) = true ->
  parse_jobs_from_html env (content_of d) = (ev, Ok jobs) ->
  jobs <> [] ->
  snd (scrape_attempt py env endpoint payload) = Ok (Some (JArr jobs)).
Proof.
  intros Hans Hdata Htruthy Hparse Hne.
  destruct (answers_success _ _ Hans) as (r & Hpost & Hstatus & Hbody & Hs).
  unfold scrape_attempt. rewrite post_unfold, Hpost.
  cbn -[parse_jobs_from_html py_or]. unfold raise_for_status, response_json.
  rewrite Hstatus, Hbody. cbn -[parse_jobs_from_html py_or]. rewrite Hs.
  fold (data_of body). rewrite Hdata.
  cbn -[parse_jobs_from_html py_or].
  fold (field d "html") (field d "markdown") (field d "content").
  fold (content_of d). rewrite Htruthy, Hparse.
  destruct jobs; [contradiction|]. reflexivity.
Qed.

Lemma extract_as_scan :
  unset (FIRECRAWL_API_KEY env) = false ->
  scrape_jobs_with_firecrawl_extract py env =
  io_bind (for_each (combos extract_endpoints (extract_payloads env))
                    (fun c => extract_attempt py env (fst c) (snd c)))
          (fun found => io_ret (match found with Some jobs => jobs | None => JArr [] end)).
Proof.
  intros Hkey. unfold scrape_jobs_with_firecrawl_extract. rewrite Hkey.
  now rewrite for_each_nested.
Qed.

Lemma scrape_as_scan :
  unset (FIRECRAWL_API_KEY env) = false ->
  scrape_jobs_with_firecrawl py env =
  io_bind (for_each (combos scrape_endpoints (scrape_payloads env))
                    (fun c => scrape_attempt py env (fst c) (snd c)))
          (fun found => io_ret (match found with Some jobs => jobs | None => JArr [] end)).
Proof.
  intros Hkey. unfold scrape_jobs_with_firecrawl. rewrite Hkey.
  now rewrite for_each_nested.
Qed.


Lemma scan_first (attempt : string -> json -> io (option json)) cs pre c post jobs :
  (forall e p, posts (fst (attempt e p)) = [(e, p)]) ->
  cs = pre ++ c :: post ->
  Forall (fun c => snd (attempt (fst c) (snd c)) = Ok None) pre ->
  snd (attempt (fst c) (snd c)) = Ok (Some jobs) ->
  let run := io_bind (for_each cs (fun c => attempt (fst c) (snd c)))
               (fun found => io_ret (match found with Some jobs => jobs | None => JArr [] end)) in
  snd run = Ok jobs /\ posts (fst run) = pre ++ [c].
Proof.
  intros Hone -> Hpre Hc. cbn zeta.
  rewrite (for_each_first pre post c jobs _ Hpre Hc). cbn -[posts].
  split; [reflexivity|]. rewrite app_nil_r.
  rewrite (concat_posts _ (fun c => attempt (fst c) (snd c)) (fun c => c)).
  - apply map_id.
  - intros [e p]. apply Hone.
Qed.

Lemma scan_raises (attempt : string -> json -> io (option json)) cs pre c post e :
  (forall e p, posts (fst (attempt e p)) = [(e, p)]) ->
  cs = pre ++ c :: post ->
  Forall (fun c => snd (attempt (fst c) (snd c)) = Ok None) pre ->
  snd (attempt (fst c) (snd c)) = Raise e ->
  let run := io_bind (for_each cs (fun c => attempt (fst c) (snd c)))
               (fun found => io_ret (match found with Some jobs => jobs | None => JArr [] end)) in
  snd run = Raise e /\ posts (fst run) = pre ++ [c].
Proof.
  intros Hone -> Hpre Hc. cbn zeta.
  rewrite (for_each_raises pre post c e _ Hpre Hc). cbn -[posts].
  split; [reflexivity|].
  rewrite (concat_posts _ (fun c => attempt (fst c) (snd c)) (fun c => c)).
  - apply map_id.
  - intros [e' p]. apply Hone.
Qed.

Lemma scan_none (attempt : string -> json -> io (option json)) cs :
  (forall e p, posts (fst (attempt e p)) = [(e, p)]) ->
  Forall (fun c => snd (attempt (fst c) (snd c)) = Ok None) cs ->
  let run := io_bind (for_each cs (fun c => attempt (fst c) (snd c)))
               (fun found => io_ret (match found with Some jobs => jobs | None => JArr [] end)) in
  snd run = Ok (JArr []) /\ posts (fst run) = cs.
Proof.
  intros Hone Hall. cbn zeta. rewrite (for_each_none cs _ Hall). cbn -[posts].
  split; [reflexivity|]. rewrite app_nil_r.
  rewrite (concat_posts _ (fun c => attempt (fst c) (snd c)) (fun c => c)).
  - apply map_id.
  - intros [e p]. apply Hone.
Qed.

Lemma scan_prefix (attempt : string -> json -> io (option json)) cs :
  (forall e p, posts (fst (attempt e p)) = [(e, p)]) ->
  let run := io_bind (for_each cs (fun c => attempt (fst c) (snd c)))
               (fun found => io_ret (match found with Some jobs => jobs | None => JArr [] end)) in
  exists rest, cs = posts (fst run) ++ rest.
Proof.
  intros Hone. cbn zeta.
  destruct (for_each_posts_prefix cs (fun c => attempt (fst c) (snd c)) (fun c => c))
    as [rest Hrest].
  { intros [e p]. apply Hone. }
  rewrite map_id in Hrest. exists rest.
  destruct (for_each cs _) as [ev [found|e]]; cbn -[posts] in *; [|exact Hrest].
  now rewrite app_nil_r.
Qed.

Lemma scrape_attempt_returns_parsed endpoint payload jobs :
  snd (scrape_attempt py env endpoint payload) = Ok (Some jobs) ->
  exists html ev records,
    parse_jobs_from_html env html = (ev, Ok records) /\ jobs = JArr records.
Proof.
  unfold scrape_attempt. rewrite post_unfold.
  destruct (requests_post env endpoint payload _) as [r| |]; try discriminate.
  cbn -[parse_jobs_from_html]. unfold raise_for_status, response_json.
  repeat (break_match; cbn -[parse_jobs_from_html]); try discriminate.
  all: match goal with
       | |- context [parse_jobs_from_html ?e ?h] =>
           destruct (parse_jobs_from_html e h) as [ev [records|e']] eqn:Hparse
       end; cbn.
  all: repeat (break_match; cbn); try discriminate.
  all: intros [= <-]; eexists _, _, _; split; [exact Hparse | reflexivity].
Qed.

Lemma scrape_returns_parsed jobs :
  snd (scrape_jobs_with_firecrawl py env) = Ok jobs ->
  jobs = JArr [] \/
  exists html ev records,
    parse_jobs_from_html env html = (ev, Ok records) /\ jobs = JArr records.
Proof.
  unfold scrape_jobs_with_firecrawl.
  destruct (unset (FIRECRAWL_API_KEY env)); [discriminate|].
  rewrite for_each_nested.
  destruct (for_each _ _) as [ev [[found|]|e]] eqn:Hscan; cbn; try discriminate.
  - intros [= <-]. right.
    destruct (for_each_returns _ _ found (f_equal snd Hscan)) as ([e p] & _ & Hb).
    now apply (scrape_attempt_returns_parsed e p).
  - intros [= <-]. now left.
Qed.
End FetcherFacts.

(** C3 (amended).  Every record the HTML parser returns has a title that
    is not empty, carries no white space at either end and has at least 5
    characters once stripped, and no two records of one call have the same
    title.  Scrape mode returns the records of one call of the parser, or
    none, so its records have such titles too.  Extract mode does not look
    at titles. *)
Theorem parser_titles_valid_and_distinct (py : process) (env : environment) :
  (forall html_content,
      exists ev jobs,
        parse_jobs_from_html env html_content = (ev, Ok jobs) /\
        NoDup (map record_title jobs) /\
        Forall valid_title jobs) /\
  (forall jobs,
      snd (scrape_jobs_with_firecrawl py env) = Ok jobs ->
      exists records,
        jobs = JArr records /\
        NoDup (map record_title records) /\
        Forall valid_title records).
Proof.
  assert (Hparser : forall html_content,
             exists ev jobs,
               parse_jobs_from_html env html_content = (ev, Ok jobs) /\
               NoDup (map record_title jobs) /\
               Forall valid_title jobs).
  { intros html_content.
    destruct (parse_jobs_from_html_spec env html_content)
      as (ev & jobs & Heq & Hnd & Hjobs).
    exists ev, jobs. split; [exact Heq|]. split; [exact Hnd|].
    apply List.Forall_forall. intros job Hin.
    destruct (Hjobs job Hin) as (_ & a & _ & _ & _ & _ & _ & link & _ & Hne & Hlen & ->).
    exists (get_text_strip (strings a)).
    assert (Hstrip : strip (get_text_strip (strings a)) = get_text_strip (strings a))
      by apply strip_of_trimmed, get_text_strip_trimmed.
    rewrite Hstrip. repeat split; auto. }
  split; [exact Hparser|].
  intros jobs Hjobs.
  destruct (scrape_returns_parsed py env jobs Hjobs)
    as [->|(html & ev & records & Hparse & ->)].
  - exists []. repeat split; constructor.
  - exists records. split; [reflexivity|].
    destruct (Hparser html) as (ev' & jobs' & Heq & Hnd & Hvalid).
    rewrite Hparse in Heq. injection Heq as <- <-. now split.
Qed.

Lemma parser_titles_valid_and_distinct_witness :
  exists records,
    JArr [job_record "React Developer" "Acme" "Location not specified"
                     "https://it.pracuj.pl/praca/123"] = JArr records /\
    NoDup (map record_title records) /\
    Forall valid_title records.
Proof.
  apply (proj2 (parser_titles_valid_and_distinct process_a env_listing)).
  vm_compute. reflexivity.
Defined.

(** C3 (as stated) fails in extract mode: a record whose title has three
    characters is returned as it came, with an ['id'] added. *)
Lemma extract_mode_keeps_short_title :
  ~ (forall py env jobs job title,
        snd (scrape_jobs_with_firecrawl_extract py env) = Ok (JArr jobs) ->
        In job jobs ->
        py_getitem job "title" = Ok (JStr title) ->
        (5 <= String.length (strip title))%nat).
Proof.
  intros H.
  specialize (H process_a env_short_title
                [JObj [("title", JStr "Dev"); ("company", JStr "Acme");
                       ("location", JStr "Warszawa");
                       ("link", JStr "https://it.pracuj.pl/praca/9");
                       ("id", JInt 222)]]
                _ "Dev" eq_refl (or_introl eq_refl) eq_refl).
  vm_compute in H. lia.
Qed.

(** C2 (amended).  With the API key set, each fetcher goes through its
    combinations endpoint by endpoint (v2, then v1) and, for one endpoint,
    payload by payload, and the requests it makes are always an initial
    part of that list.  When the combinations before one all go on
    (nothing raised, nothing returned: as after a failed request, a
    time-out, a status other than 200 or a body that is not JSON) and that
    one returns records, the fetcher returns exactly those records and
    its last request is that combination.  A turn returns records when
    the response has status 200 and an object as body that does not
    report failure and whose data (the body itself when it has no
    ['data']) is an object that carries, in extract mode, a non-empty list
    of objects under ['jobs'] (returned with an ['id'] added where there
    was none) and, in scrape mode, under ['html'], ['markdown'] or
    ['content'], content from which the parser gets at least one record.
    When the turn of a combination raises, the fetcher raises the same
    exception at once: the combinations after it are not tried. *)
Theorem fetcher_first_success_wins (py : process) (env : environment) :
  unset (FIRECRAWL_API_KEY env) = false ->
  (exists p1 p2,
      extract_payloads env = [p1; p2] /\
      py_getitem p1 "url" = Ok (getenv_json (JOB_BOARD_URL env)) /\
      py_getitem p2 "urls" = Ok (JArr [getenv_json (JOB_BOARD_URL env)]) /\
      combos extract_endpoints (extract_payloads env) =
        [("https://api.firecrawl.dev/v2/extract", p1);
         ("https://api.firecrawl.dev/v2/extract", p2);
         ("https://api.firecrawl.dev/v1/extract", p1);
         ("https://api.firecrawl.dev/v1/extract", p2)]) /\
  (exists p1 p2 p3,
      scrape_payloads env = [p1; p2; p3] /\
      Forall (fun p => py_getitem p "url" = Ok (getenv_json (JOB_BOARD_URL env)))
             [p1; p2; p3] /\
      combos scrape_endpoints (scrape_payloads env) =
        [("https://api.firecrawl.dev/v2/scrape", p1);
         ("https://api.firecrawl.dev/v2/scrape", p2);
         ("https://api.firecrawl.dev/v2/scrape", p3);
         ("https://api.firecrawl.dev/v1/scrape", p1);
         ("https://api.firecrawl.dev/v1/scrape", p2);
         ("https://api.firecrawl.dev/v1/scrape", p3)]) /\
  (exists rest,
      combos extract_endpoints (extract_payloads env) =
      posts (fst (scrape_jobs_with_firecrawl_extract py env)) ++ rest) /\
  (exists rest,
      combos scrape_endpoints (scrape_payloads env) =
      posts (fst (scrape_jobs_with_firecrawl py env)) ++ rest) /\
  (forall pre endpoint payload post jobs,
      combos extract_endpoints (extract_payloads env) = pre ++ (endpoint, payload) :: post ->
      Forall (fun c => snd (extract_attempt py env (fst c) (snd c)) = Ok None) pre ->
      snd (extract_attempt py env endpoint payload) = Ok (Some jobs) ->
      snd (scrape_jobs_with_firecrawl_extract py env) = Ok jobs /\
      posts (fst (scrape_jobs_with_firecrawl_extract py env)) = pre ++ [(endpoint, payload)]) /\
  (forall pre endpoint payload post jobs,
      combos scrape_endpoints (scrape_payloads env) = pre ++ (endpoint, payload) :: post ->
      Forall (fun c => snd (scrape_attempt py env (fst c) (snd c)) = Ok None) pre ->
      snd (scrape_attempt py env endpoint payload) = Ok (Some jobs) ->
      snd (scrape_jobs_with_firecrawl py env) = Ok jobs /\
      posts (fst (scrape_jobs_with_firecrawl py env)) = pre ++ [(endpoint, payload)]) /\
  (forall pre endpoint payload post e,
      combos extract_endpoints (extract_payloads env) = pre ++ (endpoint, payload) :: post ->
      Forall (fun c => snd (extract_attempt py env (fst c) (snd c)) = Ok None) pre ->
      snd (extract_attempt py env endpoint payload) = Raise e ->
      snd (scrape_jobs_with_firecrawl_extract py env) = Raise e /\
      posts (fst (scrape_jobs_with_firecrawl_extract py env)) = pre ++ [(endpoint, payload)]) /\
  (forall pre endpoint payload post e,
      combos scrape_endpoints (scrape_payloads env) = pre ++ (endpoint, payload) :: post ->
      Forall (fun c => snd (scrape_attempt py env (fst c) (snd c)) = Ok None) pre ->
      snd (scrape_attempt py env endpoint payload) = Raise e ->
      snd (scrape_jobs_with_firecrawl py env) = Raise e /\
      posts (fst (scrape_jobs_with_firecrawl py env)) = pre ++ [(endpoint, payload)]) /\
  (forall endpoint payload jobs,
      usable_extract (requests_post env endpoint payload (firecrawl_headers py env)) jobs ->
      exists jobs',
        snd (extract_attempt py env endpoint payload) = Ok (Some (JArr jobs')) /\
        Forall2 (fun job job' => job' = job \/ same_but_id job job') jobs jobs') /\
  (forall endpoint payload body d ev jobs,
      answers (requests_post env endpoint payload (firecrawl_headers py env)) body ->
      data_of body = JObj d ->
      truthy (content_of d) = true ->
      parse_jobs_from_html env (content_of d) = (ev, Ok jobs) ->
      jobs <> [] ->
      snd (scrape_attempt py env endpoint payload) = Ok (Some (JArr jobs))) /\
  (forall pre endpoint payload post jobs,
      combos extract_endpoints (extract_payloads env) = pre ++ (endpoint, payload) :: post ->
      Forall (fun c => attempt_fails
                         (requests_post env (fst c) (snd c) (firecrawl_headers py env)) = true)
             pre ->
      usable_extract (requests_post env endpoint payload (firecrawl_headers py env)) jobs ->
      exists jobs',
        snd (scrape_jobs_with_firecrawl_extract py env) = Ok (JArr jobs') /\
        Forall2 (fun job job' => job' = job \/ same_but_id job job') jobs jobs' /\
        posts (fst (scrape_jobs_with_firecrawl_extract py env)) = pre ++ [(endpoint, payload)]) /\
  (forall pre endpoint payload post body d ev jobs,
      combos scrape_endpoints (scrape_payloads env) = pre ++ (endpoint, payload) :: post ->
      Forall (fun c => attempt_fails
                         (requests_post env (fst c) (snd c) (firecrawl_headers py env)) = true)
             pre ->
      answers (requests_post env endpoint payload (firecrawl_headers py env)) body ->
      data_of body = JObj d ->
      truthy (content_of d) = true ->
      parse_jobs_from_html env (content_of d) = (ev, Ok jobs) ->
      jobs <> [] ->
      snd (scrape_jobs_with_firecrawl py env) = Ok (JArr jobs) /\
      posts (fst (scrape_jobs_with_firecrawl py env)) = pre ++ [(endpoint, payload)]).
Proof.
  intros Hkey.
  assert (Husable : forall endpoint payload jobs,
    usable_extract (requests_post env endpoint payload (firecrawl_headers py env)) jobs ->
    exists jobs',
      snd (extract_attempt py env endpoint payload) = Ok (Some (JArr jobs')) /\
      Forall2 (fun job job' => job' = job \/ same_but_id job job') jobs jobs').
  { intros endpoint payload jobs (body & d & Hans & Hdata & Hjobs & Hne & Hdicts).
    destruct (add_ids_dicts py jobs Hdicts) as [jobs' Hadd].
    exists jobs'. split; [now apply (extract_attempt_usable py env _ _ body d jobs)|].
    eapply Forall2_impl; [apply (add_ids_same_ids py), Hadd|].
    now intros job job' [_ H]. }
  rewrite (extract_as_scan py env Hkey), (scrape_as_scan py env Hkey).
  split; [|split; [|split; [|split; [|split; [|split; [|split; [|split;
    [|split; [|split; [|split]]]]]]]]]].
  - eexists _, _. split; [reflexivity|]. split; [reflexivity|]. split; reflexivity.
  - eexists _, _, _. split; [reflexivity|]. split; [|reflexivity].
    repeat constructor.
  - apply (scan_prefix (extract_attempt py env)), extract_attempt_posts.
  - apply (scan_prefix (scrape_attempt py env)), scrape_attempt_posts.
  - intros pre endpoint payload post jobs Hcs Hpre Hc.
    exact (scan_first (extract_attempt py env) _ pre (endpoint, payload) post jobs
             (extract_attempt_posts py env) Hcs Hpre Hc).
  - intros pre endpoint payload post jobs Hcs Hpre Hc.
    exact (scan_first (scrape_attempt py env) _ pre (endpoint, payload) post jobs
             (scrape_attempt_posts py env) Hcs Hpre Hc).
  - intros pre endpoint payload post e Hcs Hpre Hc.
    exact (scan_raises (extract_attempt py env) _ pre (endpoint, payload) post e
             (extract_attempt_posts py env) Hcs Hpre Hc).
  - intros pre endpoint payload post e Hcs Hpre Hc.
    exact (scan_raises (scrape_attempt py env) _ pre (endpoint, payload) post e
             (scrape_attempt_posts py env) Hcs Hpre Hc).
  - exact Husable.
  - intros endpoint payload body d ev jobs. apply scrape_attempt_usable.
  - intros pre endpoint payload post jobs Hcs Hpre Hc.
    destruct (Husable endpoint payload jobs Hc) as (jobs' & Hattempt & Hsame).
    exists jobs'.
    assert (Hgo : Forall (fun c => snd (extract_attempt py env (fst c) (snd c)) = Ok None) pre).
    { eapply Forall_impl; [exact Hpre|]. intros c Hf. now apply extract_attempt_fails. }
    destruct (scan_first (extract_attempt py env) _ pre (endpoint, payload) post (JArr jobs')
                (extract_attempt_posts py env) Hcs Hgo Hattempt) as [Hr Hp].
    split; [exact Hr|]. split; [exact Hsame | exact Hp].
  - intros pre endpoint payload post body d ev jobs Hcs Hpre Hans Hdata Htruthy Hparse Hne.
    assert (Hgo : Forall (fun c => snd (scrape_attempt py env (fst c) (snd c)) = Ok None) pre).
    { eapply Forall_impl; [exact Hpre|]. intros c Hf. now apply scrape_attempt_fails. }
    exact (scan_first (scrape_attempt py env) _ pre (endpoint, payload) post (JArr jobs)
             (scrape_attempt_posts py env) Hcs Hgo
             (scrape_attempt_usable py env _ _ body d ev jobs Hans Hdata Htruthy Hparse Hne)).
Qed.

Lemma fetcher_first_success_wins_witness :
  (snd (scrape_jobs_with_firecrawl_extract process_a env_fallback) =
     Ok (JArr [JObj [("title", JStr "React Developer"); ("company", JStr "Acme");
                     ("location", JStr "Warszawa");
                     ("link", JStr "https://it.pracuj.pl/praca/1");
                     ("id", JInt 222)]]) /\
   map fst (posts (fst (scrape_jobs_with_firecrawl_extract process_a env_fallback))) =
     ["https://api.firecrawl.dev/v2/extract";
      "https://api.firecrawl.dev/v2/extract";
      "https://api.firecrawl.dev/v1/extract"]) /\
  (snd (scrape_jobs_with_firecrawl process_a env_scrape_fallback) =
     Ok (JArr [JObj [("title", JStr "React Developer"); ("company", JStr "Acme");
                     ("location", JStr "Location not specified");
                     ("link", JStr "https://it.pracuj.pl/praca/123")]]) /\
   map fst (posts (fst (scrape_jobs_with_firecrawl process_a env_scrape_fallback))) =
     ["https://api.firecrawl.dev/v2/scrape";
      "https://api.firecrawl.dev/v2/scrape";
      "https://api.firecrawl.dev/v2/scrape";
      "https://api.firecrawl.dev/v1/scrape"]).
Proof.
  split.
  - destruct (fetcher_first_success_wins process_a env_fallback eq_refl)
      as (_ & _ & _ & _ & Hfirst & _).
    destruct (Hfirst (firstn 2 (combos extract_endpoints (extract_payloads env_fallback)))
                "https://api.firecrawl.dev/v1/extract"
                (nth 0 (extract_payloads env_fallback) JNull)
                (skipn 3 (combos extract_endpoints (extract_payloads env_fallback)))
                (JArr [JObj [("title", JStr "React Developer"); ("company", JStr "Acme");
                      ("location", JStr "Warszawa");
                      ("link", JStr "https://it.pracuj.pl/praca/1");
                      ("id", JInt 222)]]))
      as [Hres Hposts].
    + reflexivity.
    + repeat constructor.
    + vm_compute. reflexivity.
    + split; [exact Hres|]. rewrite Hposts. reflexivity.
  - destruct (fetcher_first_success_wins process_a env_scrape_fallback eq_refl)
      as (_ & _ & _ & _ & _ & _ & _ & _ & _ & _ & _ & Hscrape).
    destruct (Hscrape (firstn 3 (combos scrape_endpoints (scrape_payloads env_scrape_fallback)))
                "https://api.firecrawl.dev/v1/scrape"
                (nth 0 (scrape_payloads env_scrape_fallback) JNull)
                (skipn 4 (combos scrape_endpoints (scrape_payloads env_scrape_fallback)))
                [("success", JBool true);
                 ("data", JObj [("html", JStr "");
                                ("markdown", JStr "[React Developer](/praca/123)")])]
                [("html", JStr ""); ("markdown", JStr "[React Developer](/praca/123)")]
                []
                [JObj [("title", JStr "React Developer"); ("company", JStr "Acme");
                       ("location", JStr "Location not specified");
                       ("link", JStr "https://it.pracuj.pl/praca/123")]])
      as [Hres Hposts].
    + reflexivity.
    + repeat constructor.
    + eexists. split; [reflexivity|]. split; [reflexivity|]. split; reflexivity.
    + reflexivity.
    + reflexivity.
    + vm_compute. reflexivity.
    + discriminate.
    + split; [exact Hres|]. rewrite Hposts. reflexivity.
Defined.

(** C2 (as stated) fails: the first combination with usable data does not
    win when an earlier turn raises.  The v2 endpoint answers 200 with
    [null] as data, which is no usable data; the v1 endpoint delivers a
    record; the fetcher raises [AttributeError] at the first turn and the
    record is never returned. *)
Lemma usable_data_after_raising_turn_is_lost :
  ~ (forall py env pre endpoint payload post jobs,
        unset (FIRECRAWL_API_KEY env) = false ->
        combos extract_endpoints (extract_payloads env) = pre ++ (endpoint, payload) :: post ->
        Forall (fun c => forall jobs0,
                  ~ usable_extract
                      (requests_post env (fst c) (snd c) (firecrawl_headers py env)) jobs0)
               pre ->
        usable_extract (requests_post env endpoint payload (firecrawl_headers py env)) jobs ->
        exists jobs', snd (scrape_jobs_with_firecrawl_extract py env) = Ok (JArr jobs')).
Proof.
  intros H.
  destruct (H process_a env_null_then_records
              (firstn 2 (combos extract_endpoints (extract_payloads env_null_then_records)))
              "https://api.firecrawl.dev/v1/extract"
              (nth 0 (extract_payloads env_null_then_records) JNull)
              (skipn 3 (combos extract_endpoints (extract_payloads env_null_then_records)))
              [job_1]) as [jobs' Hres].
  - reflexivity.
  - reflexivity.
  - assert (Hno : forall payload jobs0,
              ~ usable_extract
                  (requests_post env_null_then_records "https://api.firecrawl.dev/v2/extract"
                     payload (firecrawl_headers process_a env_null_then_records)) jobs0).
    { intros payload jobs0 (body & d & (r & Hpost & _ & Hbody & _) & Hdata & _).
      cbn in Hpost. injection Hpost as <-. cbn in Hbody. injection Hbody as <-.
      discriminate. }
    constructor; [intros jobs0; apply Hno|].
    constructor; [intros jobs0; apply Hno|]. constructor.
  - exists [("success", JBool true); ("data", JObj [("jobs", JArr [job_1])])],
           [("jobs", JArr [job_1])].
    split.
    { eexists. split; [reflexivity|]. split; [reflexivity|]. split; reflexivity. }
    split; [reflexivity|]. split; [reflexivity|]. split; [discriminate|].
    repeat constructor.
  - vm_compute in Hres. discriminate.
Qed.

(** C4.  With the API key set, a turn whose request fails or times out,
    whose response has a status other than 200, or whose body cannot be
    decoded as JSON raises nothing and lets the loop go on with the
    remaining combinations.  When every combination of both modes fails in
    one of these ways, each fetcher and the fetcher as a whole return the
    empty list, after trying every combination once. *)
Theorem fetcher_contains_failures (py : process) (env : environment) :
  unset (FIRECRAWL_API_KEY env) = false ->
  (forall endpoint payload,
      attempt_fails (requests_post env endpoint payload (firecrawl_headers py env)) = true ->
      snd (extract_attempt py env endpoint payload) = Ok None /\
      snd (scrape_attempt py env endpoint payload) = Ok None) /\
  (forall c rest,
      attempt_fails (requests_post env (fst c) (snd c) (firecrawl_headers py env)) = true ->
      snd (for_each (c :: rest) (fun c => extract_attempt py env (fst c) (snd c))) =
        snd (for_each rest (fun c => extract_attempt py env (fst c) (snd c))) /\
      snd (for_each (c :: rest) (fun c => scrape_attempt py env (fst c) (snd c))) =
        snd (for_each rest (fun c => scrape_attempt py env (fst c) (snd c)))) /\
  ((forall url payload,
       attempt_fails (requests_post env url payload (firecrawl_headers py env)) = true) ->
   snd (scrape_jobs_with_firecrawl_extract py env) = Ok (JArr []) /\
   snd (scrape_jobs_with_firecrawl py env) = Ok (JArr []) /\
   snd (fetch_jobs py env) = Ok (JArr []) /\
   posts (fst (fetch_jobs py env)) =
     combos extract_endpoints (extract_payloads env)
     ++ combos scrape_endpoints (scrape_payloads env)).
Proof.
  intros Hkey. split; [|split].
  - intros endpoint payload Hfail.
    split; [now apply extract_attempt_fails | now apply scrape_attempt_fails].
  - intros c rest Hfail. cbn [for_each].
    pose proof (extract_attempt_fails py env _ _ Hfail) as He.
    pose proof (scrape_attempt_fails py env _ _ Hfail) as Hs.
    destruct (extract_attempt py env c.1 c.2) as [ev r]; cbn in He; subst r.
    destruct (scrape_attempt py env c.1 c.2) as [ev' r]; cbn in Hs; subst r.
    cbn. split.
    + now destruct (for_each rest _).
    + now destruct (for_each rest (fun c => scrape_attempt py env c.1 c.2)).
  - intros Hall.
    assert (He : forall cs, Forall (fun c => snd (extract_attempt py env (fst c) (snd c)) = Ok None) cs).
    { intros cs. apply Forall_forall. intros c _. apply extract_attempt_fails, Hall. }
    assert (Hs : forall cs, Forall (fun c => snd (scrape_attempt py env (fst c) (snd c)) = Ok None) cs).
    { intros cs. apply Forall_forall. intros c _. apply scrape_attempt_fails, Hall. }
    unfold fetch_jobs.
    rewrite (extract_as_scan py env Hkey), (scrape_as_scan py env Hkey).
    destruct (scan_none (extract_attempt py env)
                (combos extract_endpoints (extract_payloads env))
                (extract_attempt_posts py env) (He _)) as [Hr1 Hp1].
    destruct (scan_none (scrape_attempt py env)
                (combos scrape_endpoints (scrape_payloads env))
                (scrape_attempt_posts py env) (Hs _)) as [Hr2 Hp2].
    cbn zeta in Hr1, Hp1, Hr2, Hp2.
    split; [exact Hr1|]. split; [exact Hr2|].
    destruct (io_bind (for_each (combos extract_endpoints _) _) _) as [ev1 r1].
    cbn [fst snd] in Hr1, Hp1. subst r1.
    destruct (io_bind (for_each (combos scrape_endpoints _) _) _) as [ev2 r2].
    cbn [fst snd] in Hr2, Hp2. subst r2.
    cbn -[posts]. split; [reflexivity|]. now rewrite posts_app, Hp1, Hp2.
Qed.

Lemma fetcher_contains_failures_witness :
  snd (fetch_jobs process_a env_down) = Ok (JArr []) /\
  length (posts (fst (fetch_jobs process_a env_down))) = 10%nat.
Proof.
  destruct (fetcher_contains_failures process_a env_down eq_refl) as (_ & _ & Hall).
  destruct (Hall (fun _ _ => eq_refl)) as (_ & _ & Hres & Hposts).
  split; [exact Hres|]. rewrite Hposts. reflexivity.
Defined.

(** ** Notifier and pipeline *)

Lemma writes_app a b : writes (a ++ b) = writes a ++ writes b.
Proof. unfold writes. apply omap_app. Qed.

Lemma for_each_writes {A V} (xs : list A) (body : A -> io (option V)) :
  (forall x, writes (fst (body x)) = []) ->
  writes (fst (for_each xs body)) = [].
Proof.
  intros Hnone. induction xs as [|x xs IH]; cbn [for_each]; [reflexivity|].
  specialize (Hnone x).
  destruct (body x) as [ev [[v|]|e]]; cbn -[writes] in *.
  - now rewrite app_nil_r.
  - destruct (for_each xs body) as [ev' r]; cbn -[writes] in *.
    now rewrite writes_app, Hnone, IH.
  - exact Hnone.
Qed.

Section PipelineFacts.
Variable py : process.
Variable env : environment.

Lemma get_job_id_dict job job_id :
  get_job_id py job = Ok job_id -> is_dict job = true.
Proof.
  destruct job as [| | |s|l|d]; cbn; try discriminate; try reflexivity.
  - destruct (substring_of "link" s); discriminate.
  - destruct (existsb (eq_str "link") l); discriminate.
Qed.

Lemma filter_new_dicts jobs : forall seen acc new_jobs seen',
  filter_new py jobs seen acc = (Ok new_jobs, seen') ->
  Forall (fun job => is_dict job = true) acc ->
  Forall (fun job => is_dict job = true) new_jobs.
Proof.
  induction jobs as [|job rest IH]; intros seen acc new_jobs seen'; cbn [filter_new].
  - now intros [= <- _].
  - destruct (get_job_id py job) as [job_id|e] eqn:Hid; [|discriminate].
    destruct (decide (KStr job_id ∈ seen)); [apply IH|].
    intros Hrun Hacc. apply (IH _ _ _ _ Hrun).
    apply Forall_app. split; [exact Hacc|].
    constructor; [|constructor]. now apply (get_job_id_dict job job_id).
Qed.

Lemma html_jobs_dicts jobs :
  Forall (fun job => is_dict job = true) jobs ->
  exists rows, html_jobs py env jobs = Ok rows.
Proof.
  induction 1 as [|job rest Hjob _ [rows IH]]; cbn [html_jobs]; [now eexists|].
  destruct job; try discriminate. cbn. rewrite IH. cbn. now eexists.
Qed.

Lemma text_jobs_dicts jobs :
  Forall (fun job => is_dict job = true) jobs ->
  exists rows, text_jobs py jobs = Ok rows.
Proof.
  induction 1 as [|job rest Hjob _ [rows IH]]; cbn [text_jobs]; [now eexists|].
  destruct job; try discriminate. cbn. rewrite IH. cbn. now eexists.
Qed.

(** With the key set and a request that settles, [send_email] returns. *)
Lemma send_email_returns jobs :
  unset (RESEND_API_KEY env) = false ->
  Forall (fun job => is_dict job = true) jobs ->
  (forall payload headers,
      email_settles (requests_post env resend_url payload headers) = true) ->
  snd (send_email py env jobs) = Ok tt /\ writes (fst (send_email py env jobs)) = [].
Proof.
  intros Hkey Hdicts Hsettles. unfold send_email. rewrite Hkey.
  destruct (nonempty jobs); cbn [negb]; [|split; reflexivity].
  destruct (html_jobs_dicts jobs Hdicts) as [rows ->].
  destruct (text_jobs_dicts jobs Hdicts) as [items ->].
  cbn [lift io_bind app]. rewrite post_unfold.
  match goal with
  | |- context [requests_post env ?u ?p ?h] =>
      specialize (Hsettles p h); change u with resend_url;
      destruct (requests_post env resend_url p h) as [r| |]
  end; try (split; reflexivity).
  cbn in Hsettles. cbn. unfold raise_for_status, response_json.
  destruct ((400 <=? status_code r) && (status_code r <? 600)); cbn;
    [split; reflexivity|].
  cbn in Hsettles.
  destruct (json_body r) as [[]|]; try discriminate; cbn; split; reflexivity.
Qed.

Lemma save_seen_jobs_returns seen file :
  exists ev file', save_seen_jobs env seen file = (ev, Ok file').
Proof.
  unfold save_seen_jobs. destruct (db_write env); cbn; eexists _, _; reflexivity.
Qed.

(** The three outcomes of [save_seen_jobs]. *)
Lemma save_seen_jobs_outcome seen file :
  save_seen_jobs env seen file =
  (match db_write env with
   | WriteCompletes =>
       ([WriteFile (db_content env seen)], Ok (FileJson (db_content env seen)))
   | OpenRaises => ([Print (MsgSaveError OSError)], Ok file)
   | DumpRaises => ([TruncateFile; Print (MsgSaveError OSError)], Ok FileInvalid)
   end).
Proof. unfold save_seen_jobs, file_after_failed_write. now destruct (db_write env). Qed.

(** With the key set and an answer that is JSON but no object, under a
    status that [raise_for_status] lets through, [send_email] raises at
    [result.get]. *)
Lemma send_email_unsettled jobs :
  unset (RESEND_API_KEY env) = false ->
  jobs <> [] ->
  Forall (fun job => is_dict job = true) jobs ->
  (forall payload headers,
      email_settles (requests_post env resend_url payload headers) = false) ->
  snd (send_email py env jobs) = Raise AttributeError /\
  writes (fst (send_email py env jobs)) = [].
Proof.
  intros Hkey Hne Hdicts Hun. unfold send_email. rewrite Hkey.
  destruct jobs as [|job rest]; [contradiction|]. cbn [nonempty negb].
  destruct (html_jobs_dicts _ Hdicts) as [rows ->].
  destruct (text_jobs_dicts _ Hdicts) as [items ->].
  cbn [lift io_bind app]. rewrite post_unfold.
  match goal with
  | |- context [requests_post env ?u ?p ?h] =>
      specialize (Hun p h); change u with resend_url;
      destruct (requests_post env resend_url p h) as [r| |]
  end; try discriminate.
  cbn in Hun. cbn. unfold raise_for_status, response_json.
  destruct ((400 <=? status_code r) && (status_code r <? 600)); [discriminate|].
  cbn in Hun. cbn.
  destruct (json_body r) as [[]|]; try discriminate; cbn; split; reflexivity.
Qed.

Lemma extract_attempt_writes endpoint payload :
  writes (fst (extract_attempt py env endpoint payload)) = [].
Proof.
  unfold extract_attempt. rewrite post_unfold.
  destruct (requests_post env endpoint payload _) as [r| |]; try reflexivity.
  cbn -[generate_ids]. unfold raise_for_status, response_json.
  repeat (break_match; cbn -[generate_ids]); try reflexivity.
Qed.

Lemma parse_jobs_from_html_writes html :
  writes (fst (parse_jobs_from_html env html)) = [].
Proof.
  unfold parse_jobs_from_html. destruct (truthy html); [|reflexivity].
  cbn. destruct (BeautifulSoup env html); reflexivity.
Qed.

Lemma scrape_attempt_writes endpoint payload :
  writes (fst (scrape_attempt py env endpoint payload)) = [].
Proof.
  unfold scrape_attempt. rewrite post_unfold.
  destruct (requests_post env endpoint payload _) as [r| |]; try reflexivity.
  cbn -[parse_jobs_from_html]. unfold raise_for_status, response_json.
  repeat (break_match; cbn -[parse_jobs_from_html]); try reflexivity.
  all: match goal with
       | |- context [parse_jobs_from_html ?e ?h] =>
           pose proof (parse_jobs_from_html_writes h) as Hq;
           destruct (parse_jobs_from_html e h) as [ev [jobs|e']]
       end; cbn [fst] in Hq; cbn.
  all: repeat (break_match; cbn); cbn; try fold (writes ev);
    rewrite ?writes_app, ?Hq; reflexivity.
Qed.

Lemma fetch_jobs_writes : writes (fst (fetch_jobs py env)) = [].
Proof.
  assert (He : writes (fst (scrape_jobs_with_firecrawl_extract py env)) = []).
  { unfold scrape_jobs_with_firecrawl_extract.
    destruct (unset (FIRECRAWL_API_KEY env)); [reflexivity|].
    assert (Hw : writes (fst (for_each extract_endpoints
      (fun endpoint => for_each (extract_payloads env)
         (fun payload => extract_attempt py env endpoint payload)))) = []).
    { apply for_each_writes. intros x. apply for_each_writes.
      intros y. apply extract_attempt_writes. }
    destruct (for_each extract_endpoints _) as [ev [found|e]]; cbn -[writes] in *;
      [now rewrite app_nil_r | exact Hw]. }
  assert (Hs : writes (fst (scrape_jobs_with_firecrawl py env)) = []).
  { unfold scrape_jobs_with_firecrawl.
    destruct (unset (FIRECRAWL_API_KEY env)); [reflexivity|].
    assert (Hw : writes (fst (for_each scrape_endpoints
      (fun endpoint => for_each (scrape_payloads env)
         (fun payload => scrape_attempt py env endpoint payload)))) = []).
    { apply for_each_writes. intros x. apply for_each_writes.
      intros y. apply scrape_attempt_writes. }
    destruct (for_each scrape_endpoints _) as [ev [found|e]]; cbn -[writes] in *;
      [now rewrite app_nil_r | exact Hw]. }
  unfold fetch_jobs.
  destruct (scrape_jobs_with_firecrawl_extract py env) as [ev [jobs|e]];
    cbn -[writes] in *; [|exact He].
  destruct (truthy jobs); cbn -[writes].
  - now rewrite app_nil_r.
  - destruct (scrape_jobs_with_firecrawl py env) as [ev' r]; cbn -[writes] in *.
    now rewrite writes_app, He, Hs.
Qed.

Lemma py_iter_falsy jobs items :
  truthy jobs = false -> py_iter jobs = Ok items -> items = [].
Proof.
  destruct jobs as [| | |s|l|d]; cbn; try discriminate; intros Hf [= <-].
  - destruct s; [reflexivity | discriminate].
  - destruct l; [reflexivity | discriminate].
  - destruct d; [reflexivity | discriminate].
Qed.

Lemma combos_urls {A B} (xs : list A) (ys : list B) x :
  In x (map fst (combos xs ys)) -> In x xs.
Proof.
  unfold combos. rewrite in_map_iff. intros ([x' y] & <- & Hin).
  apply in_flat_map in Hin as (x0 & Hx0 & Hin).
  apply in_map_iff in Hin as (y0 & [= <- <-] & _). exact Hx0.
Qed.

(** The fetcher sends requests to the Firecrawl endpoints only. *)
Lemma fetch_jobs_post_urls u :
  In u (map fst (posts (fst (fetch_jobs py env)))) ->
  In u (extract_endpoints ++ scrape_endpoints).
Proof.
  assert (He : forall u, In u (map fst (posts (fst (scrape_jobs_with_firecrawl_extract py env)))) ->
                         In u extract_endpoints).
  { intros u'. destruct (unset (FIRECRAWL_API_KEY env)) eqn:Hkey.
    - unfold scrape_jobs_with_firecrawl_extract. rewrite Hkey. intros [].
    - rewrite (extract_as_scan py env Hkey).
      destruct (scan_prefix (extract_attempt py env)
                  (combos extract_endpoints (extract_payloads env))
                  (extract_attempt_posts py env)) as [rest Hrest].
      cbn zeta in Hrest. intros Hin.
      apply (combos_urls extract_endpoints (extract_payloads env)).
      rewrite Hrest, map_app. apply in_or_app. now left. }
  assert (Hs : forall u, In u (map fst (posts (fst (scrape_jobs_with_firecrawl py env)))) ->
                         In u scrape_endpoints).
  { intros u'. destruct (unset (FIRECRAWL_API_KEY env)) eqn:Hkey.
    - unfold scrape_jobs_with_firecrawl. rewrite Hkey. intros [].
    - rewrite (scrape_as_scan py env Hkey).
      destruct (scan_prefix (scrape_attempt py env)
                  (combos scrape_endpoints (scrape_payloads env))
                  (scrape_attempt_posts py env)) as [rest Hrest].
      cbn zeta in Hrest. intros Hin.
      apply (combos_urls scrape_endpoints (scrape_payloads env)).
      rewrite Hrest, map_app. apply in_or_app. now left. }
  unfold fetch_jobs.
  destruct (scrape_jobs_with_firecrawl_extract py env) as [ev [jobs|e]];
    cbn [io_bind fst snd] in *.
  - destruct (truthy jobs); cbn [negb io_ret fst snd].
    + rewrite app_nil_r. intros Hin. apply in_or_app. left. now apply He.
    + destruct (scrape_jobs_with_firecrawl py env) as [ev' r]; cbn [fst snd] in *.
      rewrite posts_app, map_app. intros Hin. apply in_or_app.
      apply in_app_or in Hin as [Hin|Hin]; [left; now apply He | right; now apply Hs].
  - intros Hin. apply in_or_app. left. now apply He.
Qed.

Lemma not_resend_url :
  ~ In resend_url (extract_endpoints ++ scrape_endpoints).
Proof. cbn. intros [H|[H|[H|[H|[]]]]]; discriminate. Qed.

End PipelineFacts.

Lemma posts_print ev msg : posts (ev ++ [Print msg]) = posts ev.
Proof. rewrite posts_app. cbn. apply app_nil_r. Qed.

Lemma writes_print ev msg : writes (ev ++ [Print msg]) = writes ev.
Proof. rewrite writes_app. cbn. apply app_nil_r. Qed.

(** C7 (amended).  Called with an empty list, [send_email] records no
    event in any configuration, so it makes no request.  It returns
    without effect when [RESEND_API_KEY] is set, and raises the
    configuration error when it is not.  The pipeline sends a request to
    the email API only in a cycle whose filter loop reported at least one
    new record. *)
Theorem send_email_empty_list (py : process) (env : environment) :
  fst (send_email py env []) = [] /\
  (unset (RESEND_API_KEY env) = false -> send_email py env [] = ([], Ok tt)) /\
  (unset (RESEND_API_KEY env) = true ->
   exists msg, send_email py env [] = ([], Raise (ValueError msg))) /\
  (forall seen file,
      In resend_url (map fst (posts (fst (check_for_new_jobs py env seen file)))) ->
      exists jobs items new_jobs seen',
        snd (fetch_jobs py env) = Ok jobs /\
        py_iter jobs = Ok items /\
        filter_new py items seen [] = (Ok new_jobs, seen') /\
        new_jobs <> []).
Proof.
  split; [|split; [|split]].
  - unfold send_email. now destruct (unset (RESEND_API_KEY env)).
  - intros Hkey. unfold send_email. now rewrite Hkey.
  - intros Hkey. unfold send_email. rewrite Hkey. eexists. reflexivity.
  - intros seen file. unfold check_for_new_jobs.
    pose proof (fetch_jobs_post_urls py env) as Hurls.
    destruct (fetch_jobs py env) as [ev [jobs|e]]; cbn [fst snd] in *.
    all: assert (Hno : In resend_url (map fst (posts ev)) -> False)
      by (intros Hin; apply Hurls in Hin; now apply not_resend_url in Hin).
    2: { rewrite posts_print. intros Hin. now apply Hno in Hin. }
    destruct (truthy jobs); cbn [negb fst].
    2: { rewrite posts_print. intros Hin. now apply Hno in Hin. }
    destruct (py_iter jobs) as [items|e] eqn:Hiter; cbn [fst].
    2: { rewrite posts_print. intros Hin. now apply Hno in Hin. }
    destruct (filter_new py items seen []) as [[new_jobs|e] seen'] eqn:Hrun; cbn [fst].
    2: { rewrite posts_print. intros Hin. now apply Hno in Hin. }
    destruct new_jobs as [|job rest]; cbn [nonempty fst].
    { rewrite posts_print. intros Hin. now apply Hno in Hin. }
    intros _. exists jobs, items, (job :: rest), seen'.
    split; [reflexivity|]. split; [exact Hiter|]. split; [exact Hrun|]. discriminate.
Qed.

Lemma send_email_empty_list_witness :
  send_email process_a env_down [] = ([], Ok tt).
Proof.
  apply (proj1 (proj2 (send_email_empty_list process_a env_down))). reflexivity.
Defined.

(** C7 (as stated) fails: without [RESEND_API_KEY] the call with an empty
    list raises instead of returning. *)
Lemma send_email_empty_list_raises_without_key :
  ~ (forall py env, send_email py env [] = ([], Ok tt)).
Proof.
  intros H. specialize (H process_a env_no_resend_key). discriminate.
Qed.

(** C5 (amended).  In a cycle whose filter loop completes:  with no new
    record nothing is written and the file stays as it was.  With at least
    one new record and [RESEND_API_KEY] set, when the request to the email
    API fails, times out, is answered 4xx or 5xx, or is answered with a
    body that is not JSON or is a JSON object, [send_email] returns and
    the cycle ends with [save_seen_jobs] run on the updated seen-set,
    after the send attempt and whatever its outcome: when the write
    completes, one document holding the updated set is written and is the
    file afterwards; when [open] raises the file stays as it was; when
    [json.dump] raises the file is left without a JSON document.  When
    the email API answers, under a status that is not 4xx or 5xx, with
    JSON that is not an object, [send_email] raises [AttributeError], and
    when [RESEND_API_KEY] is not set it raises the configuration error: in
    both cases the cycle prints the error, writes nothing and leaves the
    file as it was, while the updated seen-set stays in memory.  A cycle
    that writes anything is one whose loop reported at least one new
    record. *)
Theorem seen_set_saved_after_send_attempt (py : process) (env : environment)
    (seen : gset pykey) (file : db_file) :
  (forall jobs items new_jobs seen',
      snd (fetch_jobs py env) = Ok jobs ->
      py_iter jobs = Ok items ->
      filter_new py items seen [] = (Ok new_jobs, seen') ->
      (new_jobs = [] ->
       writes (fst (check_for_new_jobs py env seen file)) = [] /\
       snd (check_for_new_jobs py env seen file) = (seen', file)) /\
      (new_jobs <> [] ->
       unset (RESEND_API_KEY env) = false ->
       (forall payload headers,
           email_settles (requests_post env resend_url payload headers) = true) ->
       exists ev ev_save file',
         save_seen_jobs env seen' file = (ev_save, Ok file') /\
         check_for_new_jobs py env seen file = (ev ++ ev_save, (seen', file')) /\
         writes ev = [] /\
         (db_writable env = true ->
          ev_save = [WriteFile (db_content env seen')] /\
          file' = FileJson (db_content env seen')) /\
         (db_write env = OpenRaises -> writes ev_save = [] /\ file' = file) /\
         (db_write env = DumpRaises -> writes ev_save = [] /\ file' = FileInvalid)) /\
      (new_jobs <> [] ->
       unset (RESEND_API_KEY env) = false ->
       (forall payload headers,
           email_settles (requests_post env resend_url payload headers) = false) ->
       exists ev,
         check_for_new_jobs py env seen file =
           (ev ++ [Print (MsgCheckError AttributeError)], (seen', file)) /\
         writes ev = []) /\
      (new_jobs <> [] ->
       unset (RESEND_API_KEY env) = true ->
       exists ev msg,
         check_for_new_jobs py env seen file =
           (ev ++ [Print (MsgCheckError (ValueError msg))], (seen', file)) /\
         writes ev = [])) /\
  (writes (fst (check_for_new_jobs py env seen file)) <> [] ->
   exists jobs items new_jobs seen',
     snd (fetch_jobs py env) = Ok jobs /\
     py_iter jobs = Ok items /\
     filter_new py items seen [] = (Ok new_jobs, seen') /\
     new_jobs <> []).
Proof.
  pose proof (fetch_jobs_writes py env) as Hfetch.
  unfold check_for_new_jobs.
  destruct (fetch_jobs py env) as [ev [jobs|e]]; cbn [fst snd] in *.
  2: { split; [intros ? ? ? ? [=]|]. rewrite writes_print. intros Hw. now apply Hw in Hfetch. }
  destruct (truthy jobs) eqn:Htruthy; cbn [negb fst snd].
  2: { split.
       - intros jobs0 items new_jobs seen' [= <-] Hiter Hrun.
         rewrite (py_iter_falsy _ _ Htruthy Hiter) in Hrun.
         cbn in Hrun. injection Hrun as <- <-.
         split; [intros _; now rewrite writes_print|].
         split; [|split]; intros Hne; now destruct Hne.
       - rewrite writes_print. intros Hw. now apply Hw in Hfetch. }
  destruct (py_iter jobs) as [items|e] eqn:Hiter; cbn [fst snd].
  2: { split; [|rewrite writes_print; intros Hw; now apply Hw in Hfetch].
       intros jobs0 items0 new_jobs seen0 [= <-] Hit. rewrite Hiter in Hit. discriminate. }
  destruct (filter_new py items seen []) as [[new_jobs|e] seen'] eqn:Hrun; cbn [fst snd].
  2: { split; [|rewrite writes_print; intros Hw; now apply Hw in Hfetch].
       intros jobs0 items0 new_jobs seen0 [= <-] Hit Hr.
       rewrite Hiter in Hit. injection Hit as <-. rewrite Hrun in Hr. discriminate. }
  assert (Hdicts : Forall (fun job => is_dict job = true) new_jobs)
    by (apply (filter_new_dicts py items seen [] new_jobs seen' Hrun); constructor).
  destruct new_jobs as [|job rest]; cbn [nonempty fst snd].
  - split; [|rewrite writes_print; intros Hw; now apply Hw in Hfetch].
    intros jobs0 items0 new_jobs seen0 [= <-] Hit Hr.
    rewrite Hiter in Hit. injection Hit as <-. rewrite Hrun in Hr. injection Hr as <- <-.
    split; [intros _; now rewrite writes_print|].
    split; [|split]; intros Hne; now destruct Hne.
  - split.
    2: { intros _. exists jobs, items, (job :: rest), seen'.
         split; [reflexivity|]. split; [exact Hiter|]. split; [exact Hrun|]. discriminate. }
    intros jobs0 items0 new_jobs seen0 [= <-] Hit Hr.
    rewrite Hiter in Hit. injection Hit as <-. rewrite Hrun in Hr. injection Hr as <- <-.
    split; [discriminate|]. split; [|split].
    + intros _ Hkey Hsettles.
      destruct (send_email_returns py env (job :: rest) Hkey Hdicts Hsettles)
        as [Hsend Hsendw].
      destruct (send_email py env (job :: rest)) as [ev2 r]. cbn [fst snd] in *. subst r.
      rewrite (save_seen_jobs_outcome env seen' file).
      exists ((ev ++ [Print (MsgNewJobs (length (job :: rest)))]) ++ ev2).
      unfold db_writable.
      destruct (db_write env); eexists _, _.
      all: split; [reflexivity|]; split; [now rewrite <- !app_assoc|].
      all: split; [now rewrite writes_app, writes_print, Hfetch, Hsendw|].
      all: split; [|split]; try discriminate; intros _; split; reflexivity.
    + intros _ Hkey Hun.
      destruct (send_email_unsettled py env (job :: rest) Hkey ltac:(discriminate)
                  Hdicts Hun) as [Hsend Hsendw].
      destruct (send_email py env (job :: rest)) as [ev2 r]. cbn [fst snd] in *. subst r.
      exists ((ev ++ [Print (MsgNewJobs (length (job :: rest)))]) ++ ev2).
      split; [now rewrite <- !app_assoc|].
      now rewrite writes_app, writes_print, Hfetch, Hsendw.
    + intros _ Hkey. unfold send_email. rewrite Hkey. cbn [raise].
      exists (ev ++ [Print (MsgNewJobs (length (job :: rest)))]). eexists.
      split; [now rewrite <- !app_assoc|].
      now rewrite writes_print.
Qed.

Lemma seen_set_saved_after_send_attempt_witness :
  writes (fst (check_for_new_jobs process_a env_email_down ∅ FileAbsent)) =
    [db_content env_email_down {[KStr "111"]}] /\
  snd (check_for_new_jobs process_a env_email_down ∅ FileAbsent) =
    ({[KStr "111"]}, FileJson (db_content env_email_down {[KStr "111"]})).
Proof.
  destruct (seen_set_saved_after_send_attempt process_a env_email_down ∅ FileAbsent)
    as [Hif _].
  destruct (Hif (JArr [JObj [("title", JStr "React Developer"); ("company", JStr "Acme");
                             ("location", JStr "Warszawa");
                             ("link", JStr "https://it.pracuj.pl/praca/1");
                             ("id", JInt 222)]])
                _ _ {[KStr "111"]} eq_refl eq_refl eq_refl) as (_ & Hnew & _).
  destruct Hnew as (ev & ev_save & file' & Hsave & Hcheck & Hev & Hw & _);
    [discriminate | reflexivity | intros payload headers; reflexivity |].
  destruct (Hw eq_refl) as [-> ->].
  rewrite Hcheck. cbn [fst snd]. rewrite writes_app, Hev. split; reflexivity.
Defined.

(** C5 (as stated) fails: without [RESEND_API_KEY] a cycle with a new
    record raises in [send_email] and never reaches [save_seen_jobs]. *)
Lemma seen_set_not_saved_without_email_key :
  ~ (forall py env seen file jobs items new_jobs seen',
        snd (fetch_jobs py env) = Ok jobs ->
        py_iter jobs = Ok items ->
        filter_new py items seen [] = (Ok new_jobs, seen') ->
        new_jobs <> [] ->
        db_writable env = true ->
        writes (fst (check_for_new_jobs py env seen file)) <> []).
Proof.
  intros H.
  set (job := JObj [("title", JStr "React Developer"); ("company", JStr "Acme");
                    ("location", JStr "Warszawa");
                    ("link", JStr "https://it.pracuj.pl/praca/1");
                    ("id", JInt 222)]).
  apply (H process_a env_no_resend_key ∅ FileAbsent (JArr [job]) [job] [job]
           ({[KStr "111"]} ∪ ∅)).
  - reflexivity.
  - reflexivity.
  - cbn [filter_new]. change (get_job_id process_a job) with (Ok (A:=string) "111").
    cbv iota beta. rewrite decide_False by set_solver. reflexivity.
  - discriminate.
  - reflexivity.
  - unfold check_for_new_jobs.
    change (fetch_jobs process_a env_no_resend_key)
      with (fst (fetch_jobs process_a env_no_resend_key), Ok (JArr [job])).
    cbn [truthy negb py_iter filter_new].
    change (get_job_id process_a job) with (Ok (A:=string) "111").
    cbv iota beta. rewrite decide_False by set_solver.
    cbn [app nonempty]. unfold send_email. cbn [env_no_resend_key RESEND_API_KEY unset raise].
    cbn [fst]. rewrite !writes_app. cbn [writes omap]. rewrite !app_nil_r.
    apply fetch_jobs_writes.
Qed.

(** * Further properties *)

(** ** Deduplicator *)

Section DeduplicatorMore.
Variable py : process.

Lemma filter_new_grows jobs : forall seen acc r seen1,
  filter_new py jobs seen acc = (r, seen1) -> seen ⊆ seen1.
Proof.
  induction jobs as [|job rest IH]; intros seen acc r seen1; cbn [filter_new].
  - intros [= _ <-]. reflexivity.
  - destruct (get_job_id py job) as [job_id|e]; [|intros [= _ <-]; reflexivity].
    destruct (decide (KStr job_id ∈ seen)); intros Hrun; apply IH in Hrun; set_solver.
Qed.

Lemma filter_new_again jobs : forall seen acc r seen1,
  filter_new py jobs seen acc = (r, seen1) ->
  filter_new py jobs seen1 [] =
    (match r with Ok _ => Ok [] | Raise e => Raise e end, seen1).
Proof.
  induction jobs as [|job rest IH]; intros seen acc r seen1; cbn [filter_new].
  - now intros [= <- <-].
  - destruct (get_job_id py job) as [job_id|e]; [|now intros [= <- <-]].
    destruct (decide (KStr job_id ∈ seen)) as [Hin|Hnin]; intros Hrun.
    + pose proof (filter_new_grows _ _ _ _ _ Hrun) as Hsub.
      rewrite decide_True by set_solver. now apply (IH seen acc).
    + pose proof (filter_new_grows _ _ _ _ _ Hrun) as Hsub.
      rewrite decide_True by set_solver. now apply (IH _ _ _ _ Hrun).
Qed.

Lemma filter_new_sublist jobs : forall seen acc new_jobs seen1,
  filter_new py jobs seen acc = (Ok new_jobs, seen1) ->
  exists kept, new_jobs = acc ++ kept /\ kept `sublist_of` jobs.
Proof.
  induction jobs as [|job rest IH]; intros seen acc new_jobs seen1; cbn [filter_new].
  - intros [= <- _]. exists []. now rewrite app_nil_r.
  - destruct (get_job_id py job) as [job_id|e]; [|discriminate].
    destruct (decide (KStr job_id ∈ seen)); intros Hrun.
    + destruct (IH _ _ _ _ Hrun) as (kept & -> & Hsub).
      exists kept. split; [reflexivity | now constructor].
    + destruct (IH _ _ _ _ Hrun) as (kept & -> & Hsub).
      exists (job :: kept). rewrite <- app_assoc. split; [reflexivity | now constructor].
Qed.

Lemma filter_new_raises pre : forall bad post seen acc ids_pre e,
  job_ids py pre = Ok ids_pre ->
  get_job_id py bad = Raise e ->
  filter_new py (pre ++ bad :: post) seen acc = (Raise e, seen_with seen ids_pre).
Proof.
  induction pre as [|job rest IH]; intros bad post seen acc ids_pre e; cbn.
  - intros [= <-] ->. f_equal. unfold seen_with. set_solver.
  - destruct (get_job_id py job) as [job_id|e']; cbn; [|discriminate].
    destruct (job_ids py rest) as [ids|e']; cbn; [|discriminate].
    intros [= <-] Hbad.
    destruct (decide (KStr job_id ∈ seen)).
    + rewrite (IH bad post seen acc ids e eq_refl Hbad). f_equal.
      unfold seen_with. set_solver.
    + rewrite (IH bad post _ _ ids e eq_refl Hbad). f_equal.
      unfold seen_with. set_solver.
Qed.

Lemma get_job_id_range job job_id :
  get_job_id py job = Ok job_id ->
  exists n, 0 <= n < 10 ^ 10 /\ job_id = pretty n.
Proof.
  unfold get_job_id.
  destruct (py_contains "link" job) as [[|]|e]; cbn; try discriminate.
  - destruct (py_getitem job "link") as [l|e]; cbn; [|discriminate].
    destruct (truthy l); cbn.
    + destruct (py_hash py l) as [h|e]; cbn; [|discriminate].
      intros [= <-]. eexists. split; [|reflexivity]. apply Z.mod_pos_bound. lia.
    + destruct (py_get job "title" _) as [t|e]; cbn; [|discriminate].
      destruct (py_get job "company" _) as [c|e]; cbn; [|discriminate].
      intros [= <-]. eexists. split; [|reflexivity]. apply Z.mod_pos_bound. lia.
  - destruct (py_get job "title" _) as [t|e]; cbn; [|discriminate].
    destruct (py_get job "company" _) as [c|e]; cbn; [|discriminate].
    intros [= <-]. eexists. split; [|reflexivity]. apply Z.mod_pos_bound. lia.
Qed.

Lemma get_job_id_link_only d1 d2 l :
  dict_lookup "link" d1 = Some l -> truthy l = true ->
  dict_lookup "link" d2 = Some l ->
  get_job_id py (JObj d1) = get_job_id py (JObj d2).
Proof.
  intros H1 Ht H2. unfold get_job_id. cbn. rewrite H1, H2. cbn. now rewrite Ht.
Qed.

Lemma get_job_id_fallback d1 d2 :
  link_missing d1 -> link_missing d2 ->
  dict_lookup "title" d1 = dict_lookup "title" d2 ->
  dict_lookup "company" d1 = dict_lookup "company" d2 ->
  get_job_id py (JObj d1) = get_job_id py (JObj d2).
Proof.
  unfold link_missing, get_job_id. cbn. intros H1 H2 -> ->.
  destruct (dict_lookup "link" d1) as [l1|], (dict_lookup "link" d2) as [l2|]; cbn;
    rewrite ?H1, ?H2; reflexivity.
Qed.
End DeduplicatorMore.

(** X1.  The new records of the filter loop are records of the batch, in
    the order of the batch: the loop drops records, it never reorders,
    repeats or invents one. *)
Theorem filter_new_keeps_batch_order (py : process) (jobs : list json)
    (seen seen1 : gset pykey) (new_jobs : list json) :
  filter_new py jobs seen [] = (Ok new_jobs, seen1) ->
  new_jobs `sublist_of` jobs.
Proof.
  intros Hrun. destruct (filter_new_sublist py jobs seen [] new_jobs seen1 Hrun)
    as (kept & -> & Hsub). exact Hsub.
Qed.

Lemma filter_new_keeps_batch_order_witness : [job_2] `sublist_of` [job_1; job_2].
Proof.
  apply (filter_new_keeps_batch_order process_a [job_1; job_2] {[KStr "111"]}
           ({[KStr "222"]} ∪ {[KStr "111"]})).
  vm_compute. reflexivity.
Defined.

(** X2.  An identifier is the decimal text of a number from 0 to
    10^10 - 1, whatever the record. *)
Theorem get_job_id_in_range (py : process) (job : json) (job_id : string) :
  get_job_id py job = Ok job_id ->
  exists n, 0 <= n < 10 ^ 10 /\ job_id = pretty n.
Proof. apply get_job_id_range. Qed.

Lemma get_job_id_in_range_witness :
  exists n, 0 <= n < 10 ^ 10 /\ "111" = pretty n.
Proof. apply (get_job_id_in_range process_a job_1). reflexivity. Defined.

(** X3.  The identifier of a record reads the link alone when the link is
    truthy: two records with the same truthy link have the same
    identifier, whatever their other fields.  Without a usable link it
    reads the title and the company alone. *)
Theorem get_job_id_reads_link_or_title_and_company (py : process)
    (d1 d2 : list (string * json)) :
  (forall l,
      dict_lookup "link" d1 = Some l -> truthy l = true ->
      dict_lookup "link" d2 = Some l ->
      get_job_id py (JObj d1) = get_job_id py (JObj d2)) /\
  (link_missing d1 -> link_missing d2 ->
   dict_lookup "title" d1 = dict_lookup "title" d2 ->
   dict_lookup "company" d1 = dict_lookup "company" d2 ->
   get_job_id py (JObj d1) = get_job_id py (JObj d2)).
Proof.
  split; [intros l; apply get_job_id_link_only | apply get_job_id_fallback].
Qed.

Lemma get_job_id_reads_link_or_title_and_company_witness :
  get_job_id process_a (JObj [("title", JStr "React Developer"); ("company", JStr "Acme");
                              ("location", JStr "Warszawa"); ("link", JStr "")])
  = get_job_id process_a (JObj [("company", JStr "Acme"); ("title", JStr "React Developer");
                                ("location", JStr "Krakow")]).
Proof.
  apply (proj2 (get_job_id_reads_link_or_title_and_company process_a _ _));
    reflexivity || exact I.
Defined.

(** ** Pipeline *)

Lemma py_iter_nonempty_truthy jobs items :
  py_iter jobs = Ok items -> items <> [] -> truthy jobs = true.
Proof.
  destruct jobs as [| | |s|l|d]; cbn; try discriminate; intros [= <-] Hne.
  - destruct s; [contradiction | reflexivity].
  - destruct l; [contradiction | reflexivity].
  - destruct d; [contradiction | reflexivity].
Qed.

Section PipelineMore.
Variable py : process.
Variable env : environment.

Lemma send_email_events jobs :
  writes (fst (send_email py env jobs)) = [] /\
  (posts (fst (send_email py env jobs)) = [] \/
   exists payload, posts (fst (send_email py env jobs)) = [(resend_url, payload)]).
Proof.
  unfold send_email.
  destruct (unset (RESEND_API_KEY env)); [split; [reflexivity | now left]|].
  destruct (nonempty jobs); cbn [negb]; [|split; [reflexivity | now left]].
  destruct (html_jobs py env jobs) as [rows|e]; [|split; [reflexivity | now left]].
  destruct (text_jobs py jobs) as [items|e]; [|split; [reflexivity | now left]].
  cbn [lift io_bind app]. rewrite post_unfold.
  match goal with
  | |- context [requests_post env ?u ?p ?h] =>
      destruct (requests_post env u p h) as [r| |]
  end; cbn; try (split; [reflexivity | right; eexists; reflexivity]).
  unfold raise_for_status, response_json.
  repeat (break_match; cbn); split; try reflexivity; right; eexists; reflexivity.
Qed.

Lemma save_seen_jobs_cases seen file :
  save_seen_jobs env seen file =
    ([WriteFile (db_content env seen)], Ok (FileJson (db_content env seen))) /\
  db_write env = WriteCompletes \/
  save_seen_jobs env seen file = ([Print (MsgSaveError OSError)], Ok file) \/
  save_seen_jobs env seen file =
    ([TruncateFile; Print (MsgSaveError OSError)], Ok FileInvalid) /\
  db_write env = DumpRaises.
Proof.
  rewrite save_seen_jobs_outcome. destruct (db_write env); auto.
Qed.

(** What a cycle leaves behind, case by case. *)
Lemma check_for_new_jobs_cases seen file :
  exists ev seen1 file1,
    check_for_new_jobs py env seen file = (ev, (seen1, file1)) /\
    seen ⊆ seen1 /\
    (forall items, (exists jobs, snd (fetch_jobs py env) = Ok jobs /\ truthy jobs = true /\
                                  py_iter jobs = Ok items) ->
                   exists r, filter_new py items seen [] = (r, seen1)) /\
    ((exists jobs, snd (fetch_jobs py env) = Ok jobs /\ truthy jobs = true /\
                   exists items, py_iter jobs = Ok items) \/ seen1 = seen) /\
    (file1 = file /\ writes ev = [] \/
     file1 = FileJson (db_content env seen1) /\ writes ev = [db_content env seen1] /\
     db_write env = WriteCompletes \/
     file1 = FileInvalid /\ writes ev = [] /\ db_write env = DumpRaises) /\
    (length (posts ev) <= length (posts (fst (fetch_jobs py env))) + 1)%nat.
Proof.
  unfold check_for_new_jobs.
  pose proof (fetch_jobs_writes py env) as Hfw.
  destruct (fetch_jobs py env) as [ev [jobs|e]]; cbn [fst snd] in *.
  2: { eexists _, _, _. split; [reflexivity|]. split; [reflexivity|].
       split; [intros items (jobs & [=] & _)|]. split; [now right|].
       rewrite writes_print, posts_print. split; [now left | lia]. }
  destruct (truthy jobs) eqn:Htruthy; cbn [negb].
  2: { eexists _, _, _. split; [reflexivity|]. split; [reflexivity|].
       split; [intros items (jobs0 & [= <-] & Ht & _); congruence|].
       split; [now right|].
       rewrite writes_print, posts_print. split; [now left | lia]. }
  destruct (py_iter jobs) as [items|e] eqn:Hiter.
  2: { eexists _, _, _. split; [reflexivity|]. split; [reflexivity|].
       split; [intros items (jobs0 & [= <-] & _ & Hit); congruence|].
       split; [now right|].
       rewrite writes_print, posts_print. split; [now left | lia]. }
  assert (Hleft : exists jobs0, Ok jobs = Ok jobs0 /\ truthy jobs0 = true /\
                                exists items, py_iter jobs0 = Ok items)
    by (exists jobs; eauto).
  destruct (filter_new py items seen []) as [[new_jobs|e] seen1] eqn:Hrun.
  2: { eexists _, _, _. split; [reflexivity|].
       split; [now apply (filter_new_grows py items seen [] _ _ Hrun)|].
       split; [intros items0 (jobs0 & [= <-] & _ & Hit); rewrite Hiter in Hit;
               injection Hit as <-; eauto|].
       split; [now left|].
       rewrite writes_print, posts_print. split; [now left | lia]. }
  pose proof (filter_new_grows py items seen [] _ _ Hrun) as Hsub.
  assert (Hfilter : forall items0,
             (exists jobs0, Ok jobs = Ok jobs0 /\ truthy jobs0 = true /\
                            py_iter jobs0 = Ok items0) ->
             exists r, filter_new py items0 seen [] = (r, seen1)).
  { intros items0 (jobs0 & [= <-] & _ & Hit). rewrite Hiter in Hit.
    injection Hit as <-. eauto. }
  destruct (nonempty new_jobs).
  2: { eexists _, _, _. split; [reflexivity|]. split; [exact Hsub|].
       split; [exact Hfilter|]. split; [now left|].
       rewrite writes_print, posts_print. split; [now left | lia]. }
  destruct (send_email_events new_jobs) as [Hsw Hsp].
  destruct (send_email py env new_jobs) as [ev2 [[]|e]]; cbn [fst] in *.
  - destruct (save_seen_jobs_cases seen1 file) as [[-> Hw]|[->|[-> Hw]]].
    + eexists _, _, _. split; [reflexivity|]. split; [exact Hsub|].
      split; [exact Hfilter|]. split; [now left|].
      rewrite !writes_app, !posts_app, Hfw, Hsw. cbn [writes omap app].
      rewrite !length_app. split; [right; left; auto|].
      destruct Hsp as [->|[payload ->]]; cbn; lia.
    + eexists _, _, _. split; [reflexivity|]. split; [exact Hsub|].
      split; [exact Hfilter|]. split; [now left|].
      rewrite !writes_app, !posts_app, Hfw, Hsw. cbn [writes omap app].
      rewrite !length_app. split; [now left|].
      destruct Hsp as [->|[payload ->]]; cbn; lia.
    + eexists _, _, _. split; [reflexivity|]. split; [exact Hsub|].
      split; [exact Hfilter|]. split; [now left|].
      rewrite !writes_app, !posts_app, Hfw, Hsw. cbn [writes omap app].
      rewrite !length_app. split; [right; right; auto|].
      destruct Hsp as [->|[payload ->]]; cbn; lia.
  - eexists _, _, _. split; [reflexivity|]. split; [exact Hsub|].
    split; [exact Hfilter|]. split; [now left|].
    rewrite !writes_app, !posts_app, Hfw, Hsw. cbn [writes omap app].
    rewrite !length_app. split; [now left|].
    destruct Hsp as [->|[payload ->]]; cbn; lia.
Qed.

(** A cycle run on a set that already holds every identifier of the batch
    only fetches and prints. *)
Lemma check_for_new_jobs_quiet seen1 file1 :
  (forall jobs items,
      snd (fetch_jobs py env) = Ok jobs -> truthy jobs = true ->
      py_iter jobs = Ok items ->
      exists r : result (list json),
        filter_new py items seen1 [] =
          (match r with Ok _ => Ok [] | Raise e => Raise e end, seen1)) ->
  exists msg,
    check_for_new_jobs py env seen1 file1 =
      (fst (fetch_jobs py env) ++ [Print msg], (seen1, file1)).
Proof.
  intros Hseen. unfold check_for_new_jobs.
  destruct (fetch_jobs py env) as [ev [jobs|e]]; cbn [fst snd] in *; [|now eexists].
  destruct (truthy jobs) eqn:Htruthy; cbn [negb]; [|now eexists].
  destruct (py_iter jobs) as [items|e] eqn:Hiter; [|now eexists].
  destruct (Hseen jobs items eq_refl Htruthy Hiter) as [r ->].
  destruct r as [new_jobs|e]; cbn [nonempty]; now eexists.
Qed.

Lemma fetch_jobs_posts_bound :
  (length (posts (fst (fetch_jobs py env))) <= 10)%nat.
Proof.
  assert (He : (length (posts (fst (scrape_jobs_with_firecrawl_extract py env))) <= 4)%nat).
  { destruct (unset (FIRECRAWL_API_KEY env)) eqn:Hkey.
    - unfold scrape_jobs_with_firecrawl_extract. rewrite Hkey. cbn. lia.
    - rewrite (extract_as_scan py env Hkey).
      destruct (scan_prefix (extract_attempt py env)
                  (combos extract_endpoints (extract_payloads env))
                  (extract_attempt_posts py env)) as [rest Hrest].
      cbn zeta in Hrest.
      match goal with |- (length ?l <= _)%nat => set (sent := l) in * end.
      apply (f_equal (@length _)) in Hrest.
      rewrite length_app in Hrest. cbn [combos extract_endpoints extract_payloads
        flat_map map app length] in Hrest. lia. }
  assert (Hs : (length (posts (fst (scrape_jobs_with_firecrawl py env))) <= 6)%nat).
  { destruct (unset (FIRECRAWL_API_KEY env)) eqn:Hkey.
    - unfold scrape_jobs_with_firecrawl. rewrite Hkey. cbn. lia.
    - rewrite (scrape_as_scan py env Hkey).
      destruct (scan_prefix (scrape_attempt py env)
                  (combos scrape_endpoints (scrape_payloads env))
                  (scrape_attempt_posts py env)) as [rest Hrest].
      cbn zeta in Hrest.
      match goal with |- (length ?l <= _)%nat => set (sent := l) in * end.
      apply (f_equal (@length _)) in Hrest.
      rewrite length_app in Hrest. cbn [combos scrape_endpoints scrape_payloads
        flat_map map app length] in Hrest. lia. }
  unfold fetch_jobs.
  destruct (scrape_jobs_with_firecrawl_extract py env) as [ev [jobs|e]];
    cbn [io_bind fst snd] in *; [|lia].
  destruct (truthy jobs); cbn [negb io_ret fst snd].
  - rewrite app_nil_r. lia.
  - destruct (scrape_jobs_with_firecrawl py env) as [ev' r]; cbn [fst snd] in *.
    rewrite posts_app, length_app. lia.
Qed.

Lemma check_for_new_jobs_raises seen file jobs pre bad post ids_pre e :
  snd (fetch_jobs py env) = Ok jobs ->
  py_iter jobs = Ok (pre ++ bad :: post) ->
  job_ids py pre = Ok ids_pre ->
  get_job_id py bad = Raise e ->
  check_for_new_jobs py env seen file =
    (fst (fetch_jobs py env) ++ [Print (MsgCheckError e)],
     (seen_with seen ids_pre, file)).
Proof.
  intros Hfetch Hiter Hpre Hbad. unfold check_for_new_jobs.
  destruct (fetch_jobs py env) as [ev r]; cbn [fst snd] in *. subst r.
  rewrite (py_iter_nonempty_truthy jobs _ Hiter) by (now destruct pre).
  cbn [negb]. rewrite Hiter.
  now rewrite (filter_new_raises py pre bad post seen [] ids_pre e Hpre Hbad).
Qed.
End PipelineMore.

(** X4.  A record whose identifier cannot be computed aborts the cycle:
    the filter loop raises at that record, the cycle prints the error,
    sends no email and writes nothing, and the identifiers of the records
    before it stay in the in-memory seen-set. *)
Theorem cycle_aborted_by_bad_record (py : process) (env : environment)
    (seen : gset pykey) (file : db_file) (jobs : json)
    (pre post : list json) (bad : json) (ids_pre : list string) (e : exn) :
  snd (fetch_jobs py env) = Ok jobs ->
  py_iter jobs = Ok (pre ++ bad :: post) ->
  job_ids py pre = Ok ids_pre ->
  get_job_id py bad = Raise e ->
  filter_new py (pre ++ bad :: post) seen [] = (Raise e, seen_with seen ids_pre) /\
  check_for_new_jobs py env seen file =
    (fst (fetch_jobs py env) ++ [Print (MsgCheckError e)],
     (seen_with seen ids_pre, file)).
Proof.
  intros Hfetch Hiter Hpre Hbad. split.
  - now apply filter_new_raises.
  - now apply (check_for_new_jobs_raises py env seen file jobs pre bad post).
Qed.

Lemma cycle_aborted_by_bad_record_witness :
  snd (check_for_new_jobs process_a
         (env_answering (JObj [("data", JObj [("jobs", JArr [job_1; job_bad])])]))
         ∅ FileAbsent)
  = (seen_with ∅ ["111"], FileAbsent).
Proof.
  destruct (cycle_aborted_by_bad_record process_a
              (env_answering (JObj [("data", JObj [("jobs", JArr [job_1; job_bad])])]))
              ∅ FileAbsent (JArr [job_1_with_id; job_bad_with_id])
              [job_1_with_id] [] job_bad_with_id ["111"] TypeError
              eq_refl eq_refl eq_refl eq_refl) as [_ Hcheck].
  now rewrite Hcheck.
Defined.

(** X5.  A cycle run right after another one, against the same server,
    changes nothing: it leaves the seen-set and the file as the first
    cycle left them, writes nothing and sends no email. *)
Theorem second_cycle_is_quiet (py : process) (env : environment)
    (seen : gset pykey) (file : db_file) :
  let after := snd (check_for_new_jobs py env seen file) in
  let again := check_for_new_jobs py env (fst after) (snd after) in
  snd again = after /\
  writes (fst again) = [] /\
  ~ In resend_url (map fst (posts (fst again))).
Proof.
  cbn zeta.
  destruct (check_for_new_jobs_cases py env seen file)
    as (ev & seen1 & file1 & -> & _ & Hfilter & _).
  cbn [fst snd].
  destruct (check_for_new_jobs_quiet py env seen1 file1) as [msg ->].
  { intros jobs items Hfetch Htruthy Hiter.
    destruct (Hfilter items) as [r Hrun]; [eauto|].
    exists r. now apply (filter_new_again py items seen []). }
  cbn [fst snd]. split; [reflexivity|].
  rewrite writes_print, posts_print. split; [apply fetch_jobs_writes|].
  intros Hin. apply (not_resend_url). now apply (fetch_jobs_post_urls py env).
Qed.

(** X6.  Over a cycle the seen-set only grows, and the state file ends in
    one of three states: as it was, with nothing written; written once,
    holding exactly the seen-set the cycle ends with; or, when [json.dump]
    raised after [open] had emptied the file, without a JSON document, so
    that the identifiers it held are lost: the next start of the program
    prints the error and begins with the empty set. *)
Theorem cycle_keeps_seen_and_file_consistent (py : process) (env : environment)
    (seen : gset pykey) (file : db_file) :
  let trace := fst (check_for_new_jobs py env seen file) in
  let seen1 := fst (snd (check_for_new_jobs py env seen file)) in
  let file1 := snd (snd (check_for_new_jobs py env seen file)) in
  seen ⊆ seen1 /\
  (file1 = file /\ writes trace = [] \/
   file1 = FileJson (db_content env seen1) /\ writes trace = [db_content env seen1] /\
   db_write env = WriteCompletes \/
   file1 = FileInvalid /\ writes trace = [] /\ db_write env = DumpRaises /\
   exists e, JobAlert_init file1 = ([Print (MsgLoadError e)], Ok ∅)).
Proof.
  destruct (check_for_new_jobs_cases py env seen file)
    as (ev & seen1 & file1 & -> & Hsub & _ & _ & Hfile & _).
  cbn. split; [assumption|].
  destruct Hfile as [H|[H|(-> & Hw & Hd)]]; [now left | right; now left |].
  right; right. repeat split; try assumption. eexists. reflexivity.
Qed.

Lemma cycle_keeps_seen_and_file_consistent_witness :
  snd (check_for_new_jobs process_a env_disk_full {[KStr "222"]}
         (FileJson (JObj [("seen_job_ids", JArr [JStr "222"])])))
  = ({[KStr "111"]} ∪ {[KStr "222"]}, FileInvalid).
Proof.
  destruct (cycle_keeps_seen_and_file_consistent process_a env_disk_full {[KStr "222"]}
              (FileJson (JObj [("seen_job_ids", JArr [JStr "222"])])))
    as [_ [[Hf _]|[[Hf _]|[Hf _]]]].
  - vm_compute in Hf. discriminate.
  - vm_compute in Hf. discriminate.
  - vm_compute. reflexivity.
Defined.

(** X7.  A cycle makes at most 11 requests, at most one of them to the
    email API, and writes the state file at most once. *)
Theorem cycle_request_and_write_bounds (py : process) (env : environment)
    (seen : gset pykey) (file : db_file) :
  let trace := fst (check_for_new_jobs py env seen file) in
  (length (posts trace) <= 11)%nat /\
  (length (List.filter (fun r => String.eqb (fst r) resend_url) (posts trace)) <= 1)%nat /\
  (length (writes trace) <= 1)%nat.
Proof.
  cbn zeta.
  destruct (check_for_new_jobs_cases py env seen file)
    as (ev & seen1 & file1 & Heq & _ & _ & _ & Hfile & Hposts).
  pose proof (fetch_jobs_posts_bound py env) as Hbound.
  rewrite Heq. cbn [fst]. split; [lia|]. split.
  2: { destruct Hfile as [[_ ->]|[(_ & -> & _)|(_ & -> & _)]]; cbn; lia. }
  clear Hfile Hposts Hbound.
  revert Heq. unfold check_for_new_jobs.
  pose proof (fetch_jobs_post_urls py env) as Hurls.
  assert (Hnone : forall evf, (forall u, In u (map fst (posts evf)) ->
                                         In u (extract_endpoints ++ scrape_endpoints)) ->
             List.filter (fun r => String.eqb (fst r) resend_url) (posts evf) = []).
  { intros evf Hevf. induction (posts evf) as [|[u p] l IH]; [reflexivity|].
    cbn [List.filter fst]. destruct (String.eqb_spec u resend_url) as [->|_].
    - exfalso. apply not_resend_url. apply Hevf. now left.
    - apply IH. intros u' Hin. apply Hevf. now right. }
  destruct (fetch_jobs py env) as [evf [jobs|e]]; cbn [fst snd] in *.
  2: { intros [= <- _ _]. rewrite posts_print, Hnone by assumption. cbn. lia. }
  destruct (truthy jobs); cbn [negb].
  2: { intros [= <- _ _]. rewrite posts_print, Hnone by assumption. cbn. lia. }
  destruct (py_iter jobs) as [items|e].
  2: { intros [= <- _ _]. rewrite posts_print, Hnone by assumption. cbn. lia. }
  destruct (filter_new py items seen []) as [[new_jobs|e] s1].
  2: { intros [= <- _ _]. rewrite posts_print, Hnone by assumption. cbn. lia. }
  destruct (nonempty new_jobs).
  2: { intros [= <- _ _]. rewrite posts_print, Hnone by assumption. cbn. lia. }
  destruct (send_email_events py env new_jobs) as [_ Hsp].
  assert (Hsend : forall tail, posts tail = [] ->
            (length (List.filter (fun r => String.eqb (fst r) resend_url)
               (posts ((evf ++ [Print (MsgNewJobs (length new_jobs))])
                        ++ fst (send_email py env new_jobs) ++ tail))) <= 1)%nat).
  { intros tail Htail.
    rewrite (posts_app (evf ++ _)), posts_print, posts_app, Htail, app_nil_r,
      List.filter_app, length_app, Hnone by assumption.
    destruct Hsp as [->|[payload ->]]; cbn; lia. }
  destruct (send_email py env new_jobs) as [ev2 [[]|e]]; cbn [fst] in *.
  - destruct (save_seen_jobs_cases env s1 file) as [[-> _]|[->|[-> _]]];
      intros [= <- _ _]; now apply Hsend.
  - intros [= <- _ _]. now apply Hsend.
Qed.

(** X8.  Without [FIRECRAWL_API_KEY] both fetchers raise the configuration
    error before any request, and the cycle only prints it: the seen-set
    and the file stay as they were. *)
Theorem cycle_without_firecrawl_key (py : process) (env : environment)
    (seen : gset pykey) (file : db_file) :
  unset (FIRECRAWL_API_KEY env) = true ->
  exists msg,
    scrape_jobs_with_firecrawl_extract py env = ([], Raise (ValueError msg)) /\
    scrape_jobs_with_firecrawl py env = ([], Raise (ValueError msg)) /\
    check_for_new_jobs py env seen file =
      ([Print (MsgCheckError (ValueError msg))], (seen, file)).
Proof.
  intros Hkey. eexists.
  unfold check_for_new_jobs, fetch_jobs, scrape_jobs_with_firecrawl_extract,
    scrape_jobs_with_firecrawl.
  rewrite Hkey. cbn. repeat split.
Qed.

Lemma cycle_without_firecrawl_key_witness :
  exists msg,
    check_for_new_jobs process_a env_no_firecrawl_key {[KStr "111"]} FileAbsent =
      ([Print (MsgCheckError (ValueError msg))], ({[KStr "111"]}, FileAbsent)).
Proof.
  destruct (cycle_without_firecrawl_key process_a env_no_firecrawl_key
              {[KStr "111"]} FileAbsent eq_refl) as (msg & _ & _ & Hcheck).
  now exists msg.
Defined.

(** ** Identifier store *)

Lemma hashables_key_json keys : hashables (key_json <$> keys) = Ok keys.
Proof.
  induction keys as [|k keys IH]; cbn; [reflexivity|].
  rewrite IH. now destruct k.
Qed.

Lemma hashables_strings ids : hashables (JStr <$> ids) = Ok (KStr <$> ids).
Proof. induction ids as [|i ids IH]; cbn; [reflexivity | now rewrite IH]. Qed.

(** X9.  What [save_seen_jobs] writes, [load_seen_jobs] reads back: when
    the write of the file completes, saving a seen-set and loading the
    file again gives that seen-set, with no error printed. *)
Theorem save_then_load_round_trip (env : environment) (seen seen0 : gset pykey)
    (file : db_file) :
  db_writable env = true ->
  exists file1,
    save_seen_jobs env seen file = ([WriteFile (db_content env seen)], Ok file1) /\
    load_seen_jobs file1 seen0 = ([], Ok seen).
Proof.
  intros Hw. exists (FileJson (db_content env seen)).
  rewrite save_seen_jobs_outcome. unfold db_writable in Hw.
  destruct (db_write env); try discriminate. split; [reflexivity|].
  unfold load_seen_jobs, seen_job_ids_of, db_content. cbn.
  rewrite hashables_key_json. cbn. now rewrite list_to_set_elements_L.
Qed.

Lemma save_then_load_round_trip_witness :
  exists file1,
    save_seen_jobs env_down {[KStr "111"; KStr "222"]} FileInvalid =
      ([WriteFile (db_content env_down {[KStr "111"; KStr "222"]})], Ok file1) /\
    load_seen_jobs file1 ∅ = ([], Ok {[KStr "111"; KStr "222"]}).
Proof.
  apply (save_then_load_round_trip env_down {[KStr "111"; KStr "222"]} ∅ FileInvalid).
  reflexivity.
Defined.

(** X10.  A state file whose ['seen_job_ids'] is a list of strings loads
    as exactly the set of these strings, whatever else the object holds
    and whatever the set was before; an object without that key loads as
    the empty set, without an error. *)
Theorem load_seen_jobs_reads_listed_ids (seen0 : gset pykey) :
  (forall ids rest,
      load_seen_jobs (FileJson (JObj (("seen_job_ids", JArr (JStr <$> ids)) :: rest))) seen0
      = ([], Ok (list_to_set (KStr <$> ids)))) /\
  (forall d,
      dict_lookup "seen_job_ids" d = None ->
      load_seen_jobs (FileJson (JObj d)) seen0 = ([], Ok ∅)).
Proof.
  split.
  - intros ids rest. unfold load_seen_jobs, seen_job_ids_of. cbn.
    now rewrite hashables_strings.
  - intros d Hd. unfold load_seen_jobs, seen_job_ids_of. cbn. now rewrite Hd.
Qed.

Lemma load_seen_jobs_reads_listed_ids_witness :
  load_seen_jobs (FileJson (JObj [("last_updated", JStr "2025-01-01T12:00:00")]))
                 {[KStr "111"]}
  = ([], Ok ∅).
Proof.
  apply (proj2 (load_seen_jobs_reads_listed_ids {[KStr "111"]})). reflexivity.
Defined.

(** ** Parser *)

Lemma startswith_http_origin h : startswith "http" (site_origin +:+ h) = true.
Proof. reflexivity. Qed.

Lemma resolve_href_absolute h link :
  resolve_href h = Some link -> startswith "http" link = true.
Proof.
  unfold resolve_href. destruct (startswith "/" h).
  - intros [= <-]. apply startswith_http_origin.
  - destruct (startswith "http" h) eqn:Hh; [|discriminate]. now intros [= <-].
Qed.

Lemma startswith_http_nonempty link : startswith "http" link = true -> link <> "".
Proof. now destruct link. Qed.

(** The link step of the loop keeps every [href] that begins with [/] or
    with [http]. *)
Lemma resolve_href_kept h :
  startswith "/" h = true \/ startswith "http" h = true ->
  exists link, resolve_href h = Some link.
Proof.
  unfold resolve_href. intros [Hs|Hh].
  - rewrite Hs. now eexists.
  - destruct (startswith "/" h); [now eexists|]. rewrite Hh. now eexists.
Qed.

Lemma find_all_job_links_keeps a anchors h :
  In a anchors -> href a = Some h -> href_matches h = true ->
  In a (find_all_job_links anchors).
Proof.
  intros Hin Hh Hm. unfold find_all_job_links. rewrite filter_In.
  split; [exact Hin|]. now rewrite Hh.
Qed.

(** Every title the loop could accept ends up among the titles that are
    taken: in [seen_titles] already, or as the title of a new record. *)
Lemma parse_job_links_complete job_links : forall seen_titles jobs a,
  In a job_links -> acceptable a ->
  get_text_strip (strings a) ∈ seen_titles \/
  exists kept,
    parse_job_links job_links seen_titles jobs = jobs ++ kept /\
    In (get_text_strip (strings a)) (map record_title kept).
Proof.
  induction job_links as [|link rest IH]; intros seen_titles jobs a Hin Hacc; [destruct Hin|].
  destruct (decide (get_text_strip (strings a) ∈ seen_titles)) as [Hseen|Hnew]; [now left|].
  right. cbn [parse_job_links].
  destruct Hin as [->|Hin].
  - destruct Hacc as (Hne & Hlen & Hhref).
    destruct (resolve_href_kept _ Hhref) as [link Hres].
    destruct (String.eqb_spec (get_text_strip (strings a)) ""); [contradiction|].
    apply Nat.ltb_ge in Hlen. rewrite Hlen.
    rewrite bool_decide_eq_false_2 by assumption. cbn [orb]. rewrite Hres.
    destruct (parse_job_links_spec rest ({[get_text_strip (strings a)]} ∪ seen_titles)
                (jobs ++ [job_record (get_text_strip (strings a))
                            (nearby_text "Unknown" (find_parent a) company_elem)
                            (nearby_text "Location not specified" (find_parent a)
                               location_elem) link]))
      as (kept & -> & _).
    eexists (_ :: kept). rewrite <- app_assoc. split; [reflexivity|]. now left.
  - destruct (_ || _ || _).
    + destruct (IH seen_titles jobs a Hin Hacc) as [Hs|Hk]; [contradiction | exact Hk].
    + destruct (resolve_href _) as [h'|].
      * set (title := get_text_strip (strings link)).
        set (job := job_record title _ _ h').
        destruct (IH ({[title]} ∪ seen_titles) (jobs ++ [job]) a Hin Hacc)
          as [Hs|(kept & -> & Hk)].
        -- apply elem_of_union in Hs as [Hs|Hs]; [|contradiction].
           apply elem_of_singleton in Hs.
           destruct (parse_job_links_spec rest ({[title]} ∪ seen_titles) (jobs ++ [job]))
             as (kept & -> & _).
           exists (job :: kept). rewrite <- app_assoc. split; [reflexivity|].
           left. now rewrite Hs.
        -- exists (job :: kept). rewrite <- app_assoc. split; [reflexivity|]. now right.
      * destruct (IH seen_titles jobs a Hin Hacc) as [Hs|Hk]; [contradiction | exact Hk].
Qed.

Lemma parse_jobs_from_html_shape (env : environment) (html_content : json) :
  exists ev jobs,
    parse_jobs_from_html env html_content = (ev, Ok jobs) /\
    Forall (fun job =>
              exists title company location link,
                job = JObj [("title", JStr title); ("company", JStr company);
                            ("location", JStr location); ("link", JStr link)] /\
                startswith "http" link = true) jobs.
Proof.
  destruct (parse_jobs_from_html_spec env html_content) as (ev & jobs & Heq & _ & Hjobs).
  exists ev, jobs. split; [exact Heq|]. apply List.Forall_forall. intros job Hin.
  destruct (Hjobs job Hin) as (_ & a & _ & _ & _ & _ & _ & link & Hres & _ & _ & ->).
  eexists _, _, _, link. split; [reflexivity|]. now apply (resolve_href_absolute _ _ Hres).
Qed.

(** X11.  The parser loses no title: when the page has the listing, for
    every anchor of the listing whose [href] matches the pattern of job
    links and begins with [/] or with [http], and whose text is not empty
    and has at least 5 characters, that text is the title of one of the
    records [parse_jobs_from_html] returns (built from that anchor or from
    an earlier anchor with the same text). *)
Theorem parser_loses_no_title (env : environment) (html_content : json)
    (anchors : list a_tag) (a : a_tag) (h : string) :
  truthy html_content = true ->
  BeautifulSoup env html_content = OffersList anchors ->
  In a anchors ->
  href a = Some h ->
  href_matches h = true ->
  startswith "/" h = true \/ startswith "http" h = true ->
  get_text_strip (strings a) <> "" ->
  (5 <= String.length (get_text_strip (strings a)))%nat ->
  exists ev jobs,
    parse_jobs_from_html env html_content = (ev, Ok jobs) /\
    In (get_text_strip (strings a)) (map record_title jobs).
Proof.
  intros Htruthy Hsoup Hin Hh Hm Hstart Hne Hlen.
  unfold parse_jobs_from_html. rewrite Htruthy, Hsoup. cbn.
  eexists _, _. split; [reflexivity|].
  assert (Hacc : acceptable a).
  { split; [exact Hne|]. split; [exact Hlen|]. now rewrite Hh. }
  destruct (parse_job_links_complete (find_all_job_links anchors) ∅ [] a
              (find_all_job_links_keeps a anchors h Hin Hh Hm) Hacc)
    as [Hs|(kept & -> & Hk)].
  - set_solver.
  - exact Hk.
Qed.

Lemma parser_loses_no_title_witness :
  exists ev jobs,
    parse_jobs_from_html env_listing (JStr "<html>") = (ev, Ok jobs) /\
    In "React Developer" (map record_title jobs).
Proof.
  apply (parser_loses_no_title env_listing (JStr "<html>") [anchor_ftp; anchor_123]
           anchor_123 "/praca/123").
  - reflexivity.
  - reflexivity.
  - right. left. reflexivity.
  - reflexivity.
  - reflexivity.
  - left. reflexivity.
  - discriminate.
  - vm_compute. lia.
Defined.

(** X12.  Every record the parser returns is an object with exactly the
    keys ['title'], ['company'], ['location'] and ['link'], in this order,
    all four with string values, and its link is absolute: it begins with
    [http]. *)
Theorem parser_records_are_complete_and_absolute (env : environment) (html_content : json) :
  exists ev jobs,
    parse_jobs_from_html env html_content = (ev, Ok jobs) /\
    Forall (fun job =>
              exists title company location link,
                job = JObj [("title", JStr title); ("company", JStr company);
                            ("location", JStr location); ("link", JStr link)] /\
                startswith "http" link = true) jobs.
Proof. apply parse_jobs_from_html_shape. Qed.

(** X13.  The records of the parser always have identifiers: on a batch
    that comes from the parser the filter loop never raises, whatever the
    seen-set. *)
Theorem parser_records_have_identifiers (py : process) (env : environment)
    (html_content : json) (seen : gset pykey) :
  exists ev jobs ids new_jobs,
    parse_jobs_from_html env html_content = (ev, Ok jobs) /\
    job_ids py jobs = Ok ids /\
    filter_new py jobs seen [] = (Ok new_jobs, seen_with seen ids).
Proof.
  destruct (parse_jobs_from_html_shape env html_content)
    as (ev & jobs & Heq & Hshape).
  assert (Hids : exists ids, job_ids py jobs = Ok ids).
  { clear Heq. induction Hshape as [|job rest Hjob _ [ids IH]]; cbn; [now eexists|].
    destruct Hjob as (title & company & location & link & -> & Hlink).
    unfold get_job_id. cbn.
    destruct (String.eqb_spec link "") as [->|_]; [discriminate|].
    cbn. rewrite IH. cbn. now eexists. }
  destruct Hids as [ids Hids].
  destruct (filter_new_total py jobs ids seen Hids) as [new_jobs Hnew].
  now exists ev, jobs, ids, new_jobs.
Qed.

(** ** Fetcher *)

Lemma dict_set_append k v d :
  dict_lookup k d = None -> dict_set k v d = d ++ [(k, v)].
Proof.
  induction d as [|[k0 v0] d IH]; cbn; [reflexivity|].
  destruct (String.eqb k k0); [discriminate|]. intros Hd. now rewrite IH.
Qed.

Lemma dict_lookup_set_eq k v d : dict_lookup k (dict_set k v d) = Some v.
Proof.
  induction d as [|[k0 v0] d IH]; cbn.
  - now rewrite String.eqb_refl.
  - destruct (String.eqb k k0) eqn:Hk; cbn; rewrite Hk; [reflexivity | exact IH].
Qed.

Section FetcherMore.
Variable py : process.
Variable env : environment.

Lemma extract_attempt_scalar_data endpoint payload d v :
  answers (requests_post env endpoint payload (firecrawl_headers py env)) d ->
  dict_lookup "data" d = Some v ->
  is_dict v = false ->
  (forall l, v <> JArr l) ->
  snd (extract_attempt py env endpoint payload) = Raise AttributeError.
Proof.
  intros (r & Hpost & Hstatus & Hbody & Hsuccess) Hdata Hv Hl.
  unfold extract_attempt. rewrite post_unfold, Hpost.
  cbn -[generate_ids]. unfold raise_for_status, response_json.
  rewrite Hstatus, Hbody. cbn -[generate_ids].
  assert (Hs : truthy (match dict_lookup "success" d with
                       | Some v => v | None => JBool true end) = true)
    by (destruct (dict_lookup "success" d); auto).
  rewrite Hs, Hdata. cbn -[generate_ids].
  destruct v as [| | | |l|]; try discriminate; try reflexivity.
  now destruct (Hl l).
Qed.

Lemma scrape_attempt_non_object_data endpoint payload d v :
  answers (requests_post env endpoint payload (firecrawl_headers py env)) d ->
  dict_lookup "data" d = Some v ->
  is_dict v = false ->
  snd (scrape_attempt py env endpoint payload) = Raise AttributeError.
Proof.
  intros (r & Hpost & Hstatus & Hbody & Hsuccess) Hdata Hv.
  unfold scrape_attempt. rewrite post_unfold, Hpost.
  cbn -[parse_jobs_from_html]. unfold raise_for_status, response_json.
  rewrite Hstatus, Hbody. cbn -[parse_jobs_from_html].
  assert (Hs : truthy (match dict_lookup "success" d with
                       | Some v => v | None => JBool true end) = true)
    by (destruct (dict_lookup "success" d); auto).
  rewrite Hs, Hdata. cbn -[parse_jobs_from_html].
  destruct v; try discriminate; reflexivity.
Qed.

Lemma attempts_on_reported_failure endpoint payload :
  reports_failure (requests_post env endpoint payload (firecrawl_headers py env)) ->
  snd (extract_attempt py env endpoint payload) = Ok None /\
  snd (scrape_attempt py env endpoint payload) = Ok None /\
  (exists msg, In (Print (MsgApiError msg)) (fst (extract_attempt py env endpoint payload))) /\
  (exists msg, In (Print (MsgApiError msg)) (fst (scrape_attempt py env endpoint payload))).
Proof.
  intros (r & d & success & Hpost & Hstatus & Hbody & Hsuccess & Hfalsy).
  unfold extract_attempt, scrape_attempt. rewrite !post_unfold, Hpost.
  cbn -[generate_ids parse_jobs_from_html]. unfold raise_for_status, response_json.
  rewrite Hstatus, Hbody. cbn -[generate_ids parse_jobs_from_html].
  rewrite Hsuccess, Hfalsy. cbn.
  repeat split; eexists; right; right; left; reflexivity.
Qed.

Lemma extract_attempt_array_data endpoint payload d :
  answers (requests_post env endpoint payload (firecrawl_headers py env)) d ->
  (dict_lookup "data" d = Some (JArr []) ->
   snd (extract_attempt py env endpoint payload) = Ok None) /\
  (forall first others jobs jobs',
      dict_lookup "data" d = Some (JArr (JObj first :: others)) ->
      dict_lookup "jobs" first = Some (JArr jobs) ->
      jobs <> [] ->
      add_ids py jobs = Ok jobs' ->
      snd (extract_attempt py env endpoint payload) = Ok (Some (JArr jobs'))).
Proof.
  intros (r & Hpost & Hstatus & Hbody & Hsuccess).
  assert (Hs : truthy (match dict_lookup "success" d with
                       | Some v => v | None => JBool true end) = true)
    by (destruct (dict_lookup "success" d); auto).
  split.
  - intros Hdata. unfold extract_attempt. rewrite post_unfold, Hpost.
    cbn -[generate_ids]. unfold raise_for_status, response_json.
    rewrite Hstatus, Hbody. cbn -[generate_ids]. rewrite Hs, Hdata. reflexivity.
  - intros first others jobs jobs' Hdata Hjobs Hne Hadd.
    unfold extract_attempt. rewrite post_unfold, Hpost.
    cbn -[generate_ids]. unfold raise_for_status, response_json.
    rewrite Hstatus, Hbody. cbn -[generate_ids]. rewrite Hs, Hdata.
    cbn -[generate_ids]. rewrite Hjobs. unfold generate_ids. cbn. rewrite Hadd. cbn.
    assert (Hne' : jobs' <> []).
    { intros ->. destruct jobs as [|job rest]; [contradiction|].
      cbn in Hadd. destruct (add_id py job); cbn in Hadd; [|discriminate].
      destruct (add_ids py rest); discriminate. }
    destruct jobs'; [contradiction|]. reflexivity.
Qed.

Lemma scrape_attempt_no_records endpoint payload d html ev :
  delivers (requests_post env endpoint payload (firecrawl_headers py env)) d ->
  dict_lookup "html" d = Some html ->
  truthy html = true ->
  parse_jobs_from_html env html = (ev, Ok []) ->
  snd (scrape_attempt py env endpoint payload) = Ok None.
Proof.
  intros (r & body & Hpost & Hstatus & Hbody & Hsuccess & Hdata) Hhtml Htruthy Hparse.
  unfold scrape_attempt. rewrite post_unfold, Hpost.
  cbn -[parse_jobs_from_html]. unfold raise_for_status, response_json.
  rewrite Hstatus, Hbody. cbn -[parse_jobs_from_html].
  assert (Hs : truthy (match dict_lookup "success" body with
                       | Some v => v | None => JBool true end) = true)
    by (destruct (dict_lookup "success" body); auto).
  rewrite Hs, Hdata. cbn -[parse_jobs_from_html]. rewrite Hhtml.
  unfold py_or at 2. rewrite Htruthy. unfold py_or. rewrite Htruthy.
  cbn -[parse_jobs_from_html]. rewrite Htruthy, Hparse. reflexivity.
Qed.

Lemma add_id_carries_id job job' :
  add_id py job = Ok job' -> py_contains "id" job' = Ok true.
Proof.
  unfold add_id. destruct (py_contains "id" job) as [[|]|e] eqn:Hid; cbn.
  - now intros [= <-].
  - destruct job as [| | | | |d]; try discriminate. cbn.
    intros [= <-]. cbn. now rewrite dict_lookup_set_eq.
  - discriminate.
Qed.

Lemma add_ids_carry_id jobs : forall jobs',
  add_ids py jobs = Ok jobs' ->
  Forall (fun job => py_contains "id" job = Ok true) jobs'.
Proof.
  induction jobs as [|job rest IH]; cbn [add_ids]; intros jobs'.
  - intros [= <-]. constructor.
  - destruct (add_id py job) as [job1|e] eqn:Hjob; cbn; [|discriminate].
    destruct (add_ids py rest) as [rest1|e]; cbn; [|discriminate].
    intros [= <-]. constructor; [now apply (add_id_carries_id job) | now apply IH].
Qed.

Lemma generate_ids_carry_id jobs jobs' :
  generate_ids py jobs = Ok (JArr jobs') ->
  Forall (fun job => py_contains "id" job = Ok true) jobs'.
Proof.
  unfold generate_ids.
  destruct (py_iter jobs) as [items|e] eqn:Hiter; cbn; [|discriminate].
  destruct (add_ids py items) as [items'|e] eqn:Hadd; cbn; [|discriminate].
  destruct jobs; try discriminate. intros [= <-]. now apply (add_ids_carry_id items).
Qed.

Lemma extract_attempt_carries_id endpoint payload jobs :
  snd (extract_attempt py env endpoint payload) = Ok (Some (JArr jobs)) ->
  Forall (fun job => py_contains "id" job = Ok true) jobs.
Proof.
  unfold extract_attempt. rewrite post_unfold.
  destruct (requests_post env endpoint payload _) as [r| |]; try discriminate.
  cbn -[generate_ids]. unfold raise_for_status, response_json.
  repeat (break_match; cbn -[generate_ids]); try discriminate.
  all: intros [= ->];
    match goal with
    | H : generate_ids py _ = Ok (JArr _) |- _ => exact (generate_ids_carry_id _ _ H)
    end.
Qed.

Lemma parse_jobs_from_html_no_listing html :
  truthy html = true ->
  BeautifulSoup env html = NoOffersList ->
  parse_jobs_from_html env html = ([Print (MsgParseError AttributeError)], Ok []).
Proof.
  intros Htruthy Hsoup. unfold parse_jobs_from_html. now rewrite Htruthy, Hsoup.
Qed.

End FetcherMore.

(** X14.  An exception that is not a request exception is not contained:
    with the API key set, when the combinations before one all go on and
    the turn of that one raises, the fetcher raises the same exception and
    that combination is its last request.  In extract mode the fetcher as
    a whole raises too, without trying scrape mode. *)
Theorem raising_turn_ends_fetch (py : process) (env : environment) :
  unset (FIRECRAWL_API_KEY env) = false ->
  (forall pre endpoint payload post e,
      combos extract_endpoints (extract_payloads env) = pre ++ (endpoint, payload) :: post ->
      Forall (fun c => snd (extract_attempt py env (fst c) (snd c)) = Ok None) pre ->
      snd (extract_attempt py env endpoint payload) = Raise e ->
      snd (scrape_jobs_with_firecrawl_extract py env) = Raise e /\
      snd (fetch_jobs py env) = Raise e /\
      posts (fst (fetch_jobs py env)) = pre ++ [(endpoint, payload)]) /\
  (forall pre endpoint payload post e,
      combos scrape_endpoints (scrape_payloads env) = pre ++ (endpoint, payload) :: post ->
      Forall (fun c => snd (scrape_attempt py env (fst c) (snd c)) = Ok None) pre ->
      snd (scrape_attempt py env endpoint payload) = Raise e ->
      snd (scrape_jobs_with_firecrawl py env) = Raise e /\
      posts (fst (scrape_jobs_with_firecrawl py env)) = pre ++ [(endpoint, payload)]).
Proof.
  intros Hkey. split.
  - intros pre endpoint payload post e Hcs Hpre Hc.
    unfold fetch_jobs. rewrite (extract_as_scan py env Hkey).
    destruct (scan_raises (extract_attempt py env) _ pre (endpoint, payload) post e
                (extract_attempt_posts py env) Hcs Hpre Hc) as [Hr Hp].
    cbn zeta in Hr, Hp.
    destruct (io_bind (for_each (combos extract_endpoints _) _) _) as [ev r].
    cbn [fst snd] in Hr, Hp. subst r. cbn -[posts].
    split; [reflexivity|]. split; [reflexivity | exact Hp].
  - intros pre endpoint payload post e Hcs Hpre Hc.
    rewrite (scrape_as_scan py env Hkey).
    exact (scan_raises (scrape_attempt py env) _ pre (endpoint, payload) post e
             (scrape_attempt_posts py env) Hcs Hpre Hc).
Qed.

Lemma raising_turn_ends_fetch_witness :
  snd (fetch_jobs process_a
         (env_answering (JObj [("success", JBool true); ("data", JNull)]))) =
    Raise AttributeError /\
  map fst (posts (fst (fetch_jobs process_a
         (env_answering (JObj [("success", JBool true); ("data", JNull)]))))) =
    ["https://api.firecrawl.dev/v2/extract"].
Proof.
  set (env := env_answering (JObj [("success", JBool true); ("data", JNull)])).
  destruct (raising_turn_ends_fetch process_a env eq_refl) as (Hextract & _).
  destruct (Hextract []
              "https://api.firecrawl.dev/v2/extract"
              (nth 0 (extract_payloads env) JNull)
              (skipn 1 (combos extract_endpoints (extract_payloads env)))
              AttributeError)
    as (_ & Hres & Hposts).
  - reflexivity.
  - constructor.
  - vm_compute. reflexivity.
  - split; [exact Hres|]. rewrite Hposts. reflexivity.
Defined.

(** X15.  A response with status 200 whose body is an object that does
    not report failure but whose ['data'] is not an object makes the turn
    raise [AttributeError]: in scrape mode whatever the value is, in
    extract mode unless it is a list. *)
Theorem non_object_data_raises (py : process) (env : environment)
    (endpoint : string) (payload : json) (d : list (string * json)) (v : json) :
  answers (requests_post env endpoint payload (firecrawl_headers py env)) d ->
  dict_lookup "data" d = Some v ->
  is_dict v = false ->
  snd (scrape_attempt py env endpoint payload) = Raise AttributeError /\
  ((forall l, v <> JArr l) ->
   snd (extract_attempt py env endpoint payload) = Raise AttributeError).
Proof.
  intros Hanswers Hdata Hv. split.
  - now apply (scrape_attempt_non_object_data py env _ _ d v).
  - intros Hl. now apply (extract_attempt_scalar_data py env _ _ d v).
Qed.

Lemma non_object_data_raises_witness :
  snd (scrape_attempt process_a
         (env_answering (JObj [("data", JStr "<html>")]))
         "https://api.firecrawl.dev/v2/scrape" JNull) = Raise AttributeError /\
  snd (extract_attempt process_a
         (env_answering (JObj [("data", JStr "<html>")]))
         "https://api.firecrawl.dev/v2/scrape" JNull) = Raise AttributeError.
Proof.
  destruct (non_object_data_raises process_a
              (env_answering (JObj [("data", JStr "<html>")]))
              "https://api.firecrawl.dev/v2/scrape" JNull
              [("data", JStr "<html>")] (JStr "<html>")) as [Hs He].
  - eexists. split; [reflexivity|]. split; [reflexivity|]. split; [reflexivity | exact I].
  - reflexivity.
  - reflexivity.
  - split; [exact Hs | apply He; discriminate].
Defined.

(** X16.  A page without the [offers-list] element yields no records: the
    parser catches the [AttributeError] of [find_all], prints it and
    returns the empty list, and a scrape turn whose page gives the parser
    no records goes on.  With the API key set, when every scrape request
    delivers such a page, [scrape_jobs_with_firecrawl] returns the empty
    list after trying all six combinations. *)
Theorem page_without_listing_yields_nothing (py : process) (env : environment) :
  unset (FIRECRAWL_API_KEY env) = false ->
  (forall html,
      truthy html = true ->
      BeautifulSoup env html = NoOffersList ->
      parse_jobs_from_html env html = ([Print (MsgParseError AttributeError)], Ok [])) /\
  (forall endpoint payload d html ev,
      delivers (requests_post env endpoint payload (firecrawl_headers py env)) d ->
      dict_lookup "html" d = Some html ->
      truthy html = true ->
      parse_jobs_from_html env html = (ev, Ok []) ->
      snd (scrape_attempt py env endpoint payload) = Ok None) /\
  ((forall endpoint payload,
       exists d html,
         delivers (requests_post env endpoint payload (firecrawl_headers py env)) d /\
         dict_lookup "html" d = Some html /\
         truthy html = true /\
         BeautifulSoup env html = NoOffersList) ->
   snd (scrape_jobs_with_firecrawl py env) = Ok (JArr []) /\
   posts (fst (scrape_jobs_with_firecrawl py env)) =
     combos scrape_endpoints (scrape_payloads env)).
Proof.
  intros Hkey. split; [|split].
  - apply parse_jobs_from_html_no_listing.
  - apply scrape_attempt_no_records.
  - intros Hall. rewrite (scrape_as_scan py env Hkey).
    apply (scan_none (scrape_attempt py env)); [apply scrape_attempt_posts|].
    apply Forall_forall. intros [endpoint payload] _. cbn [fst snd].
    destruct (Hall endpoint payload) as (d & html & Hd & Hhtml & Htruthy & Hsoup).
    eapply scrape_attempt_no_records; eauto.
    now apply parse_jobs_from_html_no_listing.
Qed.

Lemma page_without_listing_yields_nothing_witness :
  snd (scrape_jobs_with_firecrawl process_a env_no_container) = Ok (JArr []) /\
  length (posts (fst (scrape_jobs_with_firecrawl process_a env_no_container))) = 6%nat.
Proof.
  destruct (page_without_listing_yields_nothing process_a env_no_container eq_refl)
    as (_ & _ & Hall).
  destruct Hall as [Hres Hposts].
  - intros endpoint payload. exists [("html", JStr "<html>")], (JStr "<html>").
    split; [|repeat split].
    eexists _, _. split; [reflexivity|]. split; [reflexivity|].
    split; [reflexivity|]. split; reflexivity.
  - split; [exact Hres|]. rewrite Hposts. reflexivity.
Defined.

(** X17.  A response with status 200 whose body is an object with a falsy
    ['success'] is a fourth way for a turn to go on: in either mode the
    turn raises nothing, returns nothing and prints the error message of
    the API. *)
Theorem reported_failure_goes_on (py : process) (env : environment)
    (endpoint : string) (payload : json) :
  reports_failure (requests_post env endpoint payload (firecrawl_headers py env)) ->
  snd (extract_attempt py env endpoint payload) = Ok None /\
  snd (scrape_attempt py env endpoint payload) = Ok None /\
  (exists msg, In (Print (MsgApiError msg)) (fst (extract_attempt py env endpoint payload))) /\
  (exists msg, In (Print (MsgApiError msg)) (fst (scrape_attempt py env endpoint payload))).
Proof. apply attempts_on_reported_failure. Qed.

Lemma reported_failure_goes_on_witness :
  snd (extract_attempt process_a
         (env_answering (JObj [("success", JBool false); ("error", JStr "quota")]))
         "https://api.firecrawl.dev/v2/extract" JNull) = Ok None.
Proof.
  apply (reported_failure_goes_on process_a
           (env_answering (JObj [("success", JBool false); ("error", JStr "quota")]))
           "https://api.firecrawl.dev/v2/extract" JNull).
  eexists _, _, _. split; [reflexivity|]. split; [reflexivity|].
  split; [reflexivity|]. split; reflexivity.
Defined.

(** X18.  When ['data'] is a list, extract mode reads its first element
    only: an empty list makes the turn go on, and a list whose first
    element is an object with a non-empty list of records under ['jobs']
    makes the turn return these records, with their identifiers, whatever
    the other elements are. *)
Theorem extract_reads_first_element (py : process) (env : environment)
    (endpoint : string) (payload : json) (d : list (string * json)) :
  answers (requests_post env endpoint payload (firecrawl_headers py env)) d ->
  (dict_lookup "data" d = Some (JArr []) ->
   snd (extract_attempt py env endpoint payload) = Ok None) /\
  (forall first others jobs jobs',
      dict_lookup "data" d = Some (JArr (JObj first :: others)) ->
      dict_lookup "jobs" first = Some (JArr jobs) ->
      jobs <> [] ->
      add_ids py jobs = Ok jobs' ->
      snd (extract_attempt py env endpoint payload) = Ok (Some (JArr jobs'))).
Proof. apply extract_attempt_array_data. Qed.

Lemma extract_reads_first_element_witness :
  snd (extract_attempt process_a
         (env_answering (JObj [("data", JArr [JObj [("jobs", JArr [job_1_with_id])]; JNull])]))
         "https://api.firecrawl.dev/v2/extract" JNull) =
    Ok (Some (JArr [job_1_with_id])).
Proof.
  destruct (extract_reads_first_element process_a
              (env_answering (JObj [("data", JArr [JObj [("jobs", JArr [job_1_with_id])]; JNull])]))
              "https://api.firecrawl.dev/v2/extract" JNull
              [("data", JArr [JObj [("jobs", JArr [job_1_with_id])]; JNull])])
    as [_ Hfirst].
  - eexists. split; [reflexivity|]. split; [reflexivity|]. split; [reflexivity | exact I].
  - apply (Hfirst [("jobs", JArr [job_1_with_id])] [JNull] [job_1_with_id]).
    + reflexivity.
    + reflexivity.
    + discriminate.
    + reflexivity.
Defined.

(** X19.  Every record extract mode returns has an ['id']: when
    [scrape_jobs_with_firecrawl_extract] returns a list, ['id' in job]
    holds for each of its items. *)
Theorem extract_records_carry_id (py : process) (env : environment)
    (jobs : list json) :
  snd (scrape_jobs_with_firecrawl_extract py env) = Ok (JArr jobs) ->
  Forall (fun job => py_contains "id" job = Ok true) jobs.
Proof.
  destruct (unset (FIRECRAWL_API_KEY env)) eqn:Hkey.
  - unfold scrape_jobs_with_firecrawl_extract. rewrite Hkey. discriminate.
  - rewrite (extract_as_scan py env Hkey).
    destruct (for_each _ _) as [ev [[found|]|e]] eqn:Hscan; cbn; try discriminate.
    + intros [= ->].
      destruct (for_each_returns _ _ (JArr jobs) (f_equal snd Hscan))
        as ([endpoint payload] & _ & Hc).
      now apply (extract_attempt_carries_id py env endpoint payload).
    + intros [= <-]. constructor.
Qed.

Lemma extract_records_carry_id_witness :
  Forall (fun job => py_contains "id" job = Ok true)
    [JObj [("title", JStr "Dev"); ("company", JStr "Acme");
           ("location", JStr "Warszawa");
           ("link", JStr "https://it.pracuj.pl/praca/9");
           ("id", JInt 222)]].
Proof.
  apply (extract_records_carry_id process_a env_short_title).
  vm_compute. reflexivity.
Defined.

(** X20.  The identifier extract mode adds to a record without one is an
    integer from 0 up to, but not including, 10^10, stored under ['id']
    after the fields the record had, which are left as they were. *)
Theorem added_id_is_appended_and_in_range (py : process)
    (d : list (string * json)) :
  dict_lookup "id" d = None ->
  exists n, 0 <= n < 10 ^ 10 /\
    add_id py (JObj d) = Ok (JObj (d ++ [("id", JInt n)])).
Proof.
  intros Hd. unfold add_id. cbn. rewrite Hd. cbn. eexists.
  split; [apply Z.mod_pos_bound; lia|]. now rewrite (dict_set_append _ _ _ Hd).
Qed.

Lemma added_id_is_appended_and_in_range_witness :
  exists n, 0 <= n < 10 ^ 10 /\
    add_id process_a job_dev =
      Ok (JObj [("title", JStr "Dev"); ("company", JStr "Acme");
                ("location", JStr "Warszawa");
                ("link", JStr "https://it.pracuj.pl/praca/9");
                ("id", JInt n)]).
Proof.
  apply (added_id_is_appended_and_in_range process_a
           [("title", JStr "Dev"); ("company", JStr "Acme");
            ("location", JStr "Warszawa");
            ("link", JStr "https://it.pracuj.pl/praca/9")]).
  reflexivity.
Defined.

(** ** Notifier *)

(** X21.  With the key of the email API set and a non-empty list of
    objects, [send_email] makes exactly one request, to the email API,
    whatever the answer: from the fixed sender, to the one configured
    address, with the number of records in the subject. *)
Theorem send_email_makes_one_request (py : process) (env : environment)
    (jobs : list json) :
  unset (RESEND_API_KEY env) = false ->
  jobs <> [] ->
  Forall (fun job => is_dict job = true) jobs ->
  exists payload,
    posts (fst (send_email py env jobs)) = [(resend_url, payload)] /\
    py_getitem payload "from" = Ok (JStr "Job Alert <onboarding@resend.dev>") /\
    py_getitem payload "to" = Ok (JArr [getenv_json (EMAIL_TO env)]) /\
    py_getitem payload "subject" =
      Ok (JStr ("New React Job Postings Found (" +:+ pretty (length jobs) +:+ " new)")).
Proof.
  intros Hkey Hne Hdicts. unfold send_email. rewrite Hkey.
  destruct jobs as [|job rest]; [contradiction|]. cbn [nonempty negb].
  destruct (html_jobs_dicts py env _ Hdicts) as [rows ->].
  destruct (text_jobs_dicts py _ Hdicts) as [items ->].
  cbn [lift io_bind app]. rewrite post_unfold.
  match goal with
  | |- context [requests_post env ?u ?p ?h] =>
      exists p; destruct (requests_post env u p h) as [r| |]
  end.
  2, 3: split; [reflexivity|]; repeat split.
  split; [|repeat split].
  cbn. unfold raise_for_status, response_json.
  repeat (break_match; cbn); reflexivity.
Qed.

Lemma send_email_makes_one_request_witness :
  exists payload,
    posts (fst (send_email process_a env_email_down [job_1; job_2])) =
      [(resend_url, payload)] /\
    py_getitem payload "from" = Ok (JStr "Job Alert <onboarding@resend.dev>") /\
    py_getitem payload "to" = Ok (JArr [JStr "me@example.com"]) /\
    py_getitem payload "subject" = Ok (JStr "New React Job Postings Found (2 new)").
Proof.
  apply (send_email_makes_one_request process_a env_email_down [job_1; job_2]).
  - reflexivity.
  - discriminate.
  - repeat constructor.
Defined.
